(** * GOALDEN: admin server actions, dashboard aggregates and tournament badges

    A shallow embedding of the TypeScript sources

      - [app/actions] communication module (announcements, admin messages),
      - [app/actions] system module (settings, health, roles),
      - [components/admin/analytics/analytics-dashboard.tsx] (the figures
        computed at the end of [loadAnalytics]),
      - [components/tournaments] [TournamentHeader] (badge colour tables
        and badge texts) and [ShareButton],
      - the client components [AdminCommunication] and
        [SystemAdministration] (the handlers that call the actions),
      - the player and admin tournament pages ([generateMetadata] and the
        page functions),

    followed by the properties established about them.

    JavaScript numbers are IEEE-754 binary64 values; they are modelled with
    the Standard Library's executable specification [spec_float], so that
    every arithmetic step rounds exactly as the JavaScript engine does. *)

From Stdlib Require Import ZArith List String Ascii DecimalString Bool Lia.
From Stdlib Require Import Floats.SpecFloat.
From Stdlib Require Import Reals Lra.
Import ListNotations.

Local Open Scope string_scope.
Local Open Scope Z_scope.

(* ================================================================== *)
(** * JavaScript numbers *)
(* ================================================================== *)

Module JsNumber.

(** A JavaScript [number]: binary64, precision 53, exponent bound 1024. *)
Definition number : Type := spec_float.

Definition prec : Z := 53.
Definition emax : Z := 1024.

(** An integer literal or an integer-valued quantity (array length,
    millisecond count) as a number: the nearest binary64, which is the
    integer itself below 2^53. *)
Definition of_Z (z : Z) : number := binary_normalize prec emax z 0 false.

Definition NaN : number := S754_nan.

(** [x + y], [x - y], [x * y], [x / y]. *)
Definition add : number -> number -> number := SFadd prec emax.
Definition sub : number -> number -> number := SFsub prec emax.
Definition mul : number -> number -> number := SFmul prec emax.
Definition div : number -> number -> number := SFdiv prec emax.

(** [x > y] (false as soon as one side is NaN). *)
Definition gt (x y : number) : bool := SFltb y x.

(** A decimal literal [m / 10^k] written in the source, such as [0.8]
    (8, 1) or [99.9] (999, 1): the binary64 nearest to the decimal.  Both
    [m] and [10^k] are exact here and the quotient is correctly rounded. *)
Definition decimal (m : Z) (k : nat) : number :=
  div (of_Z m) (of_Z (10 ^ Z.of_nat k)).

(** Truthiness of a number: [0], [-0] and [NaN] are falsy. *)
Definition truthy (x : number) : bool :=
  match x with
  | S754_zero _ | S754_nan => false
  | _ => true
  end.

(** [Math.round(x)]: the integer closest to [x], ties towards +infinity;
    NaN and the infinities are returned unchanged, and so is any value
    that is already an integer.  The sign of a zero result is that of
    [x].  The integer [floor (x + 1/2)] is computed exactly from the
    mantissa and the exponent. *)
Definition Math_round (x : number) : number :=
  match x with
  | S754_finite s m e =>
      if 0 <=? e then x
      else
        let den := 2 ^ (- e) in
        let num := if s then Z.neg m else Z.pos m in
        let r := (2 * num + den) / (2 * den) in
        if r =? 0 then S754_zero s else of_Z r
  | _ => x
  end.

End JsNumber.

Import JsNumber.

(* ================================================================== *)
(** * The real value of a number *)
(* ================================================================== *)

Module Binary64.

(** [2^e]. *)
Definition bpow (e : Z) : R := powerRZ 2 e.

(** The real number that a finite number stands for (0 for the others). *)
Definition value (x : number) : R :=
  match x with
  | S754_finite s m e => (IZR (cond_Zopp s (Zpos m)) * bpow e)%R
  | _ => 0%R
  end.

(** A positive normal number: finite, positive, with a full mantissa of
    53 binary digits. *)
Definition pos_normal (x : number) : Prop :=
  exists m e, x = S754_finite false m e /\ Zpos (digits2_pos m) = 53.

(** The relative error allowed to one rounding in the bounds, 2^-52. *)
Definition u : R := (/ 4503599627370496)%R.

(** A positive normal number between 2^-900 and 2^900. *)
Definition in_normal_range (x : number) : Prop :=
  pos_normal x /\ (bpow (-900) <= value x <= bpow 900)%R.

End Binary64.

Import Binary64.

(* ================================================================== *)
(** * JavaScript values *)
(* ================================================================== *)

Module Js.

Set Warnings "-register-all".

(** The values that travel between the actions, the database client and
    the caller: JSON data plus [undefined].  An object keeps its
    properties in insertion order. *)
Inductive Json : Type :=
| JUndefined
| JNull
| JBool (b : bool)
| JNum (x : number)
| JStr (s : string)
| JArr (items : list Json)
| JObj (fields : list (string * Json)).

(** [!!v]. *)
Definition truthy (v : Json) : bool :=
  match v with
  | JUndefined | JNull => false
  | JBool b => b
  | JNum x => JsNumber.truthy x
  | JStr s => negb (String.eqb s "")
  | JArr _ | JObj _ => true
  end.

(** [a || b]. *)
Definition or_else (a b : Json) : Json := if truthy a then a else b.

Fixpoint lookup (k : string) (fields : list (string * Json)) : option Json :=
  match fields with
  | [] => None
  | (k', v) :: rest => if String.eqb k k' then Some v else lookup k rest
  end.

(** [o.k] for a value that is neither [null] nor [undefined]: the own
    property, or [undefined].  (Rows and settings are plain data objects;
    inherited members such as [toString] are not modelled.) *)
Definition prop (o : Json) (k : string) : Json :=
  match o with
  | JObj fields =>
      match lookup k fields with
      | Some v => v
      | None => JUndefined
      end
  | _ => JUndefined
  end.

(** [o.k] in general: reading a property of [null] or [undefined] raises
    a TypeError, rendered here as [None]. *)
Definition member (o : Json) (k : string) : option Json :=
  match o with
  | JNull | JUndefined => None
  | _ => Some (prop o k)
  end.

(** [o?.k]. *)
Definition opt_member (o : Json) (k : string) : Json :=
  match o with
  | JNull | JUndefined => JUndefined
  | _ => prop o k
  end.

(** Assignment of one property: an existing key keeps its position. *)
Fixpoint set_field (k : string) (v : Json) (fields : list (string * Json))
  : list (string * Json) :=
  match fields with
  | [] => [(k, v)]
  | (k', v') :: rest =>
      if String.eqb k k' then (k, v) :: rest
      else (k', v') :: set_field k v rest
  end.

(** The key of the [i]-th element of an array or string: its index in
    decimal. *)
Definition index_key (i : nat) : string := NilEmpty.string_of_uint (Nat.to_uint i).

Fixpoint indexed (i : nat) (items : list Json) : list (string * Json) :=
  match items with
  | [] => []
  | x :: rest => (index_key i, x) :: indexed (S i) rest
  end.

Fixpoint characters (s : string) : list Json :=
  match s with
  | EmptyString => []
  | String ch rest => JStr (String ch EmptyString) :: characters rest
  end.

(** The own enumerable properties that [{...v}] copies.  Objects give
    their fields, arrays their elements and strings their characters
    under index keys; [null], [undefined], booleans and numbers give
    none. *)
Definition own_fields (v : Json) : list (string * Json) :=
  match v with
  | JObj fields => fields
  | JArr items => indexed 0 items
  | JStr s => indexed 0 (characters s)
  | _ => []
  end.

(** An object literal, written as the list of its members in source
    order: a [Field] is [k: v], a [Spread] is [...v]. *)
Inductive Member : Type :=
| Field (k : string) (v : Json)
| Spread (v : Json).

Definition add_member (acc : list (string * Json)) (m : Member)
  : list (string * Json) :=
  match m with
  | Field k v => set_field k v acc
  | Spread v => fold_left (fun a kv => set_field (fst kv) (snd kv) a) (own_fields v) acc
  end.

Definition object (members : list Member) : Json :=
  JObj (fold_left add_member members []).

(** A property that is written only when the optional value is present
    (an optional field of a typed argument object). *)
Definition optional_field (k : string) (v : option Json) : list Member :=
  match v with
  | Some x => [Field k x]
  | None => []
  end.

End Js.

Import Js.

Notation "k ':::' v" := (Field k v) (at level 60, no associativity).

(* ================================================================== *)
(** * Server actions: the request model *)
(* ================================================================== *)

Module Server.

(** The profile returned by [getCurrentUser()] (module [./auth]); the
    actions read its [id] and [role] only. *)
Record User : Type := { user_id : string; user_role : string }.

(** The error object of the database client. *)
Record PostgrestError : Type := { message : string; code : string }.

(** What an awaited query resolves to: [{ data, error, count }]. *)
Record Response : Type :=
  { data : Json; error : option PostgrestError; count : option number }.

(** One call of the query-builder chain that follows [.from(table)]. *)
Inductive Step : Type :=
| Select (columns : string)        (* .select(columns) *)
| SelectCount (columns : string)   (* .select(columns, { count: 'exact', head: true }) *)
| SelectInserted                   (* .select() after an insert *)
| Insert (row : Json)              (* .insert(row) *)
| Update (patch : Json)            (* .update(patch) *)
| Upsert (row : Json)              (* .upsert(row) *)
| WhereEq (column : string) (value : Json)   (* .eq(column, value) *)
| WhereGte (column : string) (value : Json)  (* .gte(column, value) *)
| Order (column : string) (ascending : bool) (* .order(column, { ascending }) *)
| Single                           (* .single() *)
| Limit (n : Z).                   (* .limit(n) *)

Record Query : Type := { from : string; steps : list Step }.

Definition writes (s : Step) : bool :=
  match s with
  | Insert _ | Update _ | Upsert _ => true
  | _ => false
  end.

(** A query that changes the database. *)
Definition is_write (q : Query) : bool := existsb writes (steps q).

(** What a request does to the outside, in order. *)
Inductive Event : Type :=
| Queried (q : Query)
| Revalidated (path : string).

(** An [async] server action: a computation that asks for the current
    user, reads the clock, awaits database queries and revalidates cached
    pages, and then returns or throws.  The database client obtained from
    [createClient()] is the implicit target of [Db]. *)
Inductive Action (A : Type) : Type :=
| Return (a : A)
| Throw (err : string)
| GetCurrentUser (k : option User -> Action A)
| NewDate (k : Z -> Action A)
| Db (q : Query) (k : Response -> Action A)
| RevalidatePath (path : string) (k : Action A).

Arguments Return {A} a.
Arguments Throw {A} err.
Arguments GetCurrentUser {A} k.
Arguments NewDate {A} k.
Arguments Db {A} q k.
Arguments RevalidatePath {A} path k.

Fixpoint bind {A B : Type} (m : Action A) (f : A -> Action B) : Action B :=
  match m with
  | Return a => f a
  | Throw e => Throw e
  | GetCurrentUser k => GetCurrentUser (fun u => bind (k u) f)
  | NewDate k => NewDate (fun t => bind (k t) f)
  | Db q k => Db q (fun r => bind (k r) f)
  | RevalidatePath p k => RevalidatePath p (bind k f)
  end.

Definition getCurrentUser : Action (option User) := GetCurrentUser Return.
(** [new Date()] and [Date.now()]: the clock, in milliseconds since the epoch. *)
Definition newDate : Action Z := NewDate Return.
Definition query (q : Query) : Action Response := Db q Return.
Definition revalidatePath (path : string) : Action unit := RevalidatePath path (Return tt).
(** A step that raises a TypeError when the value read is [None]. *)
Definition orThrow {A : Type} (v : option A) : Action A :=
  match v with
  | Some a => Return a
  | None => Throw "TypeError"
  end.

(** The world a request runs in: who is signed in, what the clock shows at
    each successive reading, and what the database answers to the [n]-th
    query of the request. *)
Record World : Type :=
  { current_user : option User;
    clock : nat -> Z;
    database : nat -> Query -> Response }.

Inductive Outcome (A : Type) : Type :=
| Returned (a : A)
| Thrown (err : string).

Arguments Returned {A} a.
Arguments Thrown {A} err.

(** Running an action: its outcome and the events it caused.  [tick]
    counts the clock readings and [nth] the queries made so far. *)
Fixpoint run {A : Type} (m : Action A) (w : World) (tick nth : nat)
  : Outcome A * list Event :=
  match m with
  | Return a => (Returned a, [])
  | Throw e => (Thrown e, [])
  | GetCurrentUser k => run (k (current_user w)) w tick nth
  | NewDate k => run (k (clock w tick)) w (S tick) nth
  | Db q k =>
      let (o, t) := run (k (database w nth q)) w tick (S nth) in
      (o, Queried q :: t)
  | RevalidatePath p k =>
      let (o, t) := run k w tick nth in
      (o, Revalidated p :: t)
  end.

(** A whole request. *)
Definition request {A : Type} (m : Action A) (w : World) : Outcome A * list Event :=
  run m w 0%nat 0%nat.

Definition queries (t : list Event) : list Query :=
  flat_map (fun e => match e with Queried q => [q] | Revalidated _ => [] end) t.

(** The database writes among the events of a request. *)
Definition db_writes (t : list Event) : list Query :=
  filter is_write (queries t).

(** [!user || user.role !== 'admin']. *)
Definition not_admin (user : option User) : bool :=
  match user with
  | None => true
  | Some u => negb (String.eqb (user_role u) "admin")
  end.

End Server.

Import Server.

Notation "x <- m ;; k" := (bind m (fun x => k))
  (at level 61, m at next level, right associativity).
Notation "m ;; k" := (bind m (fun _ => k))
  (at level 61, right associativity).

(* ================================================================== *)
(** * Analytics dashboard: the figures of [loadAnalytics] *)
(* ================================================================== *)

Module Analytics.

(** The length of an array, or a count obtained with [.length], as a
    number. *)
Definition of_length (n : nat) : number := of_Z (Z.of_nat n).

(** [revenue.growth]:
    [monthlyRevenue > 0
       ? Math.round(((monthlyRevenue - (monthlyRevenue * 0.8)) / (monthlyRevenue * 0.8)) * 100)
       : 0]. *)
Definition revenue_growth (monthlyRevenue : number) : number :=
  if gt monthlyRevenue (of_Z 0)
  then Math_round
         (mul (div (sub monthlyRevenue (mul monthlyRevenue (decimal 8 1)))
                   (mul monthlyRevenue (decimal 8 1)))
              (of_Z 100))
  else of_Z 0.

(** [players.growth], the same expression on [newPlayersThisMonth] (the
    length of a filtered array) with [0.7]. *)
Definition players_growth (newPlayersThisMonth : nat) : number :=
  if (0 <? newPlayersThisMonth)%nat
  then let n := of_length newPlayersThisMonth in
       Math_round (mul (div (sub n (mul n (decimal 7 1))) (mul n (decimal 7 1)))
                       (of_Z 100))
  else of_Z 0.

(** [length > 0 ? Math.round((part / length) * 100) : 0] on two array
    lengths. *)
Definition rate (part length : nat) : number :=
  if (0 <? length)%nat
  then Math_round (mul (div (of_length part) (of_length length)) (of_Z 100))
  else of_Z 0.

(** [tournaments.completionRate]. *)
Definition completionRate (completedTournaments filteredTournaments_length : nat) : number :=
  rate completedTournaments filteredTournaments_length.

(** [matches.disputeRate]; [disputedMatches] is [disputes.length]. *)
Definition disputeRate (disputedMatches filteredMatches_length : nat) : number :=
  rate disputedMatches filteredMatches_length.

End Analytics.

(* ================================================================== *)
(** * Tournament header: badge colours *)
(* ================================================================== *)

Module TournamentHeader.

Definition statusColors : list (string * string) :=
  [ ("registration", "bg-blue-500");
    ("ongoing", "bg-[#00FF88]");
    ("paused", "bg-yellow-500");
    ("completed", "bg-gray-500");
    ("cancelled", "bg-red-500") ].

Definition formatColors : list (string * string) :=
  [ ("single_elimination", "bg-[#FFB800]");
    ("double_elimination", "bg-purple-500") ].

(** [table[key]]: the class name, or [undefined] ([None]) when [key] is
    not a key of the table. *)
Fixpoint lookup_class (table : list (string * string)) (key : string) : option string :=
  match table with
  | [] => None
  | (k, v) :: rest => if String.eqb key k then Some v else lookup_class rest key
  end.

(** Modelled from the spec: the declared values of a tournament's
    [status] column (the generated database types are not part of the
    sources): registration, ongoing, paused, completed, cancelled. *)
Definition tournament_statuses : list string :=
  [ "registration"; "ongoing"; "paused"; "completed"; "cancelled" ].

(** Modelled from the spec: the declared values of a tournament's
    [format] column: single and double elimination. *)
Definition tournament_formats : list string :=
  [ "single_elimination"; "double_elimination" ].

End TournamentHeader.

(* ================================================================== *)
(** * Observations on a request *)
(* ================================================================== *)

Module Observe.

(** The rows that the queries of a request insert into [table]. *)
Definition inserted_rows (table : string) (t : list Event) : list Json :=
  flat_map
    (fun q =>
       if String.eqb (from q) table
       then flat_map (fun s => match s with Insert row => [row] | _ => [] end) (steps q)
       else [])
    (queries t).

(** The values that a query writes to the column [status]. *)
Definition written_status (q : Query) : list Json :=
  flat_map
    (fun s =>
       match s with
       | Insert row | Update row | Upsert row => [prop row "status"]
       | _ => []
       end)
    (steps q).

(** The answers that the database gave to the queries of a request, the
    first of which was query number [n]. *)
Fixpoint answers (w : World) (qs : list Query) (n : nat) : list Response :=
  match qs with
  | [] => []
  | q :: rest => database w n q :: answers w rest (S n)
  end.

(** The error of the first failed query, if any. *)
Fixpoint first_error (rs : list Response) : option PostgrestError :=
  match rs with
  | [] => None
  | r :: rest =>
      match error r with
      | Some e => Some e
      | None => first_error rest
      end
  end.

(** [null] or [undefined]. *)
Definition nullish (v : Json) : bool :=
  match v with
  | JNull | JUndefined => true
  | _ => false
  end.

(** The answer to a query for several rows, as the database client types
    it: [null], or an array whose rows are all present (no [null]
    element). *)
Definition list_answer (r : Response) : bool :=
  match data r with
  | JArr rows => forallb (fun row => negb (nullish row)) rows
  | JNull | JUndefined => true
  | _ => false
  end.

(** A query that asks for one row ([.single()]). *)
Definition is_single (q : Query) : bool :=
  existsb (fun s => match s with Single => true | _ => false end) (steps q).

(** A caller who passes the admin check. *)
Definition is_admin (w : World) : Prop := not_admin (current_user w) = false.

End Observe.

Import Observe.

(* ================================================================== *)
(** * Host functions of the JavaScript runtime *)
(* ================================================================== *)

(** Two pure functions of the runtime's [Date] are used by the actions and
    are not part of the repository: the ISO-8601 rendering of an instant
    and the parsing of a stored timestamp.  The actions are defined for
    any such pair. *)
Section Actions.

(** [new Date(ms).toISOString()]. *)
Variable toISOString : Z -> string.
(** [new Date(v).getTime()] for a column value [v]. *)
Variable Date_getTime : Json -> number.

(** [d.setDate(d.getDate() - n)] and [d.setMinutes(d.getMinutes() - n)] on
    an instant (server clock in UTC: days of 86 400 000 ms). *)
Definition minusDays (ms n : Z) : Z := ms - n * 86400000.
Definition minusMinutes (ms n : Z) : Z := ms - n * 60000.

Definition unauthorized : Json := object [ "error" ::: JStr "Unauthorized" ].
Definition unauthorized_data : Json :=
  object [ "error" ::: JStr "Unauthorized"; "data" ::: JNull ].

(** [count || 0] for a [count] that is a number or [null]. *)
Definition count_or_0 (c : option number) : number :=
  match c with
  | Some x => if JsNumber.truthy x then x else of_Z 0
  | None => of_Z 0
  end.

(** A column typed [number | null] by the generated database types, read
    as a number. *)
Definition as_number (v : Json) : number :=
  match v with
  | JNum x => x
  | _ => NaN
  end.

(** [array.reduce(f, init)] where the callback may raise. *)
Fixpoint reduce {A : Type} (f : A -> Json -> option A) (l : list Json) (acc : A)
  : option A :=
  match l with
  | [] => Some acc
  | x :: rest =>
      match f acc x with
      | Some acc' => reduce f rest acc'
      | None => None
      end
  end.

(** [array.map(f)] where the callback may raise. *)
Fixpoint map_rows (f : Json -> option Json) (l : list Json) : option (list Json) :=
  match l with
  | [] => Some []
  | x :: rest =>
      match f x with
      | Some y =>
          match map_rows f rest with
          | Some ys => Some (y :: ys)
          | None => None
          end
      | None => None
      end
  end.

(* ------------------------------------------------------------------ *)
(** ** Communication actions: announcements *)
(* ------------------------------------------------------------------ *)

Definition getAnnouncements : Action Json :=
  user <- getCurrentUser ;;
  if not_admin user then Return unauthorized_data
  else
    r <- query {| from := "announcements";
                  steps := [Select "*"; Order "created_at" false] |} ;;
    match error r with
    | Some e => Return (object [ "error" ::: JStr (message e); "data" ::: JNull ])
    | None => Return (object [ "data" ::: data r; "error" ::: JNull ])
    end.

Inductive AnnouncementType : Type :=
| type_general | type_tournament | type_maintenance | type_urgent.

Inductive AnnouncementTarget : Type :=
| target_all | target_active | target_tournament | target_specific.

Definition type_name (t : AnnouncementType) : string :=
  match t with
  | type_general => "general"
  | type_tournament => "tournament"
  | type_maintenance => "maintenance"
  | type_urgent => "urgent"
  end.

Definition target_name (t : AnnouncementTarget) : string :=
  match t with
  | target_all => "all"
  | target_active => "active"
  | target_tournament => "tournament"
  | target_specific => "specific"
  end.

(** The argument of [createAnnouncement]. *)
Record AnnouncementInput : Type :=
  { title : string;
    content : string;
    type : AnnouncementType;
    target : AnnouncementTarget;
    scheduled_at : option string }.

(** An optional string as a value: a missing property reads [undefined]. *)
Definition opt_string (s : option string) : Json :=
  match s with
  | Some x => JStr x
  | None => JUndefined
  end.

Definition createAnnouncement (input : AnnouncementInput) : Action Json :=
  user <- getCurrentUser ;;
  match user with
  | None => Return unauthorized
  | Some user =>
    if negb (String.eqb (user_role user) "admin") then Return unauthorized
    else
      let scheduled := opt_string (scheduled_at input) in
      let status := if truthy scheduled then "scheduled" else "draft" in
      sent_at <- (if truthy scheduled then Return JNull
                  else now <- newDate ;; Return (JStr (toISOString now))) ;;
      (* Get recipient count based on target *)
      recipients <-
        match target input with
        | target_all =>
            r <- query {| from := "profiles"; steps := [SelectCount "*"] |} ;;
            Return (count_or_0 (count r))
        | target_active =>
            now <- newDate ;;
            let thirtyDaysAgo := minusDays now 30 in
            r <- query {| from := "profiles";
                          steps := [SelectCount "*";
                                    WhereGte "updated_at" (JStr (toISOString thirtyDaysAgo))] |} ;;
            Return (count_or_0 (count r))
        | target_tournament =>
            r <- query {| from := "registrations";
                          steps := [SelectCount "*";
                                    WhereEq "status" (JStr "registered")] |} ;;
            Return (count_or_0 (count r))
        | target_specific => Return (of_Z 0)
        end ;;
      r <- query {| from := "announcements";
                    steps := [Insert (object
                                [ "title" ::: JStr (title input);
                                  "content" ::: JStr (content input);
                                  "type" ::: JStr (type_name (type input));
                                  "target" ::: JStr (target_name (target input));
                                  "status" ::: JStr status;
                                  "sent_at" ::: sent_at;
                                  "scheduled_at" ::: or_else scheduled JNull;
                                  "recipients" ::: JNum recipients;
                                  "opened" ::: JNum (of_Z 0);
                                  "clicked" ::: JNum (of_Z 0);
                                  "created_by" ::: JStr (user_id user) ]);
                              SelectInserted; Single] |} ;;
      match error r with
      | Some e => Return (object [ "error" ::: JStr (message e) ])
      | None =>
          revalidatePath "/admin/dashboard" ;;
          Return (object [ "data" ::: data r; "error" ::: JNull ])
      end
  end.

(** The argument [stats] of [updateAnnouncementStats]. *)
Record AnnouncementStats : Type :=
  { opened : option number; clicked : option number }.

Definition stats_object (stats : AnnouncementStats) : Json :=
  object (optional_field "opened" (option_map JNum (opened stats))
          ++ optional_field "clicked" (option_map JNum (clicked stats))).

Definition updateAnnouncementStats (announcementId : string) (stats : AnnouncementStats)
  : Action Json :=
  r <- query {| from := "announcements";
                steps := [Update (stats_object stats);
                          WhereEq "id" (JStr announcementId)] |} ;;
  match error r with
  | Some e => Return (object [ "error" ::: JStr (message e) ])
  | None => Return (object [ "error" ::: JNull ])
  end.

(* ------------------------------------------------------------------ *)
(** ** Communication actions: admin (support) messages *)
(* ------------------------------------------------------------------ *)

(** The column list of the two message queries (the line breaks of the
    template literal are written as single spaces). *)
Definition message_columns : string :=
  "*, profiles!admin_messages_user_id_fkey ( id, full_name, email )".

(** The object built from a row [msg] to match the [Message] interface;
    [None] when [msg] is [null] (reading [msg.id] raises). *)
Definition to_message (msg : Json) : option Json :=
  match member msg "id" with
  | None => None
  | Some msg_id =>
      Some (object
        [ "id" ::: msg_id;
          "player_name" ::: or_else (opt_member (prop msg "profiles") "full_name") (JStr "Unknown");
          "player_email" ::: or_else (opt_member (prop msg "profiles") "email") (JStr "");
          "subject" ::: prop msg "subject";
          "content" ::: prop msg "content";
          "status" ::: prop msg "status";
          "created_at" ::: prop msg "created_at";
          "priority" ::: prop msg "priority";
          "user_id" ::: prop msg "user_id" ])
  end.

Definition getAdminMessages : Action Json :=
  user <- getCurrentUser ;;
  if not_admin user then Return unauthorized_data
  else
    r <- query {| from := "admin_messages";
                  steps := [Select message_columns; Order "created_at" false] |} ;;
    match error r with
    | Some e => Return (object [ "error" ::: JStr (message e); "data" ::: JNull ])
    | None =>
        (* data?.map(...) || []: the call is skipped for null and undefined
           only; a value without a [map] method raises *)
        messages <- match data r with
                    | JArr rows => rows' <- orThrow (map_rows to_message rows) ;;
                                   Return (JArr rows')
                    | JNull | JUndefined => Return (JArr [])
                    | _ => Throw "TypeError"
                    end ;;
        Return (object [ "data" ::: messages; "error" ::: JNull ])
    end.

Definition getAdminMessage (messageId : string) : Action Json :=
  user <- getCurrentUser ;;
  if not_admin user then Return unauthorized_data
  else
    r <- query {| from := "admin_messages";
                  steps := [Select message_columns;
                            WhereEq "id" (JStr messageId); Single] |} ;;
    match error r with
    | Some e => Return (object [ "error" ::: JStr (message e); "data" ::: JNull ])
    | None =>
        msg <- orThrow (to_message (data r)) ;;
        Return (object [ "data" ::: msg; "error" ::: JNull ])
    end.

(** The status of an admin message. *)
Inductive MessageStatus : Type := unread | read | replied.

Definition status_name (s : MessageStatus) : string :=
  match s with
  | unread => "unread"
  | read => "read"
  | replied => "replied"
  end.

Definition updateMessageStatus (messageId : string) (status : MessageStatus)
  : Action Json :=
  user <- getCurrentUser ;;
  if not_admin user then Return unauthorized
  else
    r <- query {| from := "admin_messages";
                  steps := [Update (object [ "status" ::: JStr (status_name status) ]);
                            WhereEq "id" (JStr messageId)] |} ;;
    match error r with
    | Some e => Return (object [ "error" ::: JStr (message e) ])
    | None =>
        revalidatePath "/admin/dashboard" ;;
        Return (object [ "error" ::: JNull ])
    end.

Definition replyToMessage (messageId : string) (reply : string) : Action Json :=
  user <- getCurrentUser ;;
  if not_admin user then Return unauthorized
  else
    (* Get the original message *)
    original <- query {| from := "admin_messages";
                         steps := [Select "user_id, subject";
                                   WhereEq "id" (JStr messageId); Single] |} ;;
    match error original with
    | Some _ => Return (object [ "error" ::: JStr "Message not found" ])
    | None =>
        if negb (truthy (data original))
        then Return (object [ "error" ::: JStr "Message not found" ])
        else
          (* Update message status to replied *)
          query {| from := "admin_messages";
                   steps := [Update (object [ "status" ::: JStr "replied" ]);
                             WhereEq "id" (JStr messageId)] |} ;;
          revalidatePath "/admin/dashboard" ;;
          Return (object [ "error" ::: JNull ])
    end.

(** [Math.round((n / d) * 100)], the shape shared by the percentages. *)
Definition percentage (n d : number) : number :=
  Math_round (mul (div n d) (of_Z 100)).

(** One step of the sum of response times, in hours. *)
Definition add_response_hours (sum : number) (msg : Json) : option number :=
  match member msg "created_at" with
  | None => None
  | Some created_at =>
      let created := Date_getTime created_at in
      let updated := Date_getTime (or_else (prop msg "updated_at") created_at) in
      let diffHours := div (sub updated created) (of_Z (1000 * 60 * 60)) in
      Some (add sum diffHours)
  end.

(** [sum + (a.column || 0)]. *)
Definition add_column (column : string) (sum : number) (a : Json) : option number :=
  match member a column with
  | None => None
  | Some v => Some (add sum (as_number (or_else v (JNum (of_Z 0)))))
  end.

(** [engagementRate] from the two sums:
    [totalRecipients > 0 ? Math.round((totalOpened / totalRecipients) * 100) : 0]. *)
Definition engagementRate_of (totalOpened totalRecipients : number) : number :=
  if gt totalRecipients (of_Z 0) then percentage totalOpened totalRecipients else of_Z 0.

(** [totalMessages && totalMessages > 0
       ? Math.round((repliedMessages || 0) / totalMessages * 100)
       : 0] on two counts, each a number or [null]. *)
Definition responseRate_of (totalMessages repliedMessages : option number) : number :=
  match totalMessages with
  | Some total =>
      if JsNumber.truthy total && gt total (of_Z 0)
      then percentage (count_or_0 repliedMessages) total
      else of_Z 0
  | None => of_Z 0
  end.

(** [avgResponseTime] from the replied messages: [0] unless the answer is
    a non-empty array, else the mean of the response times rounded to one
    decimal, [Math.round((totalTime / length) * 10) / 10]. *)
Definition avgResponseTime_of (repliedMessagesData : Json) : Action number :=
  match repliedMessagesData with
  | JArr (first :: others) =>
      let rows := first :: others in
      totalTime <- orThrow (reduce add_response_hours rows (of_Z 0)) ;;
      Return (div (Math_round (mul (div totalTime (of_Z (Z.of_nat (List.length rows))))
                                   (of_Z 10)))
                  (of_Z 10))
  | _ => Return (of_Z 0)
  end.

(** [engagementRate] from the sent announcements: [0] unless the answer
    is a non-empty array, else the rate of the two sums. *)
Definition engagementRate_from (announcements : Json) : Action number :=
  match announcements with
  | JArr (first :: others) =>
      let rows := first :: others in
      totalRecipients <- orThrow (reduce (add_column "recipients") rows (of_Z 0)) ;;
      totalOpened <- orThrow (reduce (add_column "opened") rows (of_Z 0)) ;;
      Return (engagementRate_of totalOpened totalRecipients)
  | _ => Return (of_Z 0)
  end.

Definition getCommunicationStats : Action Json :=
  user <- getCurrentUser ;;
  if not_admin user then Return unauthorized_data
  else
    (* Get announcements count *)
    r1 <- query {| from := "announcements"; steps := [SelectCount "*"] |} ;;
    let totalAnnouncements := count r1 in
    (* Get messages count *)
    r2 <- query {| from := "admin_messages"; steps := [SelectCount "*"] |} ;;
    let totalMessages := count r2 in
    (* Get unread messages *)
    r3 <- query {| from := "admin_messages";
                   steps := [SelectCount "*"; WhereEq "status" (JStr "unread")] |} ;;
    let unreadMessages := count r3 in
    (* Get replied messages for response rate *)
    r4 <- query {| from := "admin_messages";
                   steps := [SelectCount "*"; WhereEq "status" (JStr "replied")] |} ;;
    let repliedMessages := count r4 in
    let responseRate := responseRate_of totalMessages repliedMessages in
    (* Calculate average response time (in hours) *)
    r5 <- query {| from := "admin_messages";
                   steps := [Select "created_at, updated_at";
                             WhereEq "status" (JStr "replied")] |} ;;
    avgResponseTime <- avgResponseTime_of (data r5) ;;
    (* Calculate engagement rate from announcements *)
    r6 <- query {| from := "announcements";
                   steps := [Select "recipients, opened";
                             WhereEq "status" (JStr "sent")] |} ;;
    engagementRate <- engagementRate_from (data r6) ;;
    Return (object
      [ "data" ::: object
          [ "totalAnnouncements" ::: JNum (count_or_0 totalAnnouncements);
            "totalMessages" ::: JNum (count_or_0 totalMessages);
            "unreadMessages" ::: JNum (count_or_0 unreadMessages);
            "responseRate" ::: JNum responseRate;
            "avgResponseTime" ::: JNum avgResponseTime;
            "engagementRate" ::: JNum engagementRate ];
        "error" ::: JNull ]).

Inductive Priority : Type := low | medium | high | urgent.

Definition priority_name (p : Priority) : string :=
  match p with
  | low => "low"
  | medium => "medium"
  | high => "high"
  | urgent => "urgent"
  end.

(** The argument of [sendMessageToAdmin]: [{ subject, content, priority? }]
    (the fields carry a prefix, [content] being a field of the
    announcement input already). *)
Record MessageInput : Type :=
  { msg_subject : string; msg_content : string; msg_priority : option Priority }.

(** User function to send a message to the admins. *)
Definition sendMessageToAdmin (input : MessageInput) : Action Json :=
  user <- getCurrentUser ;;
  match user with
  | None => Return unauthorized
  | Some user =>
      r <- query {| from := "admin_messages";
                    steps := [Insert (object
                                [ "user_id" ::: JStr (user_id user);
                                  "subject" ::: JStr (msg_subject input);
                                  "content" ::: JStr (msg_content input);
                                  "priority" ::: or_else (opt_string (option_map priority_name (msg_priority input)))
                                                         (JStr "medium");
                                  "status" ::: JStr "unread" ]);
                              SelectInserted; Single] |} ;;
      match error r with
      | Some e => Return (object [ "error" ::: JStr (message e) ])
      | None => Return (object [ "data" ::: data r; "error" ::: JNull ])
      end
  end.

(* ------------------------------------------------------------------ *)
(** ** System actions: settings, health, roles *)
(* ------------------------------------------------------------------ *)

Definition default_platform : Json :=
  object [ "name" ::: JStr "GOALDEN";
           "version" ::: JStr "1.2.0";
           "maintenance_mode" ::: JBool false;
           "registration_enabled" ::: JBool true;
           "tournaments_enabled" ::: JBool true ].

Definition default_security : Json :=
  object [ "password_min_length" ::: JNum (of_Z 8);
           "session_timeout" ::: JNum (of_Z 24);
           "two_factor_enabled" ::: JBool false;
           "ip_whitelist" ::: JArr [] ].

Definition default_notifications : Json :=
  object [ "email_enabled" ::: JBool true;
           "sms_enabled" ::: JBool false;
           "push_enabled" ::: JBool true;
           "whatsapp_enabled" ::: JBool false ].

Definition default_payments : Json :=
  object [ "mpesa_enabled" ::: JBool true;
           "stripe_enabled" ::: JBool false;
           "minimum_amount" ::: JNum (of_Z 50);
           "maximum_amount" ::: JNum (of_Z 10000) ].

Definition defaultSettings : Json :=
  object [ "platform" ::: default_platform;
           "security" ::: default_security;
           "notifications" ::: default_notifications;
           "payments" ::: default_payments ].

(** [{ ...defaultSettings.section, ...(data.section || {}) }]. *)
Definition merged (section : string) (stored : Json) : Json :=
  object [ Spread (prop defaultSettings section);
           Spread (or_else (prop stored section) (object [])) ].

Definition getSystemSettings : Action Json :=
  user <- getCurrentUser ;;
  if not_admin user then Return unauthorized_data
  else
    (* Get settings from database (or use defaults) *)
    r <- query {| from := "system_settings"; steps := [Select "*"; Single] |} ;;
    let failed :=
      match error r with
      | Some e => if negb (String.eqb (code e) "PGRST116") (* = no rows returned *)
                  then Some e else None
      | None => None
      end in
    match failed with
    | Some e => Return (object [ "error" ::: JStr (message e); "data" ::: JNull ])
    | None =>
        if truthy (data r) then
          (* Merge with defaults *)
          Return (object
            [ "data" ::: object
                [ "platform" ::: merged "platform" (data r);
                  "security" ::: merged "security" (data r);
                  "notifications" ::: merged "notifications" (data r);
                  "payments" ::: merged "payments" (data r) ];
              "error" ::: JNull ])
        else Return (object [ "data" ::: defaultSettings; "error" ::: JNull ])
    end.

Definition updateSystemSettings (settings : Json) : Action Json :=
  user <- getCurrentUser ;;
  if not_admin user then Return unauthorized
  else
    now <- newDate ;;
    r <- query {| from := "system_settings";
                  steps := [Upsert (object
                              [ "id" ::: JNum (of_Z 1);
                                Spread settings;
                                "updated_at" ::: JStr (toISOString now) ])] |} ;;
    match error r with
    | Some e => Return (object [ "error" ::: JStr (message e) ])
    | None =>
        revalidatePath "/admin/dashboard" ;;
        Return (object [ "error" ::: JNull ])
    end.

Inductive DatabaseStatus : Type := connected | disconnected | slow.

Definition database_status_name (s : DatabaseStatus) : string :=
  match s with
  | connected => "connected"
  | disconnected => "disconnected"
  | slow => "slow"
  end.

(** The values of the [status] field declared for the health record. *)
Inductive HealthStatus : Type := healthy | warning | critical.

Definition health_status_name (s : HealthStatus) : string :=
  match s with
  | healthy => "healthy"
  | warning => "warning"
  | critical => "critical"
  end.

(** [databaseStatus === 'connected' ? 'healthy' : 'critical']. *)
Definition overall_status (databaseStatus : DatabaseStatus) : HealthStatus :=
  match databaseStatus with
  | connected => healthy
  | _ => critical
  end.

(** The classification of the probe: its error, else its duration in
    milliseconds (a difference of two [Date.now()] readings, exact). *)
Definition classify_database (dbError : option PostgrestError) (responseTime : Z)
  : DatabaseStatus :=
  match dbError with
  | Some _ => disconnected
  | None => if 1000 <? responseTime then slow else connected
  end.

Definition getSystemHealth : Action Json :=
  user <- getCurrentUser ;;
  if not_admin user then Return unauthorized_data
  else
    (* Get active users (users active in last 30 minutes) *)
    now <- newDate ;;
    let thirtyMinutesAgo := minusMinutes now 30 in
    r1 <- query {| from := "profiles";
                   steps := [SelectCount "*";
                             WhereGte "updated_at" (JStr (toISOString thirtyMinutesAgo))] |} ;;
    let activeUsers := count r1 in
    (* Get concurrent tournaments *)
    r2 <- query {| from := "tournaments";
                   steps := [SelectCount "*"; WhereEq "status" (JStr "ongoing")] |} ;;
    let concurrentTournaments := count r2 in
    (* Test database connection *)
    startTime <- newDate ;;
    r3 <- query {| from := "profiles"; steps := [Select "id"; Limit 1] |} ;;
    endTime <- newDate ;;
    let responseTime := endTime - startTime in
    let databaseStatus := classify_database (error r3) responseTime in
    let uptime := decimal 999 1 in      (* 99.9 *)
    let storageUsage := of_Z 65 in
    let memoryUsage := of_Z 45 in
    let cpuUsage := of_Z 23 in
    Return (object
      [ "data" ::: object
          [ "status" ::: JStr (health_status_name (overall_status databaseStatus));
            "uptime" ::: JNum uptime;
            "response_time" ::: JNum (of_Z responseTime);
            "database_status" ::: JStr (database_status_name databaseStatus);
            "storage_usage" ::: JNum storageUsage;
            "memory_usage" ::: JNum memoryUsage;
            "cpu_usage" ::: JNum cpuUsage;
            "active_users" ::: JNum (count_or_0 activeUsers);
            "concurrent_tournaments" ::: JNum (count_or_0 concurrentTournaments) ];
        "error" ::: JNull ]).

(** A column typed [string | null] by the generated database types, read
    as a property key. *)
Definition as_string (v : Json) : string :=
  match v with
  | JStr s => s
  | _ => ""
  end.

(** The members that every object inherits from [Object.prototype]. *)
Definition Object_prototype : list string :=
  [ "constructor"; "hasOwnProperty"; "isPrototypeOf"; "propertyIsEnumerable";
    "toLocaleString"; "toString"; "valueOf"; "__proto__";
    "__defineGetter__"; "__defineSetter__"; "__lookupGetter__"; "__lookupSetter__" ].

(** The role names on which the count of users by role is modelled: a
    string that starts with an ASCII character other than a digit and
    that names no inherited member.  For such a name [acc[role]] and
    [rolePermissions[name]] read own properties only, the name is no
    array index, so that [Object.entries] lists it in insertion order,
    and [toUpperCase] changes its first character by the ASCII table. *)
Definition plain_role (role : string) : bool :=
  match role with
  | EmptyString => false
  | String c _ =>
      let n := nat_of_ascii c in
      (n <? 128)%nat
      && negb ((48 <=? n) && (n <=? 57))%nat
      && negb (existsb (String.eqb role) Object_prototype)
  end.

(** One step of the count of users by role:
    [acc[role] = (acc[role] || 0) + 1] with [role = profile.role || 'player'],
    for a [role] column that holds [null] or a string and a role that is
    a [plain_role] ([acc] starts as [{}] and inherits the members of
    [Object_prototype], which this definition does not read). *)
Definition count_role (acc : list (string * Json)) (profile : Json)
  : option (list (string * Json)) :=
  match member profile "role" with
  | None => None
  | Some r =>
      let role := as_string (or_else r (JStr "player")) in
      let seen := or_else (prop (JObj acc) role) (JNum (of_Z 0)) in
      Some (set_field role (JNum (add (as_number seen) (of_Z 1))) acc)
  end.

Definition rolePermissions : Json :=
  object [ "admin" ::: JArr [JStr "all"];
           "player" ::: JArr [JStr "tournaments"; JStr "matches"] ].

(** [c.toUpperCase()] for an ASCII character [c]: the letters [a] to [z]
    change, every other ASCII character is kept. *)
Definition toUpperCase (c : ascii) : ascii :=
  let n := nat_of_ascii c in
  if ((97 <=? n) && (n <=? 122))%nat then ascii_of_nat (n - 32) else c.

(** [name.charAt(0).toUpperCase() + name.slice(1)] for a [name] that
    starts with an ASCII character. *)
Definition capitalize (name : string) : string :=
  match name with
  | EmptyString => EmptyString
  | String c rest => String (toUpperCase c) rest
  end.

(** One entry [[name, user_count]] of [Object.entries(roleCounts)], for
    a [name] that is a [plain_role]: [rolePermissions[name]] is then an
    own property or [undefined], and the entries come in insertion
    order. *)
Definition role_entry (entry : string * Json) : Json :=
  let (name, user_count) := entry in
  object [ "id" ::: JStr name;
           "name" ::: JStr (capitalize name);
           "permissions" ::: or_else (prop rolePermissions name) (JArr []);
           "created_at" ::: JStr "2024-01-01";
           "user_count" ::: user_count ].

Definition getUserRoles : Action Json :=
  user <- getCurrentUser ;;
  if not_admin user then Return unauthorized_data
  else
    (* Get user roles from profiles *)
    r <- query {| from := "profiles"; steps := [Select "role"] |} ;;
    match error r with
    | Some e => Return (object [ "error" ::: JStr (message e); "data" ::: JNull ])
    | None =>
        (* Count users by role: profiles?.reduce(...) || {}; the call is
           skipped for null and undefined only; a value without a [reduce]
           method raises *)
        roleCounts <- match data r with
                      | JArr profiles => orThrow (reduce count_role profiles [])
                      | JNull | JUndefined => Return []
                      | _ => Throw "TypeError"
                      end ;;
        let userRoles := map role_entry roleCounts in
        Return (object [ "data" ::: JArr userRoles; "error" ::: JNull ])
    end.

(* ------------------------------------------------------------------ *)
(** ** Every exported server action *)
(* ------------------------------------------------------------------ *)

(** A call of one of the thirteen exported actions with its arguments. *)
Inductive Call : Type :=
| call_getAnnouncements
| call_createAnnouncement (input : AnnouncementInput)
| call_updateAnnouncementStats (announcementId : string) (stats : AnnouncementStats)
| call_getAdminMessages
| call_getAdminMessage (messageId : string)
| call_updateMessageStatus (messageId : string) (status : MessageStatus)
| call_replyToMessage (messageId : string) (reply : string)
| call_getCommunicationStats
| call_sendMessageToAdmin (input : MessageInput)
| call_getSystemSettings
| call_updateSystemSettings (settings : Json)
| call_getSystemHealth
| call_getUserRoles.

Definition perform (c : Call) : Action Json :=
  match c with
  | call_getAnnouncements => getAnnouncements
  | call_createAnnouncement input => createAnnouncement input
  | call_updateAnnouncementStats announcementId stats =>
      updateAnnouncementStats announcementId stats
  | call_getAdminMessages => getAdminMessages
  | call_getAdminMessage messageId => getAdminMessage messageId
  | call_updateMessageStatus messageId status => updateMessageStatus messageId status
  | call_replyToMessage messageId reply => replyToMessage messageId reply
  | call_getCommunicationStats => getCommunicationStats
  | call_sendMessageToAdmin input => sendMessageToAdmin input
  | call_getSystemSettings => getSystemSettings
  | call_updateSystemSettings settings => updateSystemSettings settings
  | call_getSystemHealth => getSystemHealth
  | call_getUserRoles => getUserRoles
  end.

End Actions.

(* ================================================================== *)
(** * Sample requests *)
(* ================================================================== *)

Module Samples.

Definition an_admin : User := {| user_id := "u-admin"; user_role := "admin" |}.
Definition a_player : User := {| user_id := "u-player"; user_role := "player" |}.

Definition ok_response : Response :=
  {| data := JNull; error := None; count := None |}.

Definition failed_response : Response :=
  {| data := JNull;
     error := Some {| message := "connection refused"; code := "08006" |};
     count := None |}.

(** A clock that advances by five milliseconds at each reading. *)
Definition a_clock (n : nat) : Z := 1700000000000 + 5 * Z.of_nat n.

(** An admin is signed in and every query succeeds. *)
Definition admin_world : World :=
  {| current_user := Some an_admin;
     clock := a_clock;
     database := fun _ _ => ok_response |}.

(** An admin is signed in and every query fails. *)
Definition admin_world_db_down : World :=
  {| current_user := Some an_admin;
     clock := a_clock;
     database := fun _ _ => failed_response |}.

(** An answer that carries one message row and a count of three. *)
Definition row_response : Response :=
  {| data := JObj [ ("id", JStr "m1"); ("subject", JStr "Refund");
                    ("status", JStr "unread"); ("user_id", JStr "u-player") ];
     error := None;
     count := Some (of_Z 3) |}.

(** An admin is signed in and every query answers with that row. *)
Definition stocked_world : World :=
  {| current_user := Some an_admin;
     clock := a_clock;
     database := fun _ _ => row_response |}.

(** An admin is signed in; the inbox holds 40 messages, 23 of them
    replied (the second and the fourth query of [getCommunicationStats]);
    the other queries answer with no rows. *)
Definition inbox_world : World :=
  {| current_user := Some an_admin;
     clock := a_clock;
     database := fun n _ =>
       {| data := JNull;
          error := None;
          count := match n with
                   | 1%nat => Some (of_Z 40)
                   | 3%nat => Some (of_Z 23)
                   | _ => Some (of_Z 0)
                   end |} |}.

(** Nobody is signed in and every query succeeds. *)
Definition anonymous_world : World :=
  {| current_user := None;
     clock := a_clock;
     database := fun _ _ => ok_response |}.

(** A player is signed in and every query succeeds. *)
Definition player_world : World :=
  {| current_user := Some a_player;
     clock := a_clock;
     database := fun _ _ => ok_response |}.

(** A player is signed in and every query fails. *)
Definition player_world_db_down : World :=
  {| current_user := Some a_player;
     clock := a_clock;
     database := fun _ _ => failed_response |}.

(** Nobody is signed in and every query fails. *)
Definition anonymous_world_db_down : World :=
  {| current_user := None;
     clock := a_clock;
     database := fun _ _ => failed_response |}.

Definition iso (ms : Z) : string := "2023-11-14T22:13:20.000Z".
Definition getTime (v : Json) : number := NaN.

Definition a_scheduled_announcement : AnnouncementInput :=
  {| title := "Maintenance"; content := "Back at noon";
     type := type_maintenance; target := target_all;
     scheduled_at := Some "2030-01-01T12:00:00.000Z" |}.

Definition an_immediate_announcement : AnnouncementInput :=
  {| title := "Welcome"; content := "Season opens";
     type := type_general; target := target_specific;
     scheduled_at := None |}.

End Samples.

(* ================================================================== *)
(** * Notions used in the statements *)
(* ================================================================== *)

Module Statements.

(** The operations of the announcements, admin-messages and
    system-settings modules; [sendMessageToAdmin] is the user-facing
    action and is not one of them. *)
Definition admin_operation (c : Call) : bool :=
  match c with
  | call_sendMessageToAdmin _ => false
  | _ => true
  end.

(** The write that [replyToMessage] makes. *)
Definition mark_replied (messageId : string) : Query :=
  {| from := "admin_messages";
     steps := [Update (object [ "status" ::: JStr "replied" ]);
               WhereEq "id" (JStr messageId)] |}.

(** The lookup that [replyToMessage] starts with. *)
Definition find_message (messageId : string) : Query :=
  {| from := "admin_messages";
     steps := [Select "user_id, subject"; WhereEq "id" (JStr messageId); Single] |}.

(** The percentage as the specification words it:
    [Math.round(100 * numerator / denominator)]. *)
Definition round_100_times_over (numerator denominator : number) : number :=
  Math_round (div (mul (of_Z 100) numerator) denominator).

(** The same percentage in exact arithmetic on two counts: the integer
    nearest to [100 * numerator / denominator], ties upwards. *)
Definition exact_percentage (numerator denominator : Z) : Z :=
  (2 * (100 * numerator) + denominator) / (2 * denominator).

(** The [error] field that the convention asks for: the message of the
    failed query, or [null]. *)
Definition error_field (e : option PostgrestError) : Json :=
  match e with
  | Some e => JStr (message e)
  | None => JNull
  end.

(** The convention "return the error string or null at each query
    boundary" for one call in one world: the call returns an object whose
    [error] is the message of the first query that failed, with [data]
    null or absent then, and whose [error] is [null] when no query
    failed. *)
Definition follows_convention (toISOString : Z -> string) (Date_getTime : Json -> number)
  (c : Call) (w : World) : Prop :=
  exists res t,
    request (perform toISOString Date_getTime c) w = (Returned res, t)
    /\ prop res "error" = error_field (first_error (answers w (queries t) 0))
    /\ (first_error (answers w (queries t) 0) <> None ->
        prop res "data" = JNull \/ prop res "data" = JUndefined).

(** The actions that make one query and report its error. *)
Definition one_query (c : Call) : bool :=
  match c with
  | call_getAnnouncements
  | call_updateAnnouncementStats _ _
  | call_getAdminMessages
  | call_getAdminMessage _
  | call_updateMessageStatus _ _
  | call_sendMessageToAdmin _
  | call_updateSystemSettings _
  | call_getUserRoles => true
  | _ => false
  end.

(** The database hands out rows: a successful [.single()] answer carries
    its row, and the answer to any other query is [null] or an array
    without [null] element. *)
Definition answers_have_rows (w : World) : Prop :=
  forall n q,
    if is_single q
    then error (database w n q) = None -> nullish (data (database w n q)) = false
    else list_answer (database w n q) = true.

(** The caller check of each action: [updateAnnouncementStats] makes
    none, [sendMessageToAdmin] asks for a signed-in user, and every other
    action for an admin. *)
Definition passes_check (c : Call) (w : World) : Prop :=
  match c with
  | call_updateAnnouncementStats _ _ => True
  | call_sendMessageToAdmin _ => current_user w <> None
  | _ => is_admin w
  end.

(** The query of [getSystemSettings]. *)
Definition settings_query : Query :=
  {| from := "system_settings"; steps := [Select "*"; Single] |}.

(** The probe query of [getSystemHealth]. *)
Definition probe : Query := {| from := "profiles"; steps := [Select "id"; Limit 1] |}.

End Statements.

Import Statements.

(* ================================================================== *)
(** * Array callbacks and comparisons of the client code *)
(* ================================================================== *)

Module Arrays.

(** [v === s] for a string literal (or a string-typed variable) [s]. *)
Definition is_string (v : Json) (s : string) : bool :=
  match v with
  | JStr x => String.eqb x s
  | _ => false
  end.

(** [a === b] on primitive values: numbers compare as numbers (NaN differs
    from itself, the two zeros are equal).  Identifiers and column values
    are primitive; two arrays or objects would be compared by reference,
    which the data model does not record, and are taken as different. *)
Definition strict_equal (a b : Json) : bool :=
  match a, b with
  | JUndefined, JUndefined => true
  | JNull, JNull => true
  | JBool x, JBool y => Bool.eqb x y
  | JNum x, JNum y => SFeqb x y
  | JStr x, JStr y => String.eqb x y
  | _, _ => false
  end.

(** [array.filter(p)] where the callback may raise. *)
Fixpoint filter_rows (p : Json -> option bool) (l : list Json) : option (list Json) :=
  match l with
  | [] => Some []
  | x :: rest =>
      match p x with
      | Some keep =>
          match filter_rows p rest with
          | Some ys => Some (if keep then x :: ys else ys)
          | None => None
          end
      | None => None
      end
  end.

(** [array.find(p)] where the callback may raise: the first element that
    satisfies [p], or [undefined]. *)
Fixpoint find_row (p : Json -> option bool) (l : list Json) : option Json :=
  match l with
  | [] => Some JUndefined
  | x :: rest =>
      match p x with
      | Some true => Some x
      | Some false => find_row p rest
      | None => None
      end
  end.

(** [s.includes(needle)]. *)
Fixpoint includes (needle s : string) : bool :=
  if prefix needle s then true
  else
    match s with
    | EmptyString => false
    | String _ rest => includes needle rest
    end.

(** [s.replace('_', ' ')]: a string pattern replaces its first occurrence
    only. *)
Fixpoint replace_underscore (s : string) : string :=
  match s with
  | EmptyString => EmptyString
  | String c rest =>
      if Ascii.eqb c "_" then String " " rest else String c (replace_underscore rest)
  end.

(** [s.toUpperCase()] on ASCII text. *)
Fixpoint upper (s : string) : string :=
  match s with
  | EmptyString => EmptyString
  | String c rest => String (toUpperCase c) (upper rest)
  end.

(** White space and line terminators among the code units below 256:
    tab, line feed, vertical tab, form feed, carriage return, space and
    no-break space. *)
Definition is_space (c : ascii) : bool :=
  let n := nat_of_ascii c in
  ((9 <=? n) && (n <=? 13) || (n =? 32) || (n =? 160))%nat.

(** [!s.trim()]: the string holds nothing but white space (strings being
    sequences of code units below 256). *)
Fixpoint blank (s : string) : bool :=
  match s with
  | EmptyString => true
  | String c rest => is_space c && blank rest
  end.

(** [{ ...fields }] written on top of the properties [acc]. *)
Definition spread_over (fields acc : list (string * Json)) : list (string * Json) :=
  fold_left (fun a kv => set_field (fst kv) (snd kv) a) fields acc.

(** [Object.keys] of the properties of an object. *)
Definition keys (fields : list (string * Json)) : list string := map fst fields.

End Arrays.

Import Arrays.

(* ================================================================== *)
(** * Analytics dashboard: counts by status and the activity of a day *)
(* ================================================================== *)

Module Dashboard.

(** [rows.filter(t => t.status === status).length]; reading the status of
    a [null] row raises. *)
Definition count_with_status (status : string) (rows : list Json) : option nat :=
  option_map (@List.length Json)
    (filter_rows (fun t => option_map (fun s => is_string s status) (member t "status")) rows).

(** [tournaments.completionRate] from the tournaments of the range. *)
Definition completionRate_of (filteredTournaments : list Json) : option number :=
  option_map (fun completedTournaments =>
                Analytics.completionRate completedTournaments
                                         (List.length filteredTournaments))
             (count_with_status "completed" filteredTournaments).

(** [activePlayerIds.add(id)] on a [Set] kept in insertion order. *)
Fixpoint set_add (id : string) (ids : list string) : list string :=
  match ids with
  | [] => [id]
  | x :: rest => if String.eqb x id then ids else x :: set_add id rest
  end.

(** One step of [dayMatches.forEach]: both player ids of the match join
    the set when they are set ([if (m.player1_id) ...]); player ids are
    strings or [null]. *)
Definition add_players (ids : list string) (m : Json) : option (list string) :=
  match member m "player1_id" with
  | None => None
  | Some player1_id =>
      let ids1 := if truthy player1_id then set_add (as_string player1_id) ids else ids in
      let player2_id := prop m "player2_id" in
      Some (if truthy player2_id then set_add (as_string player2_id) ids1 else ids1)
  end.

(** [{ active: activePlayerIds.size, matches: dayMatches.length }] for
    the matches of one day. *)
Definition activity (dayMatches : list Json) : option (nat * nat) :=
  option_map (fun ids => (List.length ids, List.length dayMatches))
             (reduce add_players dayMatches []).

(** The label of a format in [tournamentFormats]:
    [format.replace('_', ' ').toUpperCase()]. *)
Definition format_label (format : string) : string := upper (replace_underscore format).

End Dashboard.

(* ================================================================== *)
(** * Tournament header: badge texts *)
(* ================================================================== *)

Module TournamentHeaderText.

(** The text of the status badge and of the format badge:
    [tournament.status.replace('_', ' ')], [tournament.format.replace('_', ' ')]. *)
Definition badge_text (value : string) : string := replace_underscore value.

End TournamentHeaderText.

(* ================================================================== *)
(** * Share button *)
(* ================================================================== *)

Module ShareButton.

(** What [handleShare] sees of the browser: the location, whether
    [navigator.share] exists, how the share sheet settles ([None]:
    resolved; [Some name]: rejected with an error of that [name]) and how
    the [n]-th clipboard write of the click settles. *)
Record Browser : Type :=
  { pathname : string;
    origin : string;
    can_share : bool;
    share_result : option string;
    writeText_result : nat -> option string }.

(** What the handler does, in order. *)
Inductive Effect : Type :=
| NavigatorShare (title text url : string)   (* navigator.share({ title, text, url }) *)
| ClipboardWriteText (url : string)          (* navigator.clipboard.writeText(url) *)
| SetCopied (copied : bool)
| ToastSuccess (text : string)
| ToastError (text : string)
| SetTimeout (callback : Effect) (ms : Z).

Definition share_url (tournamentId : string) (b : Browser) : string :=
  (* Determine if we're on admin or player page *)
  let isAdminPage := includes "/admin/tournaments/" (pathname b) in
  if isAdminPage
  then origin b ++ "/admin/tournaments/" ++ tournamentId
  else origin b ++ "/dashboard/tournaments/" ++ tournamentId.

(** The statements that follow a resolved clipboard write. *)
Definition copied_feedback : list Effect :=
  [ SetCopied true;
    ToastSuccess "Tournament link copied to clipboard!";
    SetTimeout (SetCopied false) 2000 ].

(** The [catch] block, entered with the name of the error; [n] clipboard
    writes have been made so far. *)
Definition on_error (url : string) (b : Browser) (n : nat) (name : string) : list Effect :=
  (* User cancelled share or error occurred *)
  if negb (String.eqb name "AbortError") then
    (* Fallback to clipboard if share fails *)
    ClipboardWriteText url ::
    match writeText_result b n with
    | None => copied_feedback
    | Some _ => [ToastError "Failed to copy link. Please try again."]
    end
  else [].

(** [tournamentName] is an optional property of the button that defaults
    to ['Tournament']. *)
Definition handleShare (tournamentId : string) (tournamentName : option string)
  (b : Browser) : list Effect :=
  let tournamentName := match tournamentName with
                        | Some name => name
                        | None => "Tournament"
                        end in
  let url := share_url tournamentId b in
  (* Try using the Web Share API if available (mobile) *)
  if can_share b then
    NavigatorShare ("Join " ++ tournamentName ++ " on GOALDEN")
                   ("Check out this tournament: " ++ tournamentName)
                   url ::
    match share_result b with
    | None => [ToastSuccess "Tournament shared!"]
    | Some name => on_error url b 0 name
    end
  else
    (* Fallback to clipboard copy *)
    ClipboardWriteText url ::
    match writeText_result b 0 with
    | None => copied_feedback
    | Some name => on_error url b 1 name
    end.

(** The number of clipboard writes among [effects]: the index, for
    [writeText_result], of the write that comes next. *)
Definition clipboard_writes (effects : list Effect) : nat :=
  List.length (filter (fun e => match e with
                                | ClipboardWriteText _ => true
                                | _ => false
                                end) effects).

End ShareButton.

(* ================================================================== *)
(** * Tournament pages *)
(* ================================================================== *)

(** The pages use one conversion of the runtime that is not part of the
    repository: the text of a value inside a template literal.  A string
    stands for itself; [ToString] gives the text of any other value. *)
Section Metadata.

Variable ToString : Json -> string.
(** [process.env.NEXT_PUBLIC_SITE_URL]. *)
Variable NEXT_PUBLIC_SITE_URL : option string.

(** [`${v}`]. *)
Definition template (v : Json) : string :=
  match v with
  | JStr s => s
  | _ => ToString v
  end.

(** [process.env.NEXT_PUBLIC_SITE_URL || 'https://goalden.vercel.app']. *)
Definition site_url : string :=
  as_string (or_else (opt_string NEXT_PUBLIC_SITE_URL) (JStr "https://goalden.vercel.app")).

Definition tournament_by_id (id : string) : Query :=
  {| from := "tournaments"; steps := [Select "*"; WhereEq "id" (JStr id); Single] |}.

(** [posterUrl.startsWith('http') ? posterUrl : `${site}${posterUrl}`]
    ([poster_url] is a string or [null]). *)
Definition fullPosterUrl (tournament : Json) : string :=
  let posterUrl :=
    as_string (or_else (prop tournament "poster_url")
                       (JStr "/images/GOALDEN LOGO/GOALDEN_logo.png")) in
  if prefix "http" posterUrl then posterUrl else site_url ++ posterUrl.

Definition not_found_metadata : Json :=
  object [ "title" ::: JStr "Tournament Not Found";
           "description" ::: JStr "The tournament you are looking for does not exist." ].

(** The metadata of a tournament page; [area] is ["/dashboard"] or
    ["/admin"], [suffix] what follows the title and [verb] the first word
    of the default description. *)
Definition metadata (area suffix verb : string) (id : string) (tournament : Json) : Json :=
  let name := template (prop tournament "name") in
  let url := site_url ++ area ++ "/tournaments/" ++ id in
  let long_description (verb : string) :=
    or_else (prop tournament "description")
            (JStr (verb ++ " " ++ name ++ " on GOALDEN. Entry fee: KES "
                   ++ template (prop tournament "entry_fee")
                   ++ ". Prize pool: KES "
                   ++ template (or_else (prop tournament "prize_pool") (JNum (of_Z 0))))) in
  object
    [ "title" ::: JStr (name ++ " - GOALDEN Tournament" ++ suffix);
      "description" ::: long_description verb;
      "openGraph" ::: object
        [ "title" ::: JStr (name ++ " - GOALDEN Tournament");
          "description" ::: long_description "Join";
          "url" ::: JStr url;
          "siteName" ::: JStr "GOALDEN";
          "images" ::: JArr [ object [ "url" ::: JStr (fullPosterUrl tournament);
                                       "width" ::: JNum (of_Z 1200);
                                       "height" ::: JNum (of_Z 630);
                                       "alt" ::: prop tournament "name" ] ];
          "locale" ::: JStr "en_US";
          "type" ::: JStr "website" ];
      "twitter" ::: object
        [ "card" ::: JStr "summary_large_image";
          "title" ::: JStr (name ++ " - GOALDEN Tournament");
          "description" ::: or_else (prop tournament "description")
                                    (JStr ("Join " ++ name ++ " on GOALDEN"));
          "images" ::: JArr [ JStr (fullPosterUrl tournament) ] ] ].

(** [generateMetadata] of the player page
    ([app/dashboard/tournaments/[id]/page.tsx]). *)
Definition generateMetadata (id : string) : Action Json :=
  r <- query (tournament_by_id id) ;;
  let tournament := data r in
  if negb (truthy tournament) then Return not_found_metadata
  else Return (metadata "/dashboard" "" "Join" id tournament).

(** [generateMetadata] of the admin page. *)
Definition admin_generateMetadata (id : string) : Action Json :=
  r <- query (tournament_by_id id) ;;
  let tournament := data r in
  if negb (truthy tournament) then Return not_found_metadata
  else Return (metadata "/admin" " (Admin)" "Manage" id tournament).

End Metadata.

Module Pages.

(** A page either renders or leaves through [redirect(path)], which does
    not return. *)
Inductive Page (A : Type) : Type :=
| Rendered (view : A)
| Redirected (path : string).

Arguments Rendered {A} view.
Arguments Redirected {A} path.

(** What [TournamentDetailPage] hands to the components it renders. *)
Record TournamentDetailView : Type :=
  { tournament : Json;
    isRegistered : bool;
    participantCount : Json;
    showRegisterButton : bool;
    matches : Json;
    participants : Json;
    userMatch : Json;
    upcomingMatches : Json;
    userId : string }.

(** [m.player1_id === user.id || m.player2_id === user.id]; reading a
    property of a [null] row raises. *)
Definition plays (userId : string) (m : Json) : option bool :=
  option_map (fun player1_id => is_string player1_id userId
                                || is_string (prop m "player2_id") userId)
             (member m "player1_id").

(** The callback of [matches?.find]: the user's match that is going on. *)
Definition is_active_match (userId : string) (m : Json) : option bool :=
  option_map (fun mine => mine && is_string (prop m "status") "ongoing") (plays userId m).

(** The callback of [matches?.filter]: the user's pending matches whose
    two players are known. *)
Definition is_upcoming_match (userId : string) (m : Json) : option bool :=
  option_map (fun mine => mine && is_string (prop m "status") "pending"
                          && truthy (prop m "player1_id")
                          && truthy (prop m "player2_id"))
             (plays userId m).

(** [matches?.method(callback)] on the answer of a list query: [undefined]
    when the answer is [null] or [undefined]; a value that is no array has
    no such method, and the call raises. *)
Definition optional_call (rows : Json) (method : list Json -> option Json) : option Json :=
  match rows with
  | JNull | JUndefined => Some JUndefined
  | JArr items => method items
  | _ => None
  end.

(** [rows?.length]. *)
Definition optional_length (rows : Json) : Json :=
  match rows with
  | JArr items => JNum (Analytics.of_length (List.length items))
  | JStr s => JNum (Analytics.of_length (String.length s))
  | _ => JUndefined
  end.

Definition TournamentDetailPage (id : string) : Action (Page TournamentDetailView) :=
  user <- getCurrentUser ;;
  match user with
  | None => Return (Redirected "/sign-in")
  | Some user =>
      (* Fetch tournament data *)
      r <- query (tournament_by_id id) ;;
      match error r with
      | Some _ => Return (Redirected "/dashboard")
      | None =>
        if negb (truthy (data r)) then Return (Redirected "/dashboard")
        else
          let tournament := data r in
          (* Check if user is registered *)
          registration <- query {| from := "registrations";
                                   steps := [Select "*";
                                             WhereEq "tournament_id" (JStr id);
                                             WhereEq "user_id" (JStr (user_id user));
                                             Single] |} ;;
          (* Fetch participants *)
          participants <- query {| from := "registrations";
                                   steps := [Select "*, profiles(*)";
                                             WhereEq "tournament_id" (JStr id);
                                             WhereEq "status" (JStr "confirmed")] |} ;;
          (* Fetch matches *)
          matches <- query {| from := "matches";
                              steps := [Select "*, player1:player1_id(full_name), player2:player2_id(full_name)";
                                        WhereEq "tournament_id" (JStr id);
                                        Order "round" true] |} ;;
          (* Find user's active match *)
          userMatch <- orThrow (optional_call (data matches)
                                  (find_row (is_active_match (user_id user)))) ;;
          (* Find user's upcoming matches *)
          upcoming <- orThrow (optional_call (data matches)
                                 (fun rows => option_map JArr
                                    (filter_rows (is_upcoming_match (user_id user)) rows))) ;;
          let upcomingMatches := or_else upcoming (JArr []) in
          let isRegistered := truthy (data registration) in
          let participantCount := or_else (optional_length (data participants)) (JNum (of_Z 0)) in
          Return (Rendered
            {| tournament := tournament;
               isRegistered := isRegistered;
               participantCount := participantCount;
               showRegisterButton :=
                 negb isRegistered && is_string (prop tournament "status") "registration";
               matches := or_else (data matches) (JArr []);
               participants := or_else (data participants) (JArr []);
               userMatch := userMatch;
               upcomingMatches := upcomingMatches;
               userId := user_id user |})
      end
  end.

(** The admin page renders the tournament it found. *)
Definition AdminTournamentDetailPage (tournamentId : string) : Action (Page Json) :=
  user <- getCurrentUser ;;
  if not_admin user then Return (Redirected "/")
  else
    r <- query (tournament_by_id tournamentId) ;;
    match error r with
    | Some _ => Return (Redirected "/admin/dashboard")
    | None =>
        if negb (truthy (data r)) then Return (Redirected "/admin/dashboard")
        else Return (Rendered (data r))
    end.

End Pages.
(* ================================================================== *)
(** * Client components: handlers that call the actions *)
(* ================================================================== *)

Module Client.

(** What a handler changes on the screen, in order: a state setter of the
    component ([setMessages(v)] is [SetState "messages" v]), an [alert]
    or a [console.error] (its label). *)
Inductive Ui : Type :=
| SetState (name : string) (value : Json)
| Alert (text : string)
| ConsoleError (label : string).

(** An [async] handler of a client component: it awaits server actions,
    each of them a request of its own that resolves to the action's
    result or rejects, and changes the screen. *)
Inductive Handler (A : Type) : Type :=
| Done (a : A)
| Raise (err : string)
| Await (c : Call) (k : Outcome Json -> Handler A)
| Screen (u : Ui) (k : Handler A).

Arguments Done {A} a.
Arguments Raise {A} err.
Arguments Await {A} c k.
Arguments Screen {A} u k.

Fixpoint then_ {A B : Type} (m : Handler A) (f : A -> Handler B) : Handler B :=
  match m with
  | Done a => f a
  | Raise e => Raise e
  | Await c k => Await c (fun o => then_ (k o) f)
  | Screen u k => Screen u (then_ k f)
  end.

(** [try { m } catch (error) { handler }]. *)
Fixpoint catch {A : Type} (m : Handler A) (handler : string -> Handler A) : Handler A :=
  match m with
  | Done a => Done a
  | Raise e => handler e
  | Await c k => Await c (fun o => catch (k o) handler)
  | Screen u k => Screen u (catch k handler)
  end.

(** [await action(...)]: a rejected promise raises at the [await]. *)
Definition await (c : Call) : Handler Json :=
  Await c (fun o => match o with
                    | Returned v => Done v
                    | Thrown e => Raise e
                    end).

Definition show (u : Ui) : Handler unit := Screen u (Done tt).

(** [if (result.data) { setX(result.data) }]. *)
Definition set_if_data (name : string) (result : Json) : Handler unit :=
  if truthy (prop result "data") then show (SetState name (prop result "data")) else Done tt.

(** What a handler did, in order: a request to a server action with the
    events of that request, or a change on the screen. *)
Inductive Seen : Type :=
| Requested (c : Call) (events : list Event)
| Shown (u : Ui).

Definition shown (l : list Seen) : list Ui :=
  flat_map (fun s => match s with Shown u => [u] | Requested _ _ => [] end) l.

Definition requested (l : list Seen) : list Call :=
  flat_map (fun s => match s with Requested c _ => [c] | Shown _ => [] end) l.

(** The value that a state variable holds after the changes [l], if one of
    them set it. *)
Fixpoint state_after (name : string) (l : list Ui) : option Json :=
  match l with
  | [] => None
  | u :: rest =>
      match state_after name rest with
      | Some v => Some v
      | None =>
          match u with
          | SetState n v => if String.eqb n name then Some v else None
          | _ => None
          end
      end
  end.

End Client.

Import Client.

Notation "x <~ m ;; k" := (then_ m (fun x => k))
  (at level 61, m at next level, right associativity).

Section Components.

Variable toISOString : Z -> string.
Variable Date_getTime : Json -> number.

(** Running a handler against the server: [server n] is the world in
    which the [n]-th request of the handler runs. *)
Fixpoint run_handler {A : Type} (m : Handler A) (server : nat -> World) (n : nat)
  : Outcome A * list Seen :=
  match m with
  | Done a => (Returned a, [])
  | Raise e => (Thrown e, [])
  | Await c k =>
      let (o, t) := request (perform toISOString Date_getTime c) (server n) in
      let (o', l) := run_handler (k o) server (S n) in
      (o', Requested c t :: l)
  | Screen u k =>
      let (o, l) := run_handler k server n in
      (o, Shown u :: l)
  end.

(* ------------------------------------------------------------------ *)
(** ** [AdminCommunication] *)
(* ------------------------------------------------------------------ *)

(** The state of the compose form; the two selects offer the values of
    the announcement types and targets. *)
Record ComposeData : Type :=
  { compose_title : string;
    compose_content : string;
    compose_type : AnnouncementType;
    compose_target : AnnouncementTarget;
    scheduledAt : string }.

(** The argument that [handleSendAnnouncement] builds;
    [scheduled_at: composeData.scheduledAt || undefined]. *)
Definition announcement_of (composeData : ComposeData) : AnnouncementInput :=
  {| title := compose_title composeData;
     content := compose_content composeData;
     type := compose_type composeData;
     target := compose_target composeData;
     scheduled_at := if String.eqb (scheduledAt composeData) "" then None
                     else Some (scheduledAt composeData) |}.

Definition empty_composeData : Json :=
  object [ "title" ::: JStr ""; "content" ::: JStr ""; "type" ::: JStr "general";
           "target" ::: JStr "all"; "scheduledAt" ::: JStr "" ].

Definition loadCommunicationData : Handler unit :=
  _ <~ catch
        ((* Load announcements *)
         announcementsResult <~ await call_getAnnouncements ;;
         _ <~ set_if_data "announcements" announcementsResult ;;
         (* Load messages *)
         messagesResult <~ await call_getAdminMessages ;;
         _ <~ set_if_data "messages" messagesResult ;;
         (* Load stats *)
         statsResult <~ await call_getCommunicationStats ;;
         set_if_data "stats" statsResult)
        (fun _ => show (ConsoleError "Error loading communication data:")) ;;
  show (SetState "loading" (JBool false)).

Definition handleSendAnnouncement (composeData : ComposeData) : Handler unit :=
  catch
    (result <~ await (call_createAnnouncement (announcement_of composeData)) ;;
     if truthy (prop result "error") then
       _ <~ show (ConsoleError "Error creating announcement:") ;;
       show (Alert ("Failed to create announcement: " ++ as_string (prop result "error")))
     else
       (* Reload announcements *)
       announcementsResult <~ await call_getAnnouncements ;;
       _ <~ set_if_data "announcements" announcementsResult ;;
       (* Reload stats *)
       statsResult <~ await call_getCommunicationStats ;;
       _ <~ set_if_data "stats" statsResult ;;
       _ <~ show (SetState "showCompose" (JBool false)) ;;
       show (SetState "composeData" empty_composeData))
    (fun _ =>
       _ <~ show (ConsoleError "Error sending announcement:") ;;
       show (Alert "Failed to send announcement")).

Definition getTypeColor (type : string) : string :=
  if String.eqb type "urgent" then "bg-red-100 border-red-300 text-red-800"
  else if String.eqb type "tournament" then "bg-blue-100 border-blue-300 text-blue-800"
  else if String.eqb type "maintenance" then "bg-yellow-100 border-yellow-300 text-yellow-800"
  else "bg-gray-100 border-gray-300 text-gray-800".

Definition getPriorityColor (priority : string) : string :=
  if String.eqb priority "urgent" then "bg-red-100 border-red-300 text-red-800"
  else if String.eqb priority "high" then "bg-orange-100 border-orange-300 text-orange-800"
  else if String.eqb priority "medium" then "bg-yellow-100 border-yellow-300 text-yellow-800"
  else "bg-gray-100 border-gray-300 text-gray-800".

(** The icons of [lucide-react] that the announcement list uses. *)
Inductive Icon : Type := CheckCircle | Clock | AlertCircle.

Definition getStatusIcon (status : string) : Icon :=
  if String.eqb status "sent" then CheckCircle
  else if String.eqb status "scheduled" then Clock
  else if String.eqb status "failed" then AlertCircle
  else Clock.

(** The two rates of an announcement card
    ([recipients], [opened] and [clicked] are numbers):
    [Math.round((announcement.opened / announcement.recipients) * 100)]. *)
Definition openRate (announcement : Json) : number :=
  percentage (as_number (prop announcement "opened"))
             (as_number (prop announcement "recipients")).

Definition clickRate (announcement : Json) : number :=
  percentage (as_number (prop announcement "clicked"))
             (as_number (prop announcement "recipients")).

(** [messages.map(m => m.id === id ? { ...m, status } : m)] (the messages
    of the list are objects). *)
Definition with_status (id : Json) (status : string) (messages : list Json) : list Json :=
  map (fun m => if strict_equal (prop m "id") id
                then object [ Spread m; "status" ::: JStr status ]
                else m)
      messages.

(** The click on a message of the list:
    mark as read when opening. *)
Definition open_message (messages : list Json) (message : Json) : Handler unit :=
  _ <~ (if is_string (prop message "status") "unread" then
          _ <~ await (call_updateMessageStatus (as_string (prop message "id")) read) ;;
          (* Update local state *)
          show (SetState "messages" (JArr (with_status (prop message "id") "read" messages)))
        else Done tt) ;;
  show (SetState "selectedMessage" message).

(** The click on the reply button of the selected message. *)
Definition send_reply (messages : list Json) (selectedMessage : Json) (replyText : string)
  : Handler unit :=
  if blank replyText then show (Alert "Please enter a reply message")
  else
    catch
      (result <~ await (call_replyToMessage (as_string (prop selectedMessage "id")) replyText) ;;
       if truthy (prop result "error") then
         show (Alert ("Failed to send reply: " ++ as_string (prop result "error")))
       else
         (* Update message status *)
         _ <~ show (SetState "messages"
                      (JArr (with_status (prop selectedMessage "id") "replied" messages))) ;;
         _ <~ show (SetState "selectedMessage"
                      (object [ Spread selectedMessage; "status" ::: JStr "replied" ])) ;;
         _ <~ show (SetState "replyText" (JStr "")) ;;
         show (Alert "Reply sent successfully!"))
      (fun _ =>
         _ <~ show (ConsoleError "Error sending reply:") ;;
         show (Alert "Failed to send reply")).

(* ------------------------------------------------------------------ *)
(** ** [SystemAdministration] *)
(* ------------------------------------------------------------------ *)

Definition loadSystemData : Handler unit :=
  _ <~ catch
        ((* Load settings *)
         settingsResult <~ await call_getSystemSettings ;;
         _ <~ set_if_data "settings" settingsResult ;;
         (* Load health *)
         healthResult <~ await call_getSystemHealth ;;
         _ <~ set_if_data "health" healthResult ;;
         (* Load user roles *)
         rolesResult <~ await call_getUserRoles ;;
         set_if_data "userRoles" rolesResult)
        (fun _ => show (ConsoleError "Error loading system data:")) ;;
  show (SetState "loading" (JBool false)).

Definition handleSaveSettings (settings : Json) : Handler unit :=
  if negb (truthy settings) then Done tt
  else
    catch
      (result <~ await (call_updateSystemSettings settings) ;;
       if truthy (prop result "error") then
         _ <~ show (ConsoleError "Error saving settings:") ;;
         show (Alert ("Failed to save settings: " ++ as_string (prop result "error")))
       else
         _ <~ show (SetState "showSettings" (JBool false)) ;;
         show (Alert "Settings saved successfully!"))
      (fun _ =>
         _ <~ show (ConsoleError "Error saving settings:") ;;
         show (Alert "Failed to save settings")).

(** [{ ...settings, platform: { ...settings.platform,
       maintenance_mode: !settings.platform.maintenance_mode } }];
    reading [maintenance_mode] raises when [settings.platform] is [null]
    or [undefined]. *)
Definition toggled (settings : Json) : option Json :=
  option_map
    (fun maintenance_mode =>
       object [ Spread settings;
                "platform" ::: object [ Spread (prop settings "platform");
                                        "maintenance_mode" ::: JBool (negb (truthy maintenance_mode)) ] ])
    (member (prop settings "platform") "maintenance_mode").

Definition handleMaintenanceToggle (settings : Json) : Handler unit :=
  if truthy settings then
    match toggled settings with
    | None => Raise "TypeError"
    | Some updatedSettings =>
        _ <~ show (SetState "settings" updatedSettings) ;;
        (* Save immediately *)
        catch
          (result <~ await (call_updateSystemSettings updatedSettings) ;;
           if truthy (prop result "error") then
             _ <~ show (ConsoleError "Error updating maintenance mode:") ;;
             (* Revert on error *)
             _ <~ show (SetState "settings" settings) ;;
             show (Alert ("Failed to update maintenance mode: " ++ as_string (prop result "error")))
           else Done tt)
          (fun _ =>
             _ <~ show (ConsoleError "Error updating maintenance mode:") ;;
             _ <~ show (SetState "settings" settings) ;;
             show (Alert "Failed to update maintenance mode"))
    end
  else Done tt.

Definition getHealthColor (status : string) : string :=
  if String.eqb status "healthy" then "text-green-600 bg-green-100"
  else if String.eqb status "warning" then "text-yellow-600 bg-yellow-100"
  else if String.eqb status "critical" then "text-red-600 bg-red-100"
  else "text-gray-600 bg-gray-100".

End Components.

(* ================================================================== *)
(** * Further notions used in the statements *)
(* ================================================================== *)

Module MoreStatements.

(** The actions that only read. *)
Definition read_only (c : Call) : bool :=
  match c with
  | call_getAnnouncements | call_getAdminMessages | call_getAdminMessage _
  | call_getCommunicationStats | call_getSystemSettings | call_getSystemHealth
  | call_getUserRoles => true
  | _ => false
  end.

(** The paths revalidated by a request. *)
Definition revalidations (t : list Event) : list string :=
  flat_map (fun e => match e with Revalidated p => [p] | Queried _ => [] end) t.

(** The four sections of the system settings. *)
Definition sections : list string := [ "platform"; "security"; "notifications"; "payments" ].

(** The role under which [getUserRoles] counts a profile:
    [profile.role || 'player']. *)
Definition role_of (profile : Json) : string :=
  as_string (or_else (prop profile "role") (JStr "player")).

(** A profile row as the database types it, with a role on which the
    count is modelled: its [role] is [null], absent, the empty string or
    a [plain_role]. *)
Definition typed_role (profile : Json) : bool :=
  match prop profile "role" with
  | JNull | JUndefined => true
  | JStr s => String.eqb s "" || plain_role s
  | _ => false
  end.

(** The number of profiles counted under [role]. *)
Definition profiles_with_role (role : string) (profiles : list Json) : nat :=
  List.length (filter (fun p => String.eqb (role_of p) role) profiles).

(** [counts] holds, under distinct keys, the number of the profiles
    [seen] under each role that occurs among them, and nothing else. *)
Definition counts_profiles (counts : list (string * Json)) (seen : list Json) : Prop :=
  NoDup (keys counts)
  /\ forall role,
       lookup role counts
       = if (0 <? profiles_with_role role seen)%nat
         then Some (JNum (Analytics.of_length (profiles_with_role role seen)))
         else None.

(** The query of [getUserRoles]. *)
Definition roles_query : Query := {| from := "profiles"; steps := [Select "role"] |}.

(** The row that [updateSystemSettings] leaves for key [k] when the
    settings do not carry it. *)
Definition own_default (k : string) : Json :=
  if String.eqb k "id" then JNum (of_Z 1) else JUndefined.

(** The query of [TournamentDetailPage] for the matches of a tournament. *)
Definition matches_of (id : string) : Query :=
  {| from := "matches";
     steps := [Select "*, player1:player1_id(full_name), player2:player2_id(full_name)";
               WhereEq "tournament_id" (JStr id);
               Order "round" true] |}.

End MoreStatements.

Import MoreStatements.

(* ================================================================== *)
(** * Further sample requests *)
(* ================================================================== *)

Module MoreSamples.

Import Samples.

(** Two message rows: one with the profile of its sender, one without. *)
Definition message_rows : list Json :=
  [ JObj [ ("id", JStr "m1"); ("subject", JStr "Refund"); ("status", JStr "unread");
           ("priority", JStr "high"); ("user_id", JStr "u-player");
           ("profiles", JObj [ ("id", JStr "u-player"); ("full_name", JStr "Ann Lee");
                               ("email", JStr "ann@example.org") ]) ];
    JObj [ ("id", JStr "m2"); ("subject", JStr "Bracket"); ("status", JStr "read");
           ("priority", JStr "low"); ("user_id", JStr "u-gone");
           ("profiles", JNull) ] ].

(** An admin is signed in and every query answers with these rows. *)
Definition messages_world : World :=
  {| current_user := Some an_admin;
     clock := a_clock;
     database := fun _ _ => {| data := JArr message_rows; error := None; count := None |} |}.

(** An admin is signed in; the stored settings hold the maintenance flag
    only. *)
Definition settings_world : World :=
  {| current_user := Some an_admin;
     clock := a_clock;
     database := fun _ _ =>
       {| data := JObj [ ("id", JNum (of_Z 1));
                         ("platform", JObj [ ("maintenance_mode", JBool true) ]) ];
          error := None; count := None |} |}.

(** Four profiles: an admin, two players and one without role. *)
Definition profile_rows : list Json :=
  [ JObj [ ("role", JStr "admin") ]; JObj [ ("role", JStr "player") ];
    JObj [ ("role", JNull) ]; JObj [ ("role", JStr "player") ] ].

Definition profiles_world : World :=
  {| current_user := Some an_admin;
     clock := a_clock;
     database := fun _ _ => {| data := JArr profile_rows; error := None; count := None |} |}.

(** Three tournaments of the range, one of them completed. *)
Definition tournament_rows : list Json :=
  [ JObj [ ("id", JStr "t1"); ("status", JStr "completed") ];
    JObj [ ("id", JStr "t2"); ("status", JStr "ongoing") ];
    JObj [ ("id", JStr "t3"); ("status", JStr "registration") ] ].

(** The matches of a tournament: the player has a pending match, a match
    that is going on, and does not play in the third. *)
Definition match_rows : list Json :=
  [ JObj [ ("id", JStr "g1"); ("player1_id", JStr "u-player"); ("player2_id", JStr "u-2");
           ("status", JStr "pending") ];
    JObj [ ("id", JStr "g2"); ("player1_id", JStr "u-3"); ("player2_id", JStr "u-player");
           ("status", JStr "ongoing") ];
    JObj [ ("id", JStr "g3"); ("player1_id", JStr "u-2"); ("player2_id", JStr "u-3");
           ("status", JStr "pending") ] ].

(** A player is signed in; the first query finds the tournament, the
    second no registration, the third no participant and the fourth the
    matches. *)
Definition tournament_world : World :=
  {| current_user := Some a_player;
     clock := a_clock;
     database := fun n _ =>
       {| data := match n with
                  | 0%nat => JObj [ ("id", JStr "t3"); ("name", JStr "Spring Cup");
                                    ("status", JStr "registration") ]
                  | 3%nat => JArr match_rows
                  | _ => JNull
                  end;
          error := None; count := None |} |}.

(** The view that the page renders in that world. *)
Definition a_view : Pages.TournamentDetailView :=
  {| Pages.tournament := JObj [ ("id", JStr "t3"); ("name", JStr "Spring Cup");
                                ("status", JStr "registration") ];
     Pages.isRegistered := false;
     Pages.participantCount := JNum (of_Z 0);
     Pages.showRegisterButton := true;
     Pages.matches := JArr match_rows;
     Pages.participants := JArr [];
     Pages.userMatch := nth 1 match_rows JNull;
     Pages.upcomingMatches := JArr [nth 0 match_rows JNull];
     Pages.userId := "u-player" |}.

(** The settings after one use of the maintenance switch on the default
    settings. *)
Definition maintenance_on : Json :=
  object [ Spread defaultSettings;
           "platform" ::: object [ Spread default_platform;
                                   "maintenance_mode" ::: JBool true ] ].

(** A server that answers every request of a handler in the same world. *)
Definition always (w : World) : nat -> World := fun _ => w.

End MoreSamples.

(* ================================================================== *)
(** * Properties *)
(* ================================================================== *)

(* ------------------------------------------------------------------ *)
(** ** Rounding error of the arithmetic *)
(* ------------------------------------------------------------------ *)

(** The growth figures are obtained by four roundings (a product, a
    difference, a quotient, a product) followed by [Math.round].  This
    part derives, from the definitions of [SpecFloat], that each
    operation on positive normal numbers returns a positive normal number
    within a relative 2^-52 (2^-51 for the quotient) of the exact result,
    as long as that result stays between 2^-1000 and 2^1000. *)

(** A number of [d] binary digits lies in [2^(d-1), 2^d). *)
Lemma digits2_pos_bounds (p : positive) :
  2 ^ (Zpos (digits2_pos p) - 1) <= Zpos p < 2 ^ Zpos (digits2_pos p).
Proof.
  induction p as [p IH|p IH|]; cbn [digits2_pos].
  - rewrite Pos2Z.inj_succ. change (Zpos p~1) with (2 * Zpos p + 1).
    replace (Z.succ (Zpos (digits2_pos p)) - 1) with (Z.succ (Zpos (digits2_pos p) - 1)) by lia.
    rewrite !Z.pow_succ_r by lia.
    destruct IH as [IH1 IH2]. revert IH1 IH2.
    generalize (2 ^ (Zpos (digits2_pos p) - 1)) (2 ^ Zpos (digits2_pos p)). lia.
  - rewrite Pos2Z.inj_succ. change (Zpos p~0) with (2 * Zpos p).
    replace (Z.succ (Zpos (digits2_pos p)) - 1) with (Z.succ (Zpos (digits2_pos p) - 1)) by lia.
    rewrite !Z.pow_succ_r by lia.
    destruct IH as [IH1 IH2]. revert IH1 IH2.
    generalize (2 ^ (Zpos (digits2_pos p) - 1)) (2 ^ Zpos (digits2_pos p)). lia.
  - cbn. lia.
Qed.

(** Conversely, the binade fixes the number of digits. *)
Lemma Zdigits2_unique (m k : Z) :
  0 < m -> 2 ^ (k - 1) <= m < 2 ^ k -> Zdigits2 m = k.
Proof.
  intros Hm [Hlo Hhi]. destruct m as [|p|p]; try lia. cbn [Zdigits2].
  pose proof (digits2_pos_bounds p) as [Hlo' Hhi'].
  set (d := Zpos (digits2_pos p)) in *.
  assert (Hd : 0 < d) by (unfold d; lia).
  destruct (Z.lt_trichotomy d k) as [Hlt|[Heq|Hgt]]; [|exact Heq|].
  - assert (2 ^ d <= 2 ^ (k - 1)) by (apply Z.pow_le_mono_r; lia). lia.
  - assert (0 <= k).
    { destruct (Z.le_gt_cases 0 k); [assumption|].
      rewrite (Z.pow_neg_r 2 k) in Hhi by lia. lia. }
    assert (2 ^ k <= 2 ^ (d - 1)) by (apply Z.pow_le_mono_r; lia). lia.
Qed.

(** One shift to the right halves the mantissa. *)
Lemma shr_m_shr_1 (mrs : shr_record) :
  0 <= shr_m mrs -> shr_m (shr_1 mrs) = shr_m mrs / 2.
Proof.
  destruct mrs as [m r s]. cbn [shr_m]. intros Hm.
  rewrite <- Z.div2_div.
  destruct m as [|[p|p|]|p]; try lia; reflexivity.
Qed.

(** [p] shifts to the right divide the mantissa by [2^p]. *)
Lemma shr_m_iter (p : positive) :
  forall mrs, 0 <= shr_m mrs ->
    shr_m (SpecFloat.iter_pos shr_1 p mrs) = shr_m mrs / 2 ^ Zpos p.
Proof.
  assert (Hhalf : forall mrs, 0 <= shr_m mrs -> 0 <= shr_m (shr_1 mrs)).
  { intros mrs H. rewrite shr_m_shr_1 by assumption. apply Z.div_pos; lia. }
  induction p as [p IH|p IH|]; intros mrs Hm; cbn [SpecFloat.iter_pos].
  - assert (H1 : 0 <= shr_m (SpecFloat.iter_pos shr_1 p (shr_1 mrs))).
    { rewrite IH by auto. apply Z.div_pos; [auto|]. apply Z.pow_pos_nonneg; lia. }
    rewrite IH by assumption. rewrite IH by auto. rewrite shr_m_shr_1 by assumption.
    rewrite !Z.div_div by (try apply Z.pow_pos_nonneg; lia).
    f_equal. change (Zpos p~1) with (2 * Zpos p + 1).
    replace (2 * Zpos p + 1) with (1 + Zpos p + Zpos p) by lia.
    rewrite !Z.pow_add_r by lia. lia.
  - assert (H1 : 0 <= shr_m (SpecFloat.iter_pos shr_1 p mrs)).
    { rewrite IH by auto. apply Z.div_pos; [auto|]. apply Z.pow_pos_nonneg; lia. }
    rewrite IH by assumption. rewrite IH by auto.
    rewrite !Z.div_div by (try apply Z.pow_pos_nonneg; lia).
    f_equal. change (Zpos p~0) with (2 * Zpos p).
    replace (2 * Zpos p) with (Zpos p + Zpos p) by lia.
    rewrite !Z.pow_add_r by lia. lia.
  - rewrite shr_m_shr_1 by assumption. reflexivity.
Qed.

Lemma shr_m_of_loc (m : Z) (l : location) : shr_m (shr_record_of_loc m l) = m.
Proof. destruct l as [|[]]; reflexivity. Qed.

(** Rounding to nearest keeps the truncated mantissa or adds one to it. *)
Lemma round_nearest_even_cases (m : Z) (l : location) :
  round_nearest_even m l = m \/ round_nearest_even m l = m + 1.
Proof.
  destruct l as [|[]]; cbn; auto. destruct (Z.even m); auto.
Qed.

(** Shifting to the working precision, in the normal range. *)
Lemma shr_fexp_normal (m e : Z) (l : location) :
  0 < m -> -1074 <= Zdigits2 m + e - 53 ->
  let n := Z.max (Zdigits2 m - 53) 0 in
  shr_m (fst (shr_fexp prec emax m e l)) = m / 2 ^ n
  /\ snd (shr_fexp prec emax m e l) = e + n.
Proof.
  intros Hm Hnormal n. unfold shr_fexp, fexp, emin, prec, emax, shr.
  replace (Z.max (Zdigits2 m + e - 53) (3 - 1024 - 53)) with (Zdigits2 m + e - 53) by lia.
  replace (Zdigits2 m + e - 53 - e) with (Zdigits2 m - 53) by lia.
  destruct (Zdigits2 m - 53) as [|p|p] eqn:Hn; cbn [fst snd].
  - replace n with 0 by lia. rewrite shr_m_of_loc, Z.div_1_r. lia.
  - replace n with (Zpos p) by lia.
    rewrite shr_m_iter by (rewrite shr_m_of_loc; lia).
    rewrite shr_m_of_loc. split; reflexivity.
  - replace n with 0 by lia. rewrite shr_m_of_loc, Z.div_1_r. lia.
Qed.

Lemma pow2_pos (k : Z) : 0 <= k -> 0 < 2 ^ k.
Proof. intros. apply Z.pow_pos_nonneg; lia. Qed.

(** The mantissa kept when a number of [d >= 53] digits is cut to 53. *)
Lemma leading_53 (m d : Z) :
  53 <= d -> 2 ^ (d - 1) <= m < 2 ^ d ->
  2 ^ 52 <= m / 2 ^ (d - 53) < 2 ^ 53.
Proof.
  intros Hd [Hlo Hhi].
  assert (Hn : 0 < 2 ^ (d - 53)) by (apply pow2_pos; lia).
  split.
  - apply Z.div_le_lower_bound; [assumption|].
    rewrite <- Z.pow_add_r by lia. replace (d - 53 + 52) with (d - 1) by lia. assumption.
  - apply Z.div_lt_upper_bound; [assumption|].
    rewrite <- Z.pow_add_r by lia. replace (d - 53 + 53) with d by lia. assumption.
Qed.

(** Rounding a positive number whose mantissa has at least 53 digits and
    whose result is in the normal range: the result is a normal number
    whose value is the kept mantissa, or that mantissa plus one, at the
    kept exponent. *)
Lemma binary_round_aux_normal (mx : positive) (ex : Z) (lx : location) :
  let d := Zpos (digits2_pos mx) in
  let e1 := ex + (d - 53) in
  let M := Zpos mx / 2 ^ (d - 53) in
  53 <= d -> -1074 <= e1 -> e1 <= 970 ->
  exists m' e',
    binary_round_aux prec emax false (Zpos mx) ex lx = S754_finite false m' e'
    /\ Zpos (digits2_pos m') = 53
    /\ e1 <= e'
    /\ M <= Zpos m' * 2 ^ (e' - e1) <= M + 1.
Proof.
  intros d e1 M Hd Hlo Hhi.
  pose proof (digits2_pos_bounds mx) as Hmx. fold d in Hmx.
  pose proof (leading_53 (Zpos mx) d Hd Hmx) as HM. fold M in HM.
  unfold binary_round_aux.
  destruct (shr_fexp_normal (Zpos mx) ex lx) as [H1 H2];
    [lia | cbn [Zdigits2]; fold d; lia |].
  cbn [Zdigits2] in H1, H2. fold d in H1, H2.
  replace (Z.max (d - 53) 0) with (d - 53) in H1, H2 by lia.
  fold M in H1. fold e1 in H2.
  destruct (shr_fexp prec emax (Zpos mx) ex lx) as [mrs' e1'].
  cbn [fst snd] in H1, H2. subst e1'.
  set (M2 := round_nearest_even (shr_m mrs') (loc_of_shr_record mrs')).
  assert (HM2 : M2 = M \/ M2 = M + 1).
  { unfold M2. rewrite <- H1. apply round_nearest_even_cases. }
  assert (Hcases : M2 < 2 ^ 53 \/ M2 = 2 ^ 53) by lia.
  destruct Hcases as [Hsmall|Hcarry].
  - assert (Hdig : Zdigits2 M2 = 53).
    { apply Zdigits2_unique; [lia|]. change (53 - 1) with 52. lia. }
    destruct (shr_fexp_normal M2 e1 loc_Exact) as [H3 H4]; [lia | lia |].
    rewrite Hdig in H3, H4. change (Z.max (53 - 53) 0) with 0 in H3, H4.
    rewrite Z.div_1_r in H3. rewrite Z.add_0_r in H4.
    destruct (shr_fexp prec emax M2 e1 loc_Exact) as [mrs'' e''].
    cbn [fst snd] in H3, H4. subst e''. rewrite H3.
    destruct M2 as [|m2|m2] eqn:HeqM2; try lia.
    replace (e1 <=? emax - prec) with true by (symmetry; apply Z.leb_le; unfold emax, prec; lia).
    exists m2, e1. split; [reflexivity|]. split; [exact Hdig|].
    split; [lia|]. rewrite Z.sub_diag, Z.pow_0_r. lia.
  - assert (Hdig : Zdigits2 M2 = 54).
    { apply Zdigits2_unique; [lia|]. change (54 - 1) with 53. rewrite Hcarry.
      split; [lia|]. apply Z.pow_lt_mono_r; lia. }
    destruct (shr_fexp_normal M2 e1 loc_Exact) as [H3 H4]; [lia | lia |].
    rewrite Hdig in H3, H4. change (Z.max (54 - 53) 0) with 1 in H3, H4.
    destruct (shr_fexp prec emax M2 e1 loc_Exact) as [mrs'' e''].
    cbn [fst snd] in H3, H4. subst e''. rewrite H3, Hcarry.
    change (2 ^ 53 / 2 ^ 1) with (Zpos (2 ^ 52)%positive).
    replace (e1 + 1 <=? emax - prec) with true by (symmetry; apply Z.leb_le; unfold emax, prec; lia).
    exists (2 ^ 52)%positive, (e1 + 1). split; [reflexivity|]. split; [reflexivity|].
    split; [lia|]. replace (e1 + 1 - e1) with 1 by lia.
    change (Zpos (2 ^ 52) * 2 ^ 1) with (2 ^ 53). lia.
Qed.

Lemma bpow_pos (e : Z) : (0 < bpow e)%R.
Proof. apply powerRZ_lt. lra. Qed.

Lemma bpow_add (a b : Z) : bpow (a + b) = (bpow a * bpow b)%R.
Proof. apply powerRZ_add. lra. Qed.

Lemma bpow_IZR (k : Z) : 0 <= k -> bpow k = IZR (2 ^ k).
Proof.
  intros Hk. destruct k as [|p|p]; try lia.
  - reflexivity.
  - unfold bpow. change (2 ^ Zpos p) with (Z.pow_pos 2 p).
    rewrite Zpower_pos_powerRZ. reflexivity.
Qed.

(** Powers of two grow with the exponent, and only with it. *)
Lemma bpow_le (a b : Z) : a <= b -> (bpow a <= bpow b)%R.
Proof.
  intros Hab. replace b with (a + (b - a)) by lia. rewrite bpow_add.
  rewrite (bpow_IZR (b - a)) by lia.
  assert (1 <= IZR (2 ^ (b - a)))%R.
  { apply IZR_le. pose proof (pow2_pos (b - a)). lia. }
  pose proof (bpow_pos a). nra.
Qed.

Lemma bpow_le_inv (a b : Z) : (bpow a <= bpow b)%R -> a <= b.
Proof.
  intros H. destruct (Z.le_gt_cases a b) as [|Hgt]; [assumption|exfalso].
  assert (H1 : (bpow (b + 1) <= bpow a)%R) by (apply bpow_le; lia).
  rewrite bpow_add in H1.
  replace (bpow 1) with 2%R in H1 by (symmetry; apply (powerRZ_1 2)).
  pose proof (bpow_pos b). lra.
Qed.

Lemma bpow_lt_inv (a b : Z) : (bpow a < bpow b)%R -> a < b.
Proof.
  intros H. destruct (Z.lt_ge_cases a b) as [|Hge]; [assumption|exfalso].
  assert (H1 : (bpow b <= bpow a)%R) by (apply bpow_le; lia). lra.
Qed.

(** The value of a number of [d] digits at exponent [e] lies in the
    binade [2^(d-1+e), 2^(d+e)). *)
Lemma value_binade (m : positive) (e : Z) :
  (bpow (Zpos (digits2_pos m) - 1 + e) <= IZR (Zpos m) * bpow e
   < bpow (Zpos (digits2_pos m) + e))%R.
Proof.
  pose proof (digits2_pos_bounds m) as [Hlo Hhi].
  pose proof (bpow_pos e).
  rewrite (bpow_add (Zpos (digits2_pos m) - 1) e), (bpow_add (Zpos (digits2_pos m)) e).
  rewrite (bpow_IZR (Zpos (digits2_pos m) - 1)), (bpow_IZR (Zpos (digits2_pos m))) by lia.
  apply IZR_le in Hlo. apply IZR_lt in Hhi. split; nra.
Qed.

(** Rounding, stated on values: in the range [2^-1000, 2^1000] the
    result is normal and within a relative 2^-52 of the number rounded. *)
Lemma binary_round_aux_value (mx : positive) (ex : Z) (lx : location) :
  53 <= Zpos (digits2_pos mx) ->
  (bpow (-1000) <= IZR (Zpos mx) * bpow ex <= bpow 1000)%R ->
  exists r,
    binary_round_aux prec emax false (Zpos mx) ex lx = r
    /\ pos_normal r
    /\ ((1 - u) * (IZR (Zpos mx) * bpow ex) <= value r
        <= (1 + u) * (IZR (Zpos mx) * bpow ex))%R.
Proof.
  intros Hd [Hlo Hhi].
  pose proof (value_binade mx ex) as [Hb1 Hb2].
  set (d := Zpos (digits2_pos mx)) in *.
  assert (He1 : -1000 < d + ex) by (apply bpow_lt_inv; lra).
  assert (He2 : d - 1 + ex <= 1000) by (apply bpow_le_inv; lra).
  destruct (binary_round_aux_normal mx ex lx) as (m' & e' & Hr & Hdig & Hexp & HV);
    [exact Hd | fold d; lia | fold d; lia |].
  fold d in Hexp, HV.
  exists (S754_finite false m' e'). split; [exact Hr|]. split.
  { exists m', e'. split; [reflexivity|exact Hdig]. }
  cbn [value cond_Zopp].
  (* everything in units of 2^ex *)
  set (n := d - 53) in *. set (e1 := ex + n) in *.
  set (P := 2 ^ n) in *. set (M := Zpos mx / P) in *.
  assert (HP : 0 < P) by (apply pow2_pos; unfold n; lia).
  pose proof (digits2_pos_bounds mx) as [Hmlo _]. fold d in Hmlo.
  assert (HmP : 2 ^ 52 * P <= Zpos mx).
  { unfold P. rewrite <- Z.pow_add_r by (unfold n; lia).
    replace (52 + n) with (d - 1) by (unfold n; lia). exact Hmlo. }
  assert (Hdiv1 : P * M <= Zpos mx) by (apply Z.mul_div_le; exact HP).
  assert (Hdiv2 : Zpos mx < P * Z.succ M) by (apply Z.mul_succ_div_gt; exact HP).
  set (V := Zpos m' * 2 ^ (e' - ex)).
  assert (HV' : V = Zpos m' * 2 ^ (e' - e1) * P).
  { unfold V, P. rewrite <- Z.mul_assoc, <- Z.pow_add_r by (unfold e1 in *; lia).
    do 2 f_equal. unfold e1. lia. }
  assert (Hval : (IZR (Zpos m') * bpow e' = IZR V * bpow ex)%R).
  { unfold V. rewrite mult_IZR, <- bpow_IZR by (unfold e1 in *; lia).
    rewrite Rmult_assoc, <- bpow_add. do 2 f_equal. lia. }
  rewrite Hval.
  assert (HVcases : V = P * M \/ V = P * M + P).
  { rewrite HV'. revert HV. generalize (Zpos m' * 2 ^ (e' - e1)). intros A HA.
    assert (Hc : A = M \/ A = M + 1) by lia.
    destruct Hc as [-> | ->]; [left|right]; ring. }
  replace (P * Z.succ M) with (P * M + P) in Hdiv2 by ring.
  change (2 ^ 52) with 4503599627370496 in HmP.
  assert (Hz1 : 4503599627370496 * V <= 4503599627370497 * Zpos mx)
    by (destruct HVcases as [-> | ->]; lia).
  assert (Hz2 : 4503599627370495 * Zpos mx <= 4503599627370496 * V)
    by (destruct HVcases as [-> | ->]; lia).
  apply IZR_le in Hz1, Hz2. rewrite !mult_IZR in Hz1, Hz2.
  pose proof (bpow_pos ex). unfold u.
  split.
  - apply Rmult_le_reg_l with 4503599627370496%R; [lra|].
    replace (4503599627370496 * ((1 - / 4503599627370496) * (IZR (Zpos mx) * bpow ex)))%R
      with ((4503599627370495 * IZR (Zpos mx)) * bpow ex)%R by (field).
    replace (4503599627370496 * (IZR V * bpow ex))%R
      with ((4503599627370496 * IZR V) * bpow ex)%R by ring.
    apply Rmult_le_compat_r; lra.
  - apply Rmult_le_reg_l with 4503599627370496%R; [lra|].
    replace (4503599627370496 * ((1 + / 4503599627370496) * (IZR (Zpos mx) * bpow ex)))%R
      with ((4503599627370497 * IZR (Zpos mx)) * bpow ex)%R by (field).
    replace (4503599627370496 * (IZR V * bpow ex))%R
      with ((4503599627370496 * IZR V) * bpow ex)%R by ring.
    apply Rmult_le_compat_r; lra.
Qed.

Lemma pos_normal_mantissa (m : positive) :
  Zpos (digits2_pos m) = 53 -> 2 ^ 52 <= Zpos m < 2 ^ 53.
Proof.
  intros Hd. pose proof (digits2_pos_bounds m) as H. rewrite Hd in H. exact H.
Qed.

Lemma at_least_53_digits (m : positive) :
  2 ^ 52 <= Zpos m -> 53 <= Zpos (digits2_pos m).
Proof.
  intros Hm. pose proof (digits2_pos_bounds m) as [_ Hhi].
  destruct (Z.le_gt_cases 53 (Zpos (digits2_pos m))) as [|Hlt]; [assumption|exfalso].
  assert (2 ^ Zpos (digits2_pos m) <= 2 ^ 52) by (apply Z.pow_le_mono_r; lia). lia.
Qed.

Lemma bpow_53 : bpow 53 = 9007199254740992%R.
Proof. rewrite bpow_IZR by lia. reflexivity. Qed.

Lemma bpow_neg (k : Z) : bpow (- k) = (/ bpow k)%R.
Proof.
  pose proof (bpow_pos k) as Hk. pose proof (bpow_add (- k) k) as H.
  replace (- k + k) with 0 in H by lia. change (bpow 0) with 1%R in H.
  apply Rmult_eq_reg_r with (bpow k); [|lra]. rewrite <- H. field. lra.
Qed.

(** ** Multiplication *)
Lemma mul_accurate (x y : spec_float) :
  pos_normal x -> pos_normal y ->
  (bpow (-1000) <= value x * value y <= bpow 1000)%R ->
  pos_normal (SFmul prec emax x y)
  /\ ((1 - u) * (value x * value y) <= value (SFmul prec emax x y)
      <= (1 + u) * (value x * value y))%R.
Proof.
  intros (mx & ex & -> & Hdx) (my & ey & -> & Hdy) Hrange.
  cbn [value cond_Zopp] in *. cbn [SFmul xorb].
  pose proof (pos_normal_mantissa mx Hdx) as Hmx.
  pose proof (pos_normal_mantissa my Hdy) as Hmy.
  assert (Hval : (IZR (Zpos (mx * my)) * bpow (ex + ey)
                  = IZR (Zpos mx) * bpow ex * (IZR (Zpos my) * bpow ey))%R).
  { rewrite Pos2Z.inj_mul, mult_IZR, bpow_add. ring. }
  destruct (binary_round_aux_value (mx * my) (ex + ey) loc_Exact) as (r & Hr & Hn & Hb).
  - apply at_least_53_digits. rewrite Pos2Z.inj_mul.
    assert (1 * Zpos my <= Zpos mx * Zpos my) by (apply Z.mul_le_mono_nonneg_r; lia). lia.
  - rewrite Hval. exact Hrange.
  - rewrite Hr. rewrite Hval in Hb. split; assumption.
Qed.

(** ** Rounding an integer mantissa of any length *)

(** [k] shifts to the left multiply by [2^k]. *)
Lemma iter_xO (m k : positive) : Zpos (Pos.iter xO m k) = Zpos m * 2 ^ Zpos k.
Proof.
  induction k as [|k IH] using Pos.peano_ind.
  - cbn [Pos.iter]. change (Zpos m~0) with (2 * Zpos m). change (2 ^ 1) with 2. lia.
  - rewrite Pos.iter_succ. change (Zpos (Pos.iter xO m k)~0) with (2 * Zpos (Pos.iter xO m k)).
    rewrite IH, Pos2Z.inj_succ, Z.pow_succ_r by lia. ring.
Qed.

Lemma shl_align_fst (m : positive) (e e' : Z) :
  e' <= e -> Zpos (fst (shl_align m e e')) = Zpos m * 2 ^ (e - e').
Proof.
  intros He. unfold shl_align. destruct (e' - e) as [|p|p] eqn:Hd; cbn [fst]; try lia.
  - replace (e - e') with 0 by lia. rewrite Z.pow_0_r. lia.
  - rewrite iter_xO. do 2 f_equal. lia.
Qed.

(** Short mantissas are first shifted to the left, which keeps the value. *)
Lemma binary_round_value (m : positive) (e : Z) :
  (bpow (-1000) <= IZR (Zpos m) * bpow e <= bpow 1000)%R ->
  exists r,
    binary_round prec emax false m e = r
    /\ pos_normal r
    /\ ((1 - u) * (IZR (Zpos m) * bpow e) <= value r
        <= (1 + u) * (IZR (Zpos m) * bpow e))%R.
Proof.
  intros Hrange.
  pose proof (value_binade m e) as [Hb1 Hb2].
  pose proof (digits2_pos_bounds m) as Hm.
  set (d := Zpos (digits2_pos m)) in *.
  assert (He1 : -1000 < d + e) by (apply bpow_lt_inv; lra).
  unfold binary_round, fexp, emin, prec, emax. fold d.
  replace (Z.max (d + e - 53) (3 - 1024 - 53)) with (d + e - 53) by lia.
  unfold shl_align. replace (d + e - 53 - e) with (d - 53) by lia.
  destruct (d - 53) as [|k|k] eqn:Hk.
  - apply (binary_round_aux_value m e loc_Exact); [fold d; lia|exact Hrange].
  - apply (binary_round_aux_value m e loc_Exact); [fold d; lia|exact Hrange].
  - pose proof (iter_xO m k) as Hshift.
    set (mz := Pos.iter xO m k) in *.
    assert (Hval : (IZR (Zpos mz) * bpow (d + e - 53) = IZR (Zpos m) * bpow e)%R).
    { rewrite Hshift, mult_IZR, <- bpow_IZR by lia.
      rewrite Rmult_assoc, <- bpow_add. do 2 f_equal. lia. }
    destruct (binary_round_aux_value mz (d + e - 53) loc_Exact) as (r & Hr & Hn & Hb).
    + assert (Hdz : Zdigits2 (Zpos mz) = 53).
      { apply Zdigits2_unique; [lia|]. rewrite Hshift.
        assert (HP : 0 < 2 ^ Zpos k) by (apply pow2_pos; lia).
        replace (2 ^ (53 - 1)) with (2 ^ (d - 1) * 2 ^ Zpos k)
          by (rewrite <- Z.pow_add_r by lia; f_equal; lia).
        replace (2 ^ 53) with (2 ^ d * 2 ^ Zpos k)
          by (rewrite <- Z.pow_add_r by lia; f_equal; lia).
        split; [apply Z.mul_le_mono_nonneg_r; lia | apply Z.mul_lt_mono_pos_r; lia]. }
      cbn [Zdigits2] in Hdz. lia.
    + rewrite Hval. exact Hrange.
    + exists r. rewrite Hval in Hb. auto.
Qed.

(** ** Subtraction *)
Lemma sub_accurate (x y : spec_float) :
  pos_normal x -> pos_normal y ->
  (bpow (-1000) <= value x - value y <= bpow 1000)%R ->
  pos_normal (SFsub prec emax x y)
  /\ ((1 - u) * (value x - value y) <= value (SFsub prec emax x y)
      <= (1 + u) * (value x - value y))%R.
Proof.
  intros (mx & ex & -> & Hdx) (my & ey & -> & Hdy) Hrange.
  cbn [value cond_Zopp] in *. cbn [SFsub cond_Zopp].
  set (ez := Z.min ex ey).
  rewrite (shl_align_fst mx ex ez), (shl_align_fst my ey ez) by (unfold ez; lia).
  set (D := Zpos mx * 2 ^ (ex - ez) - Zpos my * 2 ^ (ey - ez)).
  assert (Hval : (IZR D * bpow ez = IZR (Zpos mx) * bpow ex - IZR (Zpos my) * bpow ey)%R).
  { unfold D. rewrite minus_IZR, !mult_IZR, <- !bpow_IZR by (unfold ez; lia).
    rewrite Rmult_minus_distr_r, !Rmult_assoc, <- !bpow_add.
    replace (ex - ez + ez) with ex by lia. replace (ey - ez + ez) with ey by lia.
    reflexivity. }
  pose proof (bpow_pos ez) as Hez. pose proof (bpow_pos (-1000)) as Hlo.
  assert (HD : 0 < D).
  { apply lt_IZR. apply Rmult_lt_reg_r with (bpow ez); [assumption|]. lra. }
  destruct D as [|Dp|Dp] eqn:HeqD; try lia.
  cbn [binary_normalize].
  destruct (binary_round_value Dp ez) as (r & Hr & Hn & Hb).
  - rewrite Hval. exact Hrange.
  - rewrite Hr. rewrite Hval in Hb. split; assumption.
Qed.

(** ** Division *)
Lemma div_accurate (x y : spec_float) :
  pos_normal x -> pos_normal y ->
  (bpow (-999) <= value x / value y <= bpow 1000)%R ->
  pos_normal (SFdiv prec emax x y)
  /\ ((1 - 2 * u) * (value x / value y) <= value (SFdiv prec emax x y)
      <= (1 + u) * (value x / value y))%R.
Proof.
  intros (mx & ex & -> & Hdx) (my & ey & -> & Hdy) Hrange.
  cbn [value cond_Zopp] in *. cbn [SFdiv xorb].
  pose proof (pos_normal_mantissa mx Hdx) as Hmx.
  pose proof (pos_normal_mantissa my Hdy) as Hmy.
  change (2 ^ 52) with 4503599627370496 in Hmx, Hmy.
  change (2 ^ 53) with 9007199254740992 in Hmx, Hmy.
  pose proof (bpow_pos ex) as Hbx. pose proof (bpow_pos ey) as Hby.
  set (X := IZR (Zpos mx)) in *. set (Y := IZR (Zpos my)) in *.
  assert (HX : (4503599627370496 <= X < 9007199254740992)%R).
  { unfold X. split; [apply IZR_le|apply IZR_lt]; lia. }
  assert (HY : (4503599627370496 <= Y < 9007199254740992)%R).
  { unfold Y. split; [apply IZR_le|apply IZR_lt]; lia. }
  (* the quotient of the exponents *)
  assert (Hexp : (bpow ex = bpow (ex - ey) * bpow ey)%R).
  { rewrite <- bpow_add. f_equal. lia. }
  assert (Ht : (X * bpow ex / (Y * bpow ey) = X / Y * bpow (ex - ey))%R).
  { rewrite Hexp. field. lra. }
  rewrite Ht in *.
  pose proof (bpow_pos (ex - ey)) as Hbxy.
  assert (Hratio : (/ 2 < X / Y < 2)%R).
  { split.
    - apply Rmult_lt_reg_r with Y; [lra|]. unfold Rdiv. rewrite Rmult_assoc, Rinv_l by lra. lra.
    - apply Rmult_lt_reg_r with Y; [lra|]. unfold Rdiv. rewrite Rmult_assoc, Rinv_l by lra. lra. }
  assert (He : -999 <= ex - ey).
  { assert (bpow (-999) < bpow (ex - ey + 1))%R.
    { rewrite bpow_add. replace (bpow 1) with 2%R by (symmetry; apply (powerRZ_1 2)). nra. }
    apply bpow_lt_inv in H. lia. }
  (* the integer quotient *)
  unfold SFdiv_core_binary. cbn [Zdigits2]. rewrite Hdx, Hdy.
  unfold fexp, emin, prec, emax.
  replace (Z.min (Z.max (53 + ex - (53 + ey) - 53) (3 - 1024 - 53)) (ex - ey))
    with (ex - ey - 53) by lia.
  replace (ex - ey - (ex - ey - 53)) with 53 by lia.
  rewrite Z.shiftl_mul_pow2 by lia. change (2 ^ 53) with 9007199254740992.
  pose proof (Z_div_mod (Zpos mx * 9007199254740992) (Zpos my)) as Hdm.
  destruct (Z.div_eucl (Zpos mx * 9007199254740992) (Zpos my)) as [q r].
  destruct Hdm as [Heq Hrem]; [lia|].
  assert (Hq : 4503599627370496 <= q).
  { destruct (Z.le_gt_cases 4503599627370496 q) as [|Hlt]; [assumption|exfalso].
    assert (Zpos my * q <= Zpos my * 4503599627370495)
      by (apply Z.mul_le_mono_nonneg_l; lia).
    lia. }
  destruct q as [|qp|qp]; try lia.
  set (e' := ex - ey - 53).
  set (Q := IZR (Zpos qp)) in *.
  assert (HQ : (4503599627370496 <= Q)%R) by (unfold Q; apply IZR_le; lia).
  assert (Hbe : (bpow (ex - ey) = 9007199254740992 * bpow e')%R).
  { rewrite <- bpow_53, <- bpow_add. f_equal. unfold e'. lia. }
  pose proof (bpow_pos e') as Hbe'.
  (* the quotient lies between Q and Q + 1, in units of 2^e' *)
  assert (HqY : (Y * Q <= X * 9007199254740992 < Y * (Q + 1))%R).
  { unfold X, Y, Q. rewrite <- !mult_IZR, <- plus_IZR, <- mult_IZR.
    split; [apply IZR_le|apply IZR_lt]; nia. }
  assert (Hquot : (Q * bpow e' <= X / Y * bpow (ex - ey) < (Q + 1) * bpow e')%R).
  { rewrite Hbe.
    replace (X / Y * (9007199254740992 * bpow e'))%R
      with (X * 9007199254740992 / Y * bpow e')%R by (field; lra).
    assert (Q <= X * 9007199254740992 / Y < Q + 1)%R.
    { split.
      - apply Rmult_le_reg_r with Y; [lra|]. unfold Rdiv.
        rewrite Rmult_assoc, Rinv_l by lra. lra.
      - apply Rmult_lt_reg_r with Y; [lra|]. unfold Rdiv.
        rewrite Rmult_assoc, Rinv_l by lra. lra. }
    split; nra. }
  set (t := (X / Y * bpow (ex - ey))%R) in *.
  assert (Hone : (bpow e' <= u * (Q * bpow e'))%R).
  { unfold u. apply Rmult_le_reg_l with 4503599627370496%R; [lra|].
    replace (4503599627370496 * (/ 4503599627370496 * (Q * bpow e')))%R
      with (Q * bpow e')%R by (field).
    apply Rmult_le_compat_r; lra. }
  assert (Hu : (0 < u < / 2)%R) by (unfold u; lra).
  assert (Hm1000 : (bpow (-999) = 2 * bpow (-1000))%R).
  { replace (-999) with (1 + -1000) by lia. rewrite bpow_add.
    replace (bpow 1) with 2%R by (symmetry; apply (powerRZ_1 2)). reflexivity. }
  destruct (binary_round_aux_value qp e' (new_location (Zpos my) r)) as (z & Hz & Hn & Hb).
  - apply at_least_53_digits. change (2 ^ 52) with 4503599627370496. lia.
  - fold Q. split; nra.
  - unfold prec, emax in Hz. fold e'. rewrite Hz.
    split; [assumption|]. fold Q in Hb. split; nra.
Qed.

(** [Math.round] of a number within a half of the integer [k]. *)
Lemma Math_round_near (x : spec_float) (k : Z) :
  pos_normal x -> 0 < k < 2 ^ 52 ->
  (IZR k - / 2 <= value x < IZR k + / 2)%R ->
  Math_round x = of_Z k.
Proof.
  intros (m & e & -> & Hd) Hk [Hlo Hhi]. cbn [value cond_Zopp] in Hlo, Hhi.
  pose proof (pos_normal_mantissa m Hd) as [Hm _].
  pose proof (bpow_pos e) as He.
  assert (HkR : (IZR k + 1 <= IZR (2 ^ 52))%R) by (rewrite <- plus_IZR; apply IZR_le; lia).
  assert (HmR : (IZR (2 ^ 52) <= IZR (Zpos m))%R) by (apply IZR_le; exact Hm).
  unfold Math_round.
  destruct (0 <=? e) eqn:Hsign.
  - exfalso. apply Z.leb_le in Hsign.
    assert (1 <= bpow e)%R by (change 1%R with (bpow 0); apply bpow_le; exact Hsign).
    assert (0 < IZR (2 ^ 52))%R by (apply IZR_lt; reflexivity).
    nra.
  - apply Z.leb_gt in Hsign.
    set (den := 2 ^ (- e)).
    assert (Hden : 0 < den) by (apply pow2_pos; lia).
    assert (HdenR : (bpow e * IZR den = 1)%R).
    { unfold den. rewrite <- bpow_IZR by lia. rewrite <- bpow_add.
      replace (e + - e) with 0 by lia. reflexivity. }
    assert (HdR : (0 < IZR den)%R) by (apply IZR_lt; exact Hden).
    assert (H1 : (2 * k - 1) * den <= 2 * Zpos m).
    { apply le_IZR. rewrite !mult_IZR, minus_IZR, mult_IZR.
      replace (IZR (Zpos m)) with (IZR (Zpos m) * bpow e * IZR den)%R
        by (rewrite Rmult_assoc, HdenR; ring).
      nra. }
    assert (H2 : 2 * Zpos m < (2 * k + 1) * den).
    { apply lt_IZR. rewrite !mult_IZR, plus_IZR, mult_IZR.
      replace (IZR (Zpos m)) with (IZR (Zpos m) * bpow e * IZR den)%R
        by (rewrite Rmult_assoc, HdenR; ring).
      nra. }
    assert (Hr : (2 * Zpos m + den) / (2 * den) = k).
    { symmetry. apply Z.div_unique with (2 * Zpos m + den - 2 * den * k); nia. }
    rewrite Hr. replace (k =? 0) with false by (symmetry; apply Z.eqb_neq; lia).
    reflexivity.
Qed.

(** A positive integer below 2^53 as a number. *)
Lemma of_Z_accurate (n : Z) :
  0 < n < 2 ^ 53 ->
  pos_normal (of_Z n)
  /\ ((1 - u) * IZR n <= value (of_Z n) <= (1 + u) * IZR n)%R.
Proof.
  intros [Hlo Hhi]. destruct n as [|p|p]; try lia.
  unfold of_Z. cbn [binary_normalize].
  destruct (binary_round_value p 0) as (r & Hr & Hn & Hb).
  - change (bpow 0) with 1%R. rewrite Rmult_1_r. split.
    + apply Rle_trans with (bpow 0); [apply bpow_le; lia|].
      change (bpow 0) with (IZR 1). apply IZR_le. lia.
    + apply Rle_trans with (bpow 53); [|apply bpow_le; lia].
      rewrite bpow_IZR by lia. apply IZR_le. lia.
  - change (bpow 0) with 1%R in Hb. rewrite !Rmult_1_r in Hb.
    rewrite Hr. split; assumption.
Qed.

Lemma bpow_10 : bpow 10 = 1024%R.
Proof. rewrite bpow_IZR by lia. reflexivity. Qed.

(** The margins between the range of the inputs and that of the lemmas. *)
Lemma range_facts :
  (0 < bpow (-1000) /\ 1024 * bpow (-1000) <= bpow (-900) /\ 1024 * bpow (-1000) <= 1
   /\ 1024 * bpow 900 <= bpow 1000 /\ 1024 <= bpow 1000
   /\ bpow (-999) = 2 * bpow (-1000))%R.
Proof.
  split; [apply bpow_pos|].
  split.
  { rewrite <- bpow_10, <- bpow_add. apply bpow_le. lia. }
  split.
  { rewrite <- bpow_10, <- bpow_add. change 1%R with (bpow 0). apply bpow_le. lia. }
  split.
  { rewrite <- bpow_10, <- bpow_add. apply bpow_le. lia. }
  split.
  { rewrite <- bpow_10. apply bpow_le. lia. }
  replace (-999) with (1 + -1000) by lia. rewrite bpow_add.
  replace (bpow 1) with 2%R by (symmetry; apply (powerRZ_1 2)). reflexivity.
Qed.

(** The literal [100]. *)
Lemma hundred : pos_normal (of_Z 100) /\ value (of_Z 100) = 100%R.
Proof.
  split.
  - exists 7036874417766400%positive, (-46). split; reflexivity.
  - change (of_Z 100) with (S754_finite false 7036874417766400 (-46)).
    cbn [value cond_Zopp]. change (-46) with (- (46)). rewrite bpow_neg, bpow_IZR by lia.
    change (IZR (2 ^ 46)) with 70368744177664%R. lra.
Qed.

Lemma Rdiv_between (a b lo hi : R) :
  (0 < a -> lo * a <= b <= hi * a -> lo <= b / a <= hi)%R.
Proof.
  intros Ha [H1 H2]. split.
  - apply Rmult_le_reg_r with a; [assumption|]. unfold Rdiv.
    rewrite Rmult_assoc, Rinv_l by lra. lra.
  - apply Rmult_le_reg_r with a; [assumption|]. unfold Rdiv.
    rewrite Rmult_assoc, Rinv_l by lra. lra.
Qed.

Section Growth.

(** The discount factor [c] (0.8 or 0.7), the growth [k] it leads to, and
    numeric brackets: [clo <= c <= chi] and [klo <= (1 - c) / c <= khi]
    with room for the rounding errors. *)
Variables (c : spec_float) (k : Z) (clo chi klo khi : R).
Hypothesis Hc : pos_normal c.
Hypothesis Hcv : (clo <= value c <= chi)%R.
Hypothesis Hclo : (/ 2 <= clo)%R.
Hypothesis Hchi : (chi <= 9 / 10)%R.
Hypothesis Hklo : (/ 8 <= klo)%R.
Hypothesis Hkhi : (klo <= khi <= 1)%R.
Hypothesis Hbelow : ((klo + 1 - u) * ((1 + u) * chi) <= 1 - u)%R.
Hypothesis Habove : (1 + u <= (khi + 1 + u) * ((1 - u) * clo))%R.
Hypothesis Hk : 0 < k < 2 ^ 52.
Hypothesis Hround_lo : (IZR k - / 2 <= (1 - u) * ((1 - 2 * u) * klo * 100))%R.
Hypothesis Hround_hi : ((1 + u) * ((1 + u) * khi * 100) < IZR k + / 2)%R.

(** [Math.round(((m - (m * c)) / (m * c)) * 100)] is [k] for every [m] in
    the range. *)
Lemma growth_is_constant (m : spec_float) :
  pos_normal m ->
  (bpow (-900) <= value m <= bpow 900)%R ->
  Math_round (mul (div (sub m (mul m c)) (mul m c)) (of_Z 100)) = of_Z k.
Proof.
  intros Hm [Hvlo Hvhi].
  destruct range_facts as (R0 & R1 & R2 & R3 & R4 & R5).
  set (v := value m) in *.
  assert (Hv : (0 <= v)%R) by lra.
  destruct Hcv as [Hcv1 Hcv2].
  pose proof (Rmult_le_compat_r v _ _ Hv Hcv1) as W1.
  pose proof (Rmult_le_compat_r v _ _ Hv Hcv2) as W2.
  pose proof (Rmult_le_compat_r v _ _ Hv Hclo) as W3.
  pose proof (Rmult_le_compat_r v _ _ Hv Hchi) as W4.
  pose proof (Rmult_le_compat_r v _ _ Hv Hbelow) as P1.
  pose proof (Rmult_le_compat_r v _ _ Hv Habove) as P2.
  rewrite (Rmult_comm (value c) v) in W1, W2.
  (* a = m * c *)
  destruct (mul_accurate m c Hm Hc) as [Na Ha].
  { fold v. split; lra. }
  fold v in Ha. change (SFmul prec emax m c) with (mul m c) in Na, Ha.
  set (a := mul m c) in *. set (va := value a) in *.
  unfold u in *.
  assert (Hva : (0 < va)%R) by lra.
  (* b = m - a *)
  destruct (sub_accurate m a Hm Na) as [Nb Hb].
  { fold v va. split; lra. }
  fold v va in Hb. change (SFsub prec emax m a) with (sub m a) in Nb, Hb.
  set (b := sub m a) in *. set (vb := value b) in *.
  unfold u in *.
  (* q = b / a *)
  assert (Hq : (klo <= vb / va <= khi)%R).
  { apply Rdiv_between; [exact Hva|].
    assert (Q1 : ((klo + 1 - / 4503599627370496) * va
                  <= (klo + 1 - / 4503599627370496) * ((1 + / 4503599627370496) * (v * value c)))%R)
      by (apply Rmult_le_compat_l; lra).
    assert (Q1' : ((klo + 1 - / 4503599627370496) * ((1 + / 4503599627370496) * (v * value c))
                   <= (klo + 1 - / 4503599627370496) * ((1 + / 4503599627370496) * (chi * v)))%R)
      by (apply Rmult_le_compat_l; [lra|]; apply Rmult_le_compat_l; lra).
    assert (Q2 : ((khi + 1 + / 4503599627370496) * ((1 - / 4503599627370496) * (v * value c))
                  <= (khi + 1 + / 4503599627370496) * va)%R)
      by (apply Rmult_le_compat_l; lra).
    assert (Q2' : ((khi + 1 + / 4503599627370496) * ((1 - / 4503599627370496) * (clo * v))
                   <= (khi + 1 + / 4503599627370496) * ((1 - / 4503599627370496) * (v * value c)))%R)
      by (apply Rmult_le_compat_l; [lra|]; apply Rmult_le_compat_l; lra).
    split; lra. }
  destruct (div_accurate b a Nb Na) as [Nq Hqv].
  { fold vb va. split; lra. }
  fold vb va in Hqv. change (SFdiv prec emax b a) with (div b a) in Nq, Hqv.
  set (q := div b a) in *. set (vq := value q) in *.
  unfold u in *.
  (* r = q * 100 *)
  destruct hundred as [N100 V100].
  destruct (mul_accurate q (of_Z 100) Nq N100) as [Nr Hr].
  { fold vq. rewrite V100. split; lra. }
  fold vq in Hr. rewrite V100 in Hr.
  change (SFmul prec emax q (of_Z 100)) with (mul q (of_Z 100)) in Nr, Hr.
  unfold u in *.
  apply Math_round_near; [exact Nr|exact Hk|].
  split; lra.
Qed.

End Growth.

(** The literals [0.8] and [0.7]. *)
Lemma eight_tenths :
  pos_normal (decimal 8 1)
  /\ (7999 / 10000 <= value (decimal 8 1) <= 8001 / 10000)%R.
Proof.
  change (decimal 8 1) with (S754_finite false 7205759403792794 (-53)).
  split.
  - exists 7205759403792794%positive, (-53). split; reflexivity.
  - cbn [value cond_Zopp]. change (-53) with (- (53)). rewrite bpow_neg, bpow_53. lra.
Qed.

Lemma seven_tenths :
  pos_normal (decimal 7 1)
  /\ (6999 / 10000 <= value (decimal 7 1) <= 7001 / 10000)%R.
Proof.
  change (decimal 7 1) with (S754_finite false 6305039478318694 (-53)).
  split.
  - exists 6305039478318694%positive, (-53). split; reflexivity.
  - cbn [value cond_Zopp]. change (-53) with (- (53)). rewrite bpow_neg, bpow_53. lra.
Qed.

Lemma gt_zero_of_pos_normal (x : spec_float) : pos_normal x -> gt x (of_Z 0) = true.
Proof. intros (m & e & -> & _). reflexivity. Qed.

(** The two figures. *)
Lemma revenue_growth_in_range (monthlyRevenue : spec_float) :
  in_normal_range monthlyRevenue ->
  Analytics.revenue_growth monthlyRevenue = of_Z 25.
Proof.
  intros [Hn Hr]. unfold Analytics.revenue_growth.
  rewrite (gt_zero_of_pos_normal _ Hn).
  destruct eight_tenths as [Hc Hcv].
  apply (growth_is_constant (decimal 8 1) 25 (7999 / 10000) (8001 / 10000)
           (2498 / 10000) (2502 / 10000)); try assumption; unfold u; try lra.
  split; [lia|reflexivity].
Qed.

Lemma of_Z_in_range (n : Z) : 0 < n < 2 ^ 53 -> in_normal_range (of_Z n).
Proof.
  intros Hn. destruct (of_Z_accurate n Hn) as [Hnorm Hval].
  split; [exact Hnorm|].
  destruct range_facts as (R0 & R1 & R2 & R3 & R4 & R5).
  assert (H1 : (1 <= IZR n)%R) by (apply IZR_le; lia).
  assert (H2 : (IZR n <= 9007199254740992)%R) by (apply IZR_le; change (2 ^ 53) with 9007199254740992 in Hn; lia).
  assert (H3 : (bpow (-900) <= / 2)%R).
  { replace (/ 2)%R with (bpow (-1)).
    - apply bpow_le. lia.
    - change (-1) with (- (1)). rewrite bpow_neg.
      replace (bpow 1) with 2%R by (symmetry; apply (powerRZ_1 2)). reflexivity. }
  assert (H4 : (bpow 54 <= bpow 900)%R) by (apply bpow_le; lia).
  assert (H5 : (bpow 54 = 2 * 9007199254740992)%R).
  { replace 54 with (1 + 53) by lia. rewrite bpow_add, bpow_53.
    replace (bpow 1) with 2%R by (symmetry; apply (powerRZ_1 2)). reflexivity. }
  unfold u in Hval. split; nra.
Qed.

Lemma players_growth_positive (newPlayersThisMonth : nat) :
  (0 < newPlayersThisMonth)%nat -> Z.of_nat newPlayersThisMonth < 2 ^ 32 ->
  Analytics.players_growth newPlayersThisMonth = of_Z 43.
Proof.
  intros Hpos Hlen. unfold Analytics.players_growth.
  replace (0 <? newPlayersThisMonth)%nat with true by (symmetry; apply Nat.ltb_lt; exact Hpos).
  destruct (of_Z_in_range (Z.of_nat newPlayersThisMonth)) as [Hn Hr].
  { split; [lia|]. apply Z.lt_trans with (2 ^ 32); [exact Hlen|reflexivity]. }
  destruct seven_tenths as [Hc Hcv].
  apply (growth_is_constant (decimal 7 1) 43 (6999 / 10000) (7001 / 10000)
           (4283 / 10000) (4288 / 10000)); try assumption; unfold u; try lra.
  split; [lia|reflexivity].
Qed.

(** C8 (amended). The growth figures are constants of the formula, not
    of the data.  [revenue.growth] is 25 for every monthly revenue that
    is a positive normal double between 2^-900 and 2^900, in particular
    for every whole amount from 1 up to 2^53; [players.growth] is 43 for
    every positive number of new players (an array length, below 2^32);
    and each is 0 when its quantity is 0.  Both are computed from the
    quantity itself and the literals 0.8, 0.7 and 100 alone. *)
Theorem growth_figures_are_constants :
  (forall monthlyRevenue,
      in_normal_range monthlyRevenue ->
      Analytics.revenue_growth monthlyRevenue = of_Z 25)
  /\ (forall amount,
      0 < amount < 2 ^ 53 ->
      Analytics.revenue_growth (of_Z amount) = of_Z 25)
  /\ (forall newPlayersThisMonth,
      (0 < newPlayersThisMonth)%nat -> Z.of_nat newPlayersThisMonth < 2 ^ 32 ->
      Analytics.players_growth newPlayersThisMonth = of_Z 43)
  /\ (forall sign, Analytics.revenue_growth (S754_zero sign) = of_Z 0)
  /\ Analytics.players_growth 0 = of_Z 0.
Proof.
  split; [exact revenue_growth_in_range|].
  split.
  { intros amount Hamount. apply revenue_growth_in_range, of_Z_in_range, Hamount. }
  split; [exact players_growth_positive|].
  split; [intros []; reflexivity|reflexivity].
Qed.

(* ------------------------------------------------------------------ *)
(** ** The actions and the figures *)
(* ------------------------------------------------------------------ *)

Section Properties.

Variable toISOString : Z -> string.
Variable Date_getTime : Json -> number.

Lemma admin_user (w : World) :
  is_admin w ->
  exists u, current_user w = Some u /\ String.eqb (user_role u) "admin" = true.
Proof.
  unfold is_admin, not_admin. destruct (current_user w) as [u|]; [|discriminate].
  intros H. exists u. split; [reflexivity|].
  destruct (String.eqb (user_role u) "admin"); [reflexivity|discriminate].
Qed.

(** C1. For an admin caller, [createAnnouncement] inserts exactly one
    announcement row.  When the input carries a (non-empty) [scheduled_at]
    the row has status ['scheduled'] and [sent_at = null]; when it carries
    none the row has status ['draft'] and [sent_at] is the ISO rendering
    of the current time. *)
Theorem createAnnouncement_status_and_sent_at (input : AnnouncementInput) (w : World) :
  is_admin w ->
  exists row,
    inserted_rows "announcements" (snd (request (createAnnouncement toISOString input) w)) = [row]
    /\ (forall s, scheduled_at input = Some s -> s <> "" ->
          prop row "status" = JStr "scheduled" /\ prop row "sent_at" = JNull)
    /\ (scheduled_at input = None ->
          prop row "status" = JStr "draft"
          /\ prop row "sent_at" = JStr (toISOString (clock w 0))).
Proof.
  intros Hadmin. destruct (admin_user w Hadmin) as (u & Hu & Hrole).
  unfold request, createAnnouncement. cbn [run bind getCurrentUser].
  rewrite Hu, Hrole. cbn [negb].
  destruct (scheduled_at input) as [s|] eqn:Hs.
  - destruct (String.eqb s "") eqn:Hempty.
    + apply String.eqb_eq in Hempty. subst s.
      destruct (target input); cbn;
        match goal with |- context [error ?r] => destruct (error r) end; cbn;
        (eexists; split; [reflexivity|]; split; [intros s Hs' Hne; congruence|discriminate]).
    + destruct (target input); cbn; rewrite Hempty; cbn;
        match goal with |- context [error ?r] => destruct (error r) end; cbn;
        (eexists; split; [reflexivity|]; split; [intros; split; reflexivity|discriminate]).
  - destruct (target input); cbn;
      match goal with |- context [error ?r] => destruct (error r) end; cbn;
      (eexists; split; [reflexivity|]; split; [discriminate|intros; split; reflexivity]).
Qed.

(** Case analysis on what a request observes: the signed-in user, the
    role test, the error and the data of an answer. *)
Ltac observe :=
  match goal with
  | |- context [match current_user ?w with _ => _ end] =>
      destruct (current_user w) as [?|]
  | |- context [not_admin (current_user ?w)] =>
      destruct (not_admin (current_user w))
  | |- context [String.eqb (user_role ?u) "admin"] =>
      destruct (String.eqb (user_role u) "admin")
  | |- context [match error ?r with _ => _ end] =>
      destruct (error r) as [?|]
  | |- context [truthy (data ?r)] =>
      destruct (truthy (data r))
  end; cbn.

(** C4. The writes of [updateMessageStatus], [sendMessageToAdmin] and
    [replyToMessage] go to [admin_messages] and set [status] to a value of
    the enumeration unread / read / replied: the status given (one of the
    three by its type), ['unread'], and ['replied'] respectively. *)
Theorem message_status_stays_in_enum (w : World) :
  (forall messageId status,
      Forall (fun q => from q = "admin_messages"
                       /\ written_status q = [JStr (status_name status)])
             (db_writes (snd (request (updateMessageStatus messageId status) w))))
  /\ (forall input,
      Forall (fun q => from q = "admin_messages"
                       /\ written_status q = [JStr (status_name unread)])
             (db_writes (snd (request (sendMessageToAdmin input) w))))
  /\ (forall messageId reply,
      Forall (fun q => from q = "admin_messages"
                       /\ written_status q = [JStr (status_name replied)])
             (db_writes (snd (request (replyToMessage messageId reply) w)))).
Proof.
  split; [|split]; intros; unfold request.
  - unfold updateMessageStatus. cbn. repeat observe; repeat constructor.
  - unfold sendMessageToAdmin. cbn. repeat observe; repeat constructor.
  - unfold replyToMessage. cbn. repeat observe; repeat constructor.
Qed.

(** C9. [replyToMessage] does not use the reply text: two calls that
    differ in the reply only return the same result and cause the same
    events.  Its only possible write marks the message as replied.  For
    an admin whose lookup finds no message (an error, or no row) it
    returns ['Message not found'] after the lookup alone, writing
    nothing. *)
Theorem replyToMessage_ignores_reply (messageId r1 r2 : string) (w : World) :
  request (replyToMessage messageId r1) w = request (replyToMessage messageId r2) w
  /\ Forall (fun q => q = mark_replied messageId)
            (db_writes (snd (request (replyToMessage messageId r1) w)))
  /\ (is_admin w ->
      (error (database w 0 (find_message messageId)) <> None
       \/ truthy (data (database w 0 (find_message messageId))) = false) ->
      request (replyToMessage messageId r1) w
      = (Returned (object [ "error" ::: JStr "Message not found" ]),
         [Queried (find_message messageId)])
      /\ db_writes (snd (request (replyToMessage messageId r1) w)) = []).
Proof.
  split; [reflexivity|]. split.
  - unfold request, replyToMessage. cbn. repeat observe; repeat constructor.
  - unfold is_admin, request, replyToMessage, find_message. cbn.
    intros Hadmin Hmissing. rewrite Hadmin. cbn.
    destruct (error (database w 0 _)) as [e|]; cbn.
    + split; reflexivity.
    + destruct Hmissing as [Hne|Hnull]; [congruence|].
      rewrite Hnull. cbn. split; reflexivity.
Qed.

(** C10. For an admin caller [getSystemHealth] returns, whatever the
    database answers, [uptime = 99.9], [storage_usage = 65],
    [memory_usage = 45] and [cpu_usage = 23].  Its [database_status] is
    ['connected'] exactly when the probe (the third query) answered
    without error and at most 1000 ms passed between the two clock
    readings around it; its [status] is ['healthy'] exactly then and
    ['critical'] otherwise, never ['warning']. *)
Theorem getSystemHealth_constants_and_status (w : World) :
  is_admin w ->
  exists res,
    fst (request (getSystemHealth toISOString) w) = Returned res
    /\ prop res "error" = JNull
    /\ let d := prop res "data" in
       let dbError := error (database w 2 probe) in
       let responseTime := clock w 2 - clock w 1 in
       prop d "uptime" = JNum (decimal 999 1)
       /\ prop d "storage_usage" = JNum (of_Z 65)
       /\ prop d "memory_usage" = JNum (of_Z 45)
       /\ prop d "cpu_usage" = JNum (of_Z 23)
       /\ (prop d "database_status" = JStr "connected"
           <-> dbError = None /\ responseTime <= 1000)
       /\ (prop d "status" = JStr "healthy"
           <-> prop d "database_status" = JStr "connected")
       /\ (prop d "status" = JStr "critical"
           <-> dbError <> None \/ 1000 < responseTime)
       /\ (prop d "status" = JStr "healthy" \/ prop d "status" = JStr "critical")
       /\ prop d "status" <> JStr "warning".
Proof.
  unfold is_admin, request, getSystemHealth, probe. intros Hadmin.
  cbn [run bind getCurrentUser]. rewrite Hadmin. cbn -[decimal of_Z Z.sub].
  eexists. split; [reflexivity|]. split; [reflexivity|].
  cbn -[decimal of_Z Z.sub].
  repeat (split; [reflexivity|]).
  unfold classify_database.
  destruct (error (database w 2 _)) as [e|]; cbn.
  - repeat split; intros; intuition (auto; try discriminate; try congruence; try lia).
  - destruct (1000 <? clock w 2 - clock w 1) eqn:Hslow; cbn;
      [apply Z.ltb_lt in Hslow | apply Z.ltb_ge in Hslow];
      repeat split; intros; intuition (auto; try discriminate; try congruence; try lia).
Qed.

(** The caller check of the operations other than
    [updateAnnouncementStats]: a caller who is not a signed-in admin gets
    ['Unauthorized'] and no query is made, no page revalidated. *)
Lemma caller_check_of_admin_operations (c : Call) (w : World) :
  admin_operation c = true ->
  (forall announcementId stats, c <> call_updateAnnouncementStats announcementId stats) ->
  not_admin (current_user w) = true ->
  exists res,
    request (perform toISOString Date_getTime c) w = (Returned res, [])
    /\ prop res "error" = JStr "Unauthorized".
Proof.
  intros Hop Hnot Hcaller.
  destruct c; try discriminate Hop; try (exfalso; eapply Hnot; reflexivity);
    unfold request, perform;
    try (unfold getAnnouncements, getAdminMessages, getAdminMessage,
         updateMessageStatus, replyToMessage, getCommunicationStats,
         getSystemSettings, updateSystemSettings, getSystemHealth, getUserRoles;
         cbn [run bind getCurrentUser]; rewrite Hcaller;
         eexists; split; reflexivity).
  unfold createAnnouncement. cbn [run bind getCurrentUser].
  unfold not_admin in Hcaller.
  destruct (current_user w) as [u|].
  - rewrite Hcaller. eexists; split; reflexivity.
  - eexists; split; reflexivity.
Qed.

(** C6. The badge tables of [TournamentHeader] are keyed by exactly the
    declared values: [statusColors] has a class for a status if and only
    if it is one of registration, ongoing, paused, completed, cancelled,
    [formatColors] has one for a format if and only if it is single or
    double elimination, and two different statuses get different
    classes. *)
Theorem badge_tables_cover_the_enums :
  (forall status,
      In status TournamentHeader.tournament_statuses
      <-> exists class, TournamentHeader.lookup_class TournamentHeader.statusColors status = Some class)
  /\ (forall format,
      In format TournamentHeader.tournament_formats
      <-> exists class, TournamentHeader.lookup_class TournamentHeader.formatColors format = Some class)
  /\ (forall s1 s2,
      In s1 TournamentHeader.tournament_statuses ->
      In s2 TournamentHeader.tournament_statuses ->
      s1 <> s2 ->
      TournamentHeader.lookup_class TournamentHeader.statusColors s1
      <> TournamentHeader.lookup_class TournamentHeader.statusColors s2).
Proof.
  split; [|split].
  - intros status. split.
    + cbn. intros H. repeat (destruct H as [<-|H]; [eexists; reflexivity|]). contradiction.
    + intros [class H]. unfold TournamentHeader.statusColors in H. cbn in H.
      repeat match type of H with
             | context [String.eqb status ?k] =>
                 destruct (String.eqb_spec status k) as [->|_]; [cbn; tauto|]
             end.
      discriminate.
  - intros format. split.
    + cbn. intros H. repeat (destruct H as [<-|H]; [eexists; reflexivity|]). contradiction.
    + intros [class H]. unfold TournamentHeader.formatColors in H. cbn in H.
      repeat match type of H with
             | context [String.eqb format ?k] =>
                 destruct (String.eqb_spec format k) as [->|_]; [cbn; tauto|]
             end.
      discriminate.
  - intros s1 s2 H1 H2 Hne. cbn in H1, H2.
    repeat (destruct H1 as [<-|H1]);
      repeat (destruct H2 as [<-|H2]);
      try contradiction; try (exfalso; apply Hne; reflexivity); cbn; discriminate.
Qed.

Lemma gt_zero_truthy (x : number) : gt x (of_Z 0) = true -> JsNumber.truthy x = true.
Proof. destruct x as [s|s| |s m e]; cbn; try discriminate; reflexivity. Qed.

(** C5 (amended). Each percentage is guarded by its denominator.  With a
    positive denominator it is [Math.round((numerator / denominator) * 100)]
    in double arithmetic, the quotient being rounded before it is scaled;
    with a zero denominator (no tournament, no match, no message or a
    [null] count, no recipient) it is the literal [0], which is not what
    the division would have produced, so the division is not evaluated
    there. *)
Theorem percentages_are_guarded :
  (forall part length, (0 < length)%nat ->
      Analytics.completionRate part length
      = percentage (Analytics.of_length part) (Analytics.of_length length)
      /\ Analytics.disputeRate part length
         = percentage (Analytics.of_length part) (Analytics.of_length length))
  /\ (forall part,
      Analytics.completionRate part 0 = of_Z 0 /\ Analytics.disputeRate part 0 = of_Z 0)
  /\ (forall total replied, gt total (of_Z 0) = true ->
      responseRate_of (Some total) replied = percentage (count_or_0 replied) total)
  /\ (forall total replied, gt total (of_Z 0) = false ->
      responseRate_of (Some total) replied = of_Z 0)
  /\ (forall replied, responseRate_of None replied = of_Z 0)
  /\ (forall opened recipients, gt recipients (of_Z 0) = true ->
      engagementRate_of opened recipients = percentage opened recipients)
  /\ (forall opened recipients, gt recipients (of_Z 0) = false ->
      engagementRate_of opened recipients = of_Z 0)
  /\ (forall numerator sign, percentage numerator (S754_zero sign) <> of_Z 0).
Proof.
  repeat split.
  - unfold Analytics.completionRate, Analytics.rate.
    destruct length as [|n]; [lia|reflexivity].
  - unfold Analytics.disputeRate, Analytics.rate.
    destruct length as [|n]; [lia|reflexivity].
  - intros total replied Hpos. unfold responseRate_of.
    rewrite (gt_zero_truthy total Hpos), Hpos. reflexivity.
  - intros total replied Hnot. unfold responseRate_of.
    rewrite Hnot, andb_false_r. reflexivity.
  - intros opened recipients Hpos. unfold engagementRate_of. rewrite Hpos. reflexivity.
  - intros opened recipients Hnot. unfold engagementRate_of. rewrite Hnot. reflexivity.
  - intros numerator sign.
    destruct numerator as [s|s| |s m e]; destruct sign; try destruct s;
      vm_compute; discriminate.
Qed.

Lemma to_message_present (msg : Json) :
  nullish msg = false -> exists m, to_message msg = Some m.
Proof.
  intros H. unfold to_message, member.
  destruct msg; try discriminate; eexists; reflexivity.
Qed.

Lemma map_rows_present (rows : list Json) :
  forallb (fun row => negb (nullish row)) rows = true ->
  exists rows', map_rows to_message rows = Some rows'.
Proof.
  induction rows as [|row rows IH]; cbn.
  - eexists; reflexivity.
  - intros H. apply andb_true_iff in H as [Hrow Hrows].
    apply negb_true_iff in Hrow.
    destruct (to_message_present row Hrow) as [m ->].
    destruct (IH Hrows) as [ms ->]. eexists; reflexivity.
Qed.

Lemma reduce_present {A : Type} (f : A -> Json -> option A) (rows : list Json) :
  (forall acc row, nullish row = false -> exists acc', f acc row = Some acc') ->
  forallb (fun row => negb (nullish row)) rows = true ->
  forall acc, exists total, reduce f rows acc = Some total.
Proof.
  intros Hf. induction rows as [|row rows IH]; cbn; intros H acc.
  - eexists; reflexivity.
  - apply andb_true_iff in H as [Hrow Hrows].
    apply negb_true_iff in Hrow.
    destruct (Hf acc row Hrow) as [acc' ->]. apply IH. exact Hrows.
Qed.

Lemma member_present (row : Json) (k : string) :
  nullish row = false -> member row k = Some (prop row k).
Proof. destruct row; try discriminate; reflexivity. Qed.

Lemma count_role_present (acc : list (string * Json)) (row : Json) :
  nullish row = false -> exists acc', count_role acc row = Some acc'.
Proof.
  intros H. unfold count_role. rewrite (member_present row _ H). eexists; reflexivity.
Qed.

Lemma add_response_hours_present (acc : number) (row : Json) :
  nullish row = false -> exists acc', add_response_hours Date_getTime acc row = Some acc'.
Proof.
  intros H. unfold add_response_hours. rewrite (member_present row _ H).
  eexists; reflexivity.
Qed.

Lemma add_column_present (column : string) (acc : number) (row : Json) :
  nullish row = false -> exists acc', add_column column acc row = Some acc'.
Proof.
  intros H. unfold add_column. rewrite (member_present row _ H). eexists; reflexivity.
Qed.

Lemma avgResponseTime_returns (r : Response) :
  list_answer r = true ->
  exists avg, avgResponseTime_of Date_getTime (data r) = Return avg.
Proof.
  unfold list_answer, avgResponseTime_of. intros H.
  destruct (data r) as [| | | | |[|first others]|]; try (eexists; reflexivity).
  destruct (reduce_present (add_response_hours Date_getTime) (first :: others)
              add_response_hours_present H (of_Z 0)) as [total ->].
  eexists; reflexivity.
Qed.

Lemma engagementRate_returns (r : Response) :
  list_answer r = true ->
  exists rate, engagementRate_from (data r) = Return rate.
Proof.
  unfold list_answer, engagementRate_from. intros H.
  destruct (data r) as [| | | | |[|first others]|]; try (eexists; reflexivity).
  destruct (reduce_present (add_column "recipients") (first :: others)
              (add_column_present "recipients") H (of_Z 0)) as [recipients ->].
  destruct (reduce_present (add_column "opened") (first :: others)
              (add_column_present "opened") H (of_Z 0)) as [opened ->].
  eexists; reflexivity.
Qed.

(** Conclude for a run that has been computed down to its result: exhibit
    the result and the events, then compare the [error] field with the
    first failed answer [He]. *)
Ltac returned He :=
  do 2 eexists; split; [reflexivity|]; cbn; rewrite ?He; cbn;
  split; [reflexivity|];
  first [ congruence | intros _; left; reflexivity | intros _; right; reflexivity ].

Lemma list_answers (w : World) (n : nat) (q : Query) :
  answers_have_rows w -> is_single q = false -> list_answer (database w n q) = true.
Proof. intros Hrows Hq. specialize (Hrows n q). rewrite Hq in Hrows. exact Hrows. Qed.

Lemma single_answers (w : World) (n : nat) (q : Query) :
  answers_have_rows w -> is_single q = true ->
  error (database w n q) = None -> nullish (data (database w n q)) = false.
Proof. intros Hrows Hq. specialize (Hrows n q). rewrite Hq in Hrows. exact Hrows. Qed.

(** The actions that make one query, each past its own caller check. *)
Lemma one_query_convention (c : Call) (w : World) :
  answers_have_rows w -> one_query c = true -> passes_check c w ->
  follows_convention toISOString Date_getTime c w.
Proof.
  intros Hrows Hc Hcheck. unfold follows_convention, request.
  destruct c; try discriminate Hc; unfold perform; cbn [passes_check] in Hcheck;
    try unfold is_admin in Hcheck.
  - unfold getAnnouncements. cbn [run bind getCurrentUser]. rewrite Hcheck. cbn.
    destruct (error (database w 0 _)) as [e|] eqn:He; cbn; returned He.
  - unfold updateAnnouncementStats. cbn.
    destruct (error (database w 0 _)) as [e|] eqn:He; cbn; returned He.
  - unfold getAdminMessages. cbn [run bind getCurrentUser]. rewrite Hcheck. cbn.
    destruct (error (database w 0 _)) as [e|] eqn:He; cbn; [returned He|].
    assert (Hlist : list_answer
                      (database w 0 {| from := "admin_messages";
                                       steps := [Select message_columns;
                                                 Order "created_at" false] |}) = true)
      by (apply list_answers; [exact Hrows|reflexivity]).
    unfold list_answer in Hlist.
    destruct (data (database w 0 _)) as [| | | | |rows|]; cbn;
      try discriminate Hlist; try returned He.
    destruct (map_rows_present rows Hlist) as [rows' ->]. cbn. returned He.
  - unfold getAdminMessage. cbn [run bind getCurrentUser]. rewrite Hcheck. cbn.
    destruct (error (database w 0 _)) as [e|] eqn:He; cbn; [returned He|].
    assert (Hrow : error (database w 0 {| from := "admin_messages";
                                          steps := [Select message_columns;
                                                    WhereEq "id" (JStr messageId);
                                                    Single] |}) = None ->
                   nullish (data (database w 0 {| from := "admin_messages";
                                                  steps := [Select message_columns;
                                                            WhereEq "id" (JStr messageId);
                                                            Single] |})) = false)
      by (apply single_answers; [exact Hrows|reflexivity]).
    destruct (to_message_present _ (Hrow He)) as [m ->].
    cbn. returned He.
  - unfold updateMessageStatus. cbn [run bind getCurrentUser]. rewrite Hcheck. cbn.
    destruct (error (database w 0 _)) as [e|] eqn:He; cbn; returned He.
  - unfold sendMessageToAdmin. cbn [run bind getCurrentUser].
    destruct (current_user w) as [u|]; [|contradiction]. cbn.
    destruct (error (database w 0 _)) as [e|] eqn:He; cbn; returned He.
  - unfold updateSystemSettings. cbn [run bind getCurrentUser]. rewrite Hcheck. cbn.
    destruct (error (database w 0 _)) as [e|] eqn:He; cbn; returned He.
  - unfold getUserRoles. cbn [run bind getCurrentUser]. rewrite Hcheck. cbn.
    destruct (error (database w 0 _)) as [e|] eqn:He; cbn; [returned He|].
    assert (Hlist : list_answer
                      (database w 0 {| from := "profiles"; steps := [Select "role"] |})
                    = true)
      by (apply list_answers; [exact Hrows|reflexivity]).
    unfold list_answer in Hlist.
    destruct (data (database w 0 _)) as [| | | | |rows|]; cbn;
      try discriminate Hlist; try returned He.
    destruct (reduce_present count_role rows count_role_present Hlist [])
      as [counts ->].
    cbn. returned He.
Qed.

(** C3 (amended). With a database that hands out its rows, the actions
    treat a failed query as follows, each past its own caller check.  The
    actions that make a single query ([getAnnouncements],
    [updateAnnouncementStats], which checks no caller, [getAdminMessages],
    [getAdminMessage], [updateMessageStatus], [sendMessageToAdmin], which
    asks for a signed-in user only, [updateSystemSettings],
    [getUserRoles]) return that query's error message, with [data] null
    or absent, and [error = null] when it succeeds.  For an admin:
    [createAnnouncement] does so for its insert, the last query it makes,
    whatever the recipient count answered.  [getSystemSettings] does so
    except for the error code PGRST116 (no rows), which gives
    [error = null].  [replyToMessage] answers ['Message not found'], and
    makes no other query, when its lookup fails or finds nothing, and
    [error = null] when the lookup finds the message and the update
    succeeds.  [getCommunicationStats] and [getSystemHealth] always
    return [error = null]. *)
Theorem error_convention_by_action (w : World) :
  answers_have_rows w ->
  (forall c, one_query c = true -> passes_check c w ->
     follows_convention toISOString Date_getTime c w)
  /\ (is_admin w ->
      (forall input, exists res t,
         request (createAnnouncement toISOString input) w = (Returned res, t)
         /\ prop res "error"
            = error_field (error (last (answers w (queries t) 0) Samples.ok_response)))
      /\ (exists res t,
            request getSystemSettings w = (Returned res, t)
            /\ prop res "error"
               = match error (database w 0 settings_query) with
                 | Some e => if String.eqb (code e) "PGRST116" then JNull
                             else JStr (message e)
                 | None => JNull
                 end)
      /\ (forall messageId reply, exists res t,
            request (replyToMessage messageId reply) w = (Returned res, t)
            /\ (error (database w 0 (find_message messageId)) <> None
                \/ truthy (data (database w 0 (find_message messageId))) = false ->
                prop res "error" = JStr "Message not found"
                /\ t = [Queried (find_message messageId)])
            /\ (error (database w 0 (find_message messageId)) = None ->
                truthy (data (database w 0 (find_message messageId))) = true ->
                error (database w 1 (mark_replied messageId)) = None ->
                prop res "error" = JNull))
      /\ (exists res t,
            request (getCommunicationStats Date_getTime) w = (Returned res, t)
            /\ prop res "error" = JNull)
      /\ (exists res t,
            request (getSystemHealth toISOString) w = (Returned res, t)
            /\ prop res "error" = JNull)).
Proof.
  intros Hrows. split.
  { intros c Hc Hcheck. apply one_query_convention; assumption. }
  intros Hadmin. split; [|split; [|split; [|split]]].
  - intros input. destruct (admin_user w Hadmin) as (u & Hu & Hrole).
    unfold request, createAnnouncement. cbn [run bind getCurrentUser].
    rewrite Hu, Hrole. cbn [negb].
    destruct (scheduled_at input) as [s|]; [destruct (String.eqb s "") eqn:Hempty|];
      destruct (target input); cbn; rewrite ?Hempty; cbn;
      match goal with
      | |- context [match error ?r with _ => _ end] => destruct (error r) as [e|] eqn:He
      end; cbn;
      (do 2 eexists; split; [reflexivity|]; cbn; rewrite ?He; reflexivity).
  - unfold is_admin in Hadmin. unfold request, getSystemSettings, settings_query.
    cbn [run bind getCurrentUser]. rewrite Hadmin. cbn.
    destruct (error (database w 0 _)) as [e|]; cbn.
    + destruct (String.eqb (code e) "PGRST116"); cbn.
      * destruct (truthy (data (database w 0 _))); cbn; do 2 eexists; split; reflexivity.
      * do 2 eexists; split; reflexivity.
    + destruct (truthy (data (database w 0 _))); cbn; do 2 eexists; split; reflexivity.
  - intros messageId reply. unfold is_admin in Hadmin.
    unfold request, replyToMessage, find_message, mark_replied.
    cbn [run bind getCurrentUser]. rewrite Hadmin. cbn.
    destruct (error (database w 0 _)) as [e|]; cbn.
    + do 2 eexists. split; [reflexivity|]. split.
      * intros _. split; reflexivity.
      * intros Hfound. discriminate Hfound.
    + destruct (truthy (data (database w 0 _))); cbn;
        (do 2 eexists; split; [reflexivity|]; split).
      * intros [Hfailed|Hempty]; [contradiction Hfailed; reflexivity|discriminate Hempty].
      * intros _ _ _. reflexivity.
      * intros _. split; reflexivity.
      * intros _ Hfound. discriminate Hfound.
  - unfold is_admin in Hadmin. unfold request, getCommunicationStats.
    cbn [run bind getCurrentUser query]. rewrite Hadmin. cbn [run bind query].
    match goal with
    | |- context [avgResponseTime_of Date_getTime (data ?r)] =>
        destruct (avgResponseTime_returns r) as [avg ->]; [apply list_answers; [exact Hrows|reflexivity]|]
    end.
    cbn [run bind query].
    match goal with
    | |- context [engagementRate_from (data ?r)] =>
        destruct (engagementRate_returns r) as [rate ->]; [apply list_answers; [exact Hrows|reflexivity]|]
    end.
    cbn. do 2 eexists; split; reflexivity.
  - unfold is_admin in Hadmin. unfold request, getSystemHealth.
    cbn [run bind getCurrentUser]. rewrite Hadmin. cbn -[decimal of_Z Z.sub].
    do 2 eexists; split; reflexivity.
Qed.

End Properties.

(* ================================================================== *)
(** * The properties on sample requests *)
(* ================================================================== *)

Import Samples.

(** C1 on a sample request: an admin schedules a maintenance notice. *)
Lemma createAnnouncement_status_and_sent_at_witness :
  is_admin admin_world
  /\ exists row,
       inserted_rows "announcements"
         (snd (request (createAnnouncement iso a_scheduled_announcement) admin_world)) = [row]
       /\ (forall s, scheduled_at a_scheduled_announcement = Some s -> s <> "" ->
             prop row "status" = JStr "scheduled" /\ prop row "sent_at" = JNull)
       /\ (scheduled_at a_scheduled_announcement = None ->
             prop row "status" = JStr "draft"
             /\ prop row "sent_at" = JStr (iso (clock admin_world 0))).
Proof.
  split; [reflexivity|].
  apply (createAnnouncement_status_and_sent_at iso a_scheduled_announcement admin_world).
  reflexivity.
Defined.

(** C9 on a sample request: an admin replies to a message that the lookup
    does not find. *)
Lemma replyToMessage_ignores_reply_witness :
  is_admin admin_world
  /\ truthy (data (database admin_world 0 (find_message "m1"))) = false
  /\ request (replyToMessage "m1" "Thanks, fixed.") admin_world
     = (Returned (object [ "error" ::: JStr "Message not found" ]),
        [Queried (find_message "m1")])
  /\ db_writes (snd (request (replyToMessage "m1" "Thanks, fixed.") admin_world)) = [].
Proof.
  split; [reflexivity|]. split; [reflexivity|].
  apply (replyToMessage_ignores_reply "m1" "Thanks, fixed." "" admin_world).
  - reflexivity.
  - right. reflexivity.
Defined.

(** C10 on a sample request: an admin asks for the system health. *)
Lemma getSystemHealth_constants_and_status_witness :
  is_admin admin_world
  /\ exists res,
       fst (request (getSystemHealth iso) admin_world) = Returned res
       /\ prop res "error" = JNull
       /\ let d := prop res "data" in
          let dbError := error (database admin_world 2 probe) in
          let responseTime := clock admin_world 2 - clock admin_world 1 in
          prop d "uptime" = JNum (decimal 999 1)
          /\ prop d "storage_usage" = JNum (of_Z 65)
          /\ prop d "memory_usage" = JNum (of_Z 45)
          /\ prop d "cpu_usage" = JNum (of_Z 23)
          /\ (prop d "database_status" = JStr "connected"
              <-> dbError = None /\ responseTime <= 1000)
          /\ (prop d "status" = JStr "healthy"
              <-> prop d "database_status" = JStr "connected")
          /\ (prop d "status" = JStr "critical"
              <-> dbError <> None \/ 1000 < responseTime)
          /\ (prop d "status" = JStr "healthy" \/ prop d "status" = JStr "critical")
          /\ prop d "status" <> JStr "warning".
Proof.
  split; [reflexivity|].
  apply (getSystemHealth_constants_and_status iso admin_world).
  reflexivity.
Defined.

(** C2. [updateAnnouncementStats] makes no caller check: with nobody
    signed in it sends its update to the database and, the update
    succeeding, returns [{ error: null }], where every other admin
    operation answers ['Unauthorized'] without touching the database. *)
Theorem updateAnnouncementStats_writes_for_anyone :
  request (updateAnnouncementStats "a1" {| opened := Some (of_Z 5); clicked := None |})
          anonymous_world
  = (Returned (object [ "error" ::: JNull ]),
     [Queried {| from := "announcements";
                 steps := [Update (object [ "opened" ::: JNum (of_Z 5) ]);
                           WhereEq "id" (JStr "a1")] |}])
  /\ db_writes (snd (request (updateAnnouncementStats "a1"
                                {| opened := Some (of_Z 5); clicked := None |})
                             anonymous_world)) <> [].
Proof.
  split; [reflexivity|]. cbn. discriminate.
Qed.

(** C3, as stated, fails for [getCommunicationStats]: with an admin
    signed in and every query failing with "connection refused", the
    action returns [error = null]. *)
Lemma getCommunicationStats_hides_failed_queries :
  first_error (answers admin_world_db_down
                 (queries (snd (request (getCommunicationStats getTime) admin_world_db_down))) 0)
  = Some {| message := "connection refused"; code := "08006" |}
  /\ (exists res,
        fst (request (getCommunicationStats getTime) admin_world_db_down) = Returned res
        /\ prop res "error" = JNull)
  /\ ~ follows_convention iso getTime call_getCommunicationStats admin_world_db_down.
Proof.
  split; [reflexivity|]. split; [eexists; split; reflexivity|].
  intros (res & t & Hrun & Herror & _).
  vm_compute in Hrun. inversion Hrun; subst res t; clear Hrun.
  vm_compute in Herror. discriminate Herror.
Qed.

(** C3 (amended) on sample requests whose queries fail, one for each
    caller check: an admin lists the messages, a player writes to the
    admins and an anonymous caller updates the statistics of an
    announcement while the database is down; and on one whose query
    succeeds: an admin lists two messages. *)
Lemma error_convention_by_action_witness :
  (answers_have_rows admin_world_db_down
   /\ follows_convention iso getTime call_getAdminMessages admin_world_db_down)
  /\ (answers_have_rows player_world_db_down
      /\ follows_convention iso getTime
           (call_sendMessageToAdmin {| msg_subject := "Refund";
                                       msg_content := "Please check my entry fee";
                                       msg_priority := None |})
           player_world_db_down)
  /\ (answers_have_rows anonymous_world_db_down
      /\ follows_convention iso getTime
           (call_updateAnnouncementStats "a1" {| opened := Some (of_Z 5); clicked := None |})
           anonymous_world_db_down)
  /\ (answers_have_rows MoreSamples.messages_world
      /\ follows_convention iso getTime call_getAdminMessages MoreSamples.messages_world).
Proof.
  assert (Hdown : forall user,
            answers_have_rows {| current_user := user; clock := a_clock;
                                 database := fun _ _ => failed_response |}).
  { intros user n q. destruct (is_single q); [intros H; discriminate H|reflexivity]. }
  assert (Hrows : answers_have_rows MoreSamples.messages_world).
  { intros n q. destruct (is_single q); [intros _|]; reflexivity. }
  split; [split; [exact (Hdown _)|]|split; [split; [exact (Hdown _)|]
         |split; [split; [exact (Hdown _)|]|split; [exact Hrows|]]]].
  - apply (proj1 (error_convention_by_action iso getTime admin_world_db_down (Hdown _)));
      reflexivity.
  - apply (proj1 (error_convention_by_action iso getTime player_world_db_down (Hdown _)));
      [reflexivity|discriminate].
  - apply (proj1 (error_convention_by_action iso getTime anonymous_world_db_down (Hdown _)));
      [reflexivity|exact I].
  - apply (proj1 (error_convention_by_action iso getTime MoreSamples.messages_world Hrows));
      reflexivity.
Defined.

(** What these requests return while the database is down: the message
    of the failed query, and no data. *)
Example failed_queries_are_reported :
  fst (request getAdminMessages admin_world_db_down)
  = Returned (object [ "error" ::: JStr "connection refused"; "data" ::: JNull ])
  /\ fst (request (sendMessageToAdmin {| msg_subject := "Refund";
                                         msg_content := "Please check my entry fee";
                                         msg_priority := None |})
                  player_world_db_down)
     = Returned (object [ "error" ::: JStr "connection refused" ])
  /\ fst (request (updateAnnouncementStats "a1" {| opened := Some (of_Z 5); clicked := None |})
                  anonymous_world_db_down)
     = Returned (object [ "error" ::: JStr "connection refused" ])
  /\ fst (request (replyToMessage "m1" "On it.") admin_world_db_down)
     = Returned (object [ "error" ::: JStr "Message not found" ]).
Proof. repeat split; reflexivity. Qed.

(** C5, as stated, fails for [completionRate]: with 23 of 40 tournaments
    completed the dashboard shows 57, while
    [Math.round(100 * 23 / 40)] is 58 (the exact percentage is 57.5; the
    quotient 23 / 40 is rounded down to a double first, and its product
    with 100 falls just below 57.5). *)
Lemma completionRate_23_of_40 :
  Analytics.completionRate 23 40 = of_Z 57
  /\ round_100_times_over (Analytics.of_length 23) (Analytics.of_length 40) = of_Z 58
  /\ exact_percentage 23 40 = 58
  /\ Analytics.completionRate 23 40
     <> round_100_times_over (Analytics.of_length 23) (Analytics.of_length 40).
Proof.
  split; [reflexivity|]. split; [reflexivity|]. split; [reflexivity|].
  vm_compute. discriminate.
Qed.

(** C5 (amended) on the same sample: 23 of 40. *)
Lemma percentages_are_guarded_witness :
  (0 < 40)%nat
  /\ Analytics.completionRate 23 40
     = percentage (Analytics.of_length 23) (Analytics.of_length 40)
  /\ Analytics.disputeRate 23 40
     = percentage (Analytics.of_length 23) (Analytics.of_length 40).
Proof.
  split; [lia|].
  apply (proj1 percentages_are_guarded 23%nat 40%nat). lia.
Defined.

(** C6 on two statuses. *)
Lemma badge_tables_cover_the_enums_witness :
  In "paused" TournamentHeader.tournament_statuses
  /\ In "cancelled" TournamentHeader.tournament_statuses
  /\ "paused" <> "cancelled"
  /\ TournamentHeader.lookup_class TournamentHeader.statusColors "paused"
     <> TournamentHeader.lookup_class TournamentHeader.statusColors "cancelled".
Proof.
  assert (H1 : In "paused" TournamentHeader.tournament_statuses) by (cbn; tauto).
  assert (H2 : In "cancelled" TournamentHeader.tournament_statuses) by (cbn; tauto).
  assert (H3 : "paused" <> "cancelled") by discriminate.
  split; [exact H1|]. split; [exact H2|]. split; [exact H3|].
  apply (proj2 (proj2 badge_tables_cover_the_enums) "paused" "cancelled" H1 H2 H3).
Defined.

(** C8, as stated, fails at the ends of the number line: the smallest
    positive double, 2^-1074, is a revenue greater than 0 whose growth
    comes out as 0 (its product with 0.8 rounds back to itself, so the
    difference is 0), and an infinite revenue gives NaN. *)
Lemma revenue_growth_of_extreme_revenue :
  gt (S754_finite false 1 (-1074)) (of_Z 0) = true
  /\ Analytics.revenue_growth (S754_finite false 1 (-1074)) = of_Z 0
  /\ Analytics.revenue_growth (S754_finite false 1 (-1074)) <> of_Z 25
  /\ gt (S754_infinity false) (of_Z 0) = true
  /\ Analytics.revenue_growth (S754_infinity false) = NaN.
Proof.
  split; [reflexivity|]. split; [reflexivity|].
  split; [vm_compute; discriminate|]. split; reflexivity.
Qed.

(** C8 (amended) on a sample: a monthly revenue of 5000. *)
Lemma growth_figures_are_constants_witness :
  0 < 5000 < 2 ^ 53
  /\ Analytics.revenue_growth (of_Z 5000) = of_Z 25.
Proof.
  assert (H : 0 < 5000 < 2 ^ 53) by (split; reflexivity).
  split; [exact H|].
  apply (proj1 (proj2 growth_figures_are_constants) 5000 H).
Defined.

(** The other branch of C1: an announcement without [scheduled_at] is
    inserted as a draft stamped with the current time. *)
Example createAnnouncement_immediate :
  inserted_rows "announcements"
    (snd (request (createAnnouncement iso an_immediate_announcement) admin_world))
  = [ object [ "title" ::: JStr "Welcome";
               "content" ::: JStr "Season opens";
               "type" ::: JStr "general";
               "target" ::: JStr "specific";
               "status" ::: JStr "draft";
               "sent_at" ::: JStr (iso (a_clock 0));
               "scheduled_at" ::: JNull;
               "recipients" ::: JNum (of_Z 0);
               "opened" ::: JNum (of_Z 0);
               "clicked" ::: JNum (of_Z 0);
               "created_by" ::: JStr "u-admin" ] ].
Proof. reflexivity. Qed.

(** The writes of C4 on sample requests: each operation makes exactly one
    write when it goes through, and none for a caller it turns away. *)
Example message_writes :
  db_writes (snd (request (updateMessageStatus "m1" read) stocked_world))
  = [ {| from := "admin_messages";
         steps := [Update (object [ "status" ::: JStr "read" ]);
                   WhereEq "id" (JStr "m1")] |} ]
  /\ db_writes (snd (request (replyToMessage "m1" "On it.") stocked_world))
     = [ mark_replied "m1" ]
  /\ map written_status
         (db_writes (snd (request (sendMessageToAdmin
                                     {| msg_subject := "Refund";
                                        msg_content := "Please check my entry fee";
                                        msg_priority := None |})
                                  player_world)))
     = [ [JStr "unread"] ]
  /\ db_writes (snd (request (updateMessageStatus "m1" read) player_world)) = [].
Proof. repeat split; reflexivity. Qed.

(** The sample of C5 seen through [getCommunicationStats]: 23 replied
    messages out of 40 are reported as a response rate of 57. *)
Example responseRate_23_of_40 :
  exists res,
    fst (request (getCommunicationStats getTime) inbox_world) = Returned res
    /\ prop (prop res "data") "totalMessages" = JNum (of_Z 40)
    /\ prop (prop res "data") "responseRate" = JNum (of_Z 57)
    /\ prop (prop res "data") "engagementRate" = JNum (of_Z 0).
Proof. eexists. repeat split; reflexivity. Qed.

Import Analytics.
(* ================================================================== *)
(** * Further properties of the actions *)
(* ================================================================== *)

(* ------------------------------------------------------------------ *)
(** ** Object literals *)
(* ------------------------------------------------------------------ *)

Lemma lookup_set_field (k k' : string) (v : Json) (fields : list (string * Json)) :
  lookup k (set_field k' v fields)
  = if String.eqb k k' then Some v else lookup k fields.
Proof.
  induction fields as [|[k0 v0] rest IH]; cbn.
  - destruct (String.eqb k k'); reflexivity.
  - destruct (String.eqb k' k0) eqn:E0; cbn.
    + apply String.eqb_eq in E0. subst k0.
      destruct (String.eqb k k'); reflexivity.
    + destruct (String.eqb k k0) eqn:E1.
      * apply String.eqb_eq in E1. subst k0.
        rewrite String.eqb_sym, E0. reflexivity.
      * exact IH.
Qed.

Lemma lookup_app (k : string) (l1 l2 : list (string * Json)) :
  lookup k (l1 ++ l2)
  = match lookup k l1 with Some v => Some v | None => lookup k l2 end.
Proof.
  induction l1 as [|[k0 v0] rest IH]; cbn; [reflexivity|].
  destruct (String.eqb k k0); [reflexivity|exact IH].
Qed.

Lemma lookup_spread_over (k : string) (fields acc : list (string * Json)) :
  lookup k (spread_over fields acc)
  = match lookup k (rev fields) with Some v => Some v | None => lookup k acc end.
Proof.
  revert acc. induction fields as [|[k0 v0] rest IH]; intros acc; cbn; [reflexivity|].
  unfold spread_over in *. rewrite IH, lookup_app, lookup_set_field. cbn.
  destruct (lookup k (rev rest)); [reflexivity|].
  destruct (String.eqb k k0); reflexivity.
Qed.

Lemma lookup_not_key (k : string) (fields : list (string * Json)) :
  ~ In k (keys fields) -> lookup k fields = None.
Proof.
  induction fields as [|[k0 v0] rest IH]; cbn; [reflexivity|].
  intros H. destruct (String.eqb k k0) eqn:E.
  - apply String.eqb_eq in E. exfalso. apply H. left. symmetry. exact E.
  - apply IH. intros Hin. apply H. right. exact Hin.
Qed.

(** With distinct keys the last occurrence of a key is its only one. *)
Lemma lookup_rev (k : string) (fields : list (string * Json)) :
  NoDup (keys fields) -> lookup k (rev fields) = lookup k fields.
Proof.
  induction fields as [|[k0 v0] rest IH]; cbn; [reflexivity|].
  intros H. inversion H as [|? ? Hnot Hrest]; subst.
  rewrite lookup_app, (IH Hrest). cbn.
  destruct (String.eqb k k0) eqn:E.
  - apply String.eqb_eq in E. subst k0. rewrite (lookup_not_key _ _ Hnot). reflexivity.
  - destruct (lookup k rest); reflexivity.
Qed.

Lemma keys_set_field (k : string) (v : Json) (fields : list (string * Json)) :
  keys (set_field k v fields)
  = if existsb (String.eqb k) (keys fields) then keys fields else (keys fields ++ [k])%list.
Proof.
  unfold keys. induction fields as [|[k0 v0] rest IH]; cbn; [reflexivity|].
  destruct (String.eqb k k0) eqn:E; cbn.
  - apply String.eqb_eq in E. subst k0. reflexivity.
  - rewrite IH. destruct (existsb (String.eqb k) (map fst rest)); reflexivity.
Qed.

Lemma NoDup_set_field (k : string) (v : Json) (fields : list (string * Json)) :
  NoDup (keys fields) -> NoDup (keys (set_field k v fields)).
Proof.
  intros H. rewrite keys_set_field.
  destruct (existsb (String.eqb k) (keys fields)) eqn:E; [exact H|].
  apply NoDup_app; [exact H|constructor; [intros []|constructor]|].
  intros x Hx [Hk|[]]. subst x.
  assert (existsb (String.eqb k) (keys fields) = true); [|congruence].
  apply existsb_exists. exists k. split; [exact Hx|apply String.eqb_refl].
Qed.

Lemma NoDup_spread_over (fields acc : list (string * Json)) :
  NoDup (keys acc) -> NoDup (keys (spread_over fields acc)).
Proof.
  revert acc. induction fields as [|[k0 v0] rest IH]; intros acc H; cbn; [exact H|].
  apply IH, NoDup_set_field, H.
Qed.

(** An object literal has distinct keys. *)
Lemma NoDup_object (members : list Member) (acc : list (string * Json)) :
  NoDup (keys acc) -> NoDup (keys (fold_left add_member members acc)).
Proof.
  revert acc. induction members as [|m rest IH]; intros acc H; cbn; [exact H|].
  apply IH. destruct m as [k v|v]; cbn.
  - apply NoDup_set_field, H.
  - apply (NoDup_spread_over (own_fields v)), H.
Qed.

(* ------------------------------------------------------------------ *)
(** ** Exact arithmetic on counts *)
(* ------------------------------------------------------------------ *)

(** Shifting an even mantissa to the right loses nothing. *)
Lemma shr_1_double (x : Z) :
  0 <= x ->
  shr_1 {| shr_m := 2 * x; shr_r := false; shr_s := false |}
  = {| shr_m := x; shr_r := false; shr_s := false |}.
Proof. destruct x as [|p|p]; intros H; [reflexivity|reflexivity|lia]. Qed.

Lemma shr_iter_exact (p : positive) :
  forall q, 0 <= q ->
    SpecFloat.iter_pos shr_1 p {| shr_m := 2 ^ Zpos p * q; shr_r := false; shr_s := false |}
    = {| shr_m := q; shr_r := false; shr_s := false |}.
Proof.
  induction p as [p IH|p IH|]; intros q Hq; cbn [SpecFloat.iter_pos].
  - replace (2 ^ Zpos p~1 * q) with (2 * (2 ^ Zpos p * (2 ^ Zpos p * q))).
    + assert (0 <= 2 ^ Zpos p) by (apply Z.pow_nonneg; lia).
      rewrite shr_1_double by nia. rewrite IH by nia. apply IH, Hq.
    + change (Zpos p~1) with (2 * Zpos p + 1).
      replace (2 * Zpos p + 1) with (1 + Zpos p + Zpos p) by lia.
      rewrite !Z.pow_add_r by lia. change (2 ^ 1) with 2. ring.
  - replace (2 ^ Zpos p~0 * q) with (2 ^ Zpos p * (2 ^ Zpos p * q)).
    + assert (0 <= 2 ^ Zpos p) by (apply Z.pow_nonneg; lia).
      rewrite IH by nia. apply IH, Hq.
    + change (Zpos p~0) with (2 * Zpos p).
      replace (2 * Zpos p) with (Zpos p + Zpos p) by lia.
      rewrite !Z.pow_add_r by lia. ring.
  - change (2 ^ 1) with 2. apply shr_1_double, Hq.
Qed.

Lemma shl_align_le (m : positive) (e e' : Z) :
  e' <= e -> shl_align m e e' = (Z.to_pos (Zpos m * 2 ^ (e - e')), e').
Proof.
  intros H. unfold shl_align. destruct (e' - e) as [|d|d] eqn:Hd; [|lia|].
  - assert (e' = e) by lia. subst e'. rewrite Z.sub_diag, Z.mul_1_r. reflexivity.
  - f_equal. apply Pos2Z.inj. rewrite iter_xO.
    replace (e - e') with (Zpos d) by lia.
    rewrite Z2Pos.id; [reflexivity|].
    assert (0 < 2 ^ Zpos d) by (apply Z.pow_pos_nonneg; lia). nia.
Qed.

Lemma shl_align_gt (m : positive) (e e' : Z) :
  e < e' -> shl_align m e e' = (m, e).
Proof.
  intros H. unfold shl_align. destruct (e' - e) as [|d|d] eqn:Hd; [reflexivity|reflexivity|lia].
Qed.

(** A full mantissa with nothing shifted out is the rounded result. *)
Lemma binary_round_aux_full (M : positive) (E : Z) :
  Zpos (digits2_pos M) = 53 -> -1074 <= E <= 971 ->
  binary_round_aux prec emax false (Zpos M) E loc_Exact = S754_finite false M E.
Proof.
  intros Hd HE.
  assert (Hshr : shr_fexp prec emax (Zpos M) E loc_Exact
                 = ({| shr_m := Zpos M; shr_r := false; shr_s := false |}, E)).
  { unfold shr_fexp, fexp, emin, prec, emax. cbn [Zdigits2]. rewrite Hd.
    replace (Z.max (53 + E - 53) (3 - 1024 - 53) - E) with 0 by lia. reflexivity. }
  unfold binary_round_aux. rewrite Hshr. cbn [shr_m loc_of_shr_record round_nearest_even].
  rewrite Hshr. cbn [shr_m].
  unfold prec, emax. destruct (E <=? 1024 - 53) eqn:Hle; [reflexivity|].
  apply Z.leb_gt in Hle. lia.
Qed.

(** The number of binary digits of [N * 2^k]. *)
Lemma digits_shifted (N m : positive) (k : Z) :
  0 <= k -> Zpos m = Zpos N * 2 ^ k ->
  Zpos (digits2_pos m) = Zpos (digits2_pos N) + k.
Proof.
  intros Hk Hm.
  change (Zpos (digits2_pos m)) with (Zdigits2 (Zpos m)).
  apply Zdigits2_unique; [lia|].
  pose proof (digits2_pos_bounds N) as [Hlo Hhi].
  assert (0 < 2 ^ k) by (apply Z.pow_pos_nonneg; lia).
  replace (Zpos (digits2_pos N) + k - 1) with (Zpos (digits2_pos N) - 1 + k) by lia.
  rewrite !Z.pow_add_r by lia. rewrite Hm. nia.
Qed.

(** An integer below [2^53], given with any number of trailing zero bits,
    rounds to itself, in the one form that a full mantissa allows. *)
Lemma binary_round_integer (m : positive) (e : Z) (N : positive) :
  e <= 0 -> Zpos m = Zpos N * 2 ^ (- e) -> Zpos N < 2 ^ 53 ->
  binary_round prec emax false m e
  = S754_finite false
      (Z.to_pos (Zpos N * 2 ^ (53 - Zpos (digits2_pos N))))
      (Zpos (digits2_pos N) - 53).
Proof.
  intros He Hm HN.
  pose proof (digits2_pos_bounds N) as [Hlo Hhi].
  set (d := Zpos (digits2_pos N)) in *.
  assert (Hd1 : 1 <= d) by (subst d; lia).
  assert (Hd53 : d <= 53).
  { destruct (Z_le_gt_dec d 53) as [H|H]; [exact H|exfalso].
    assert (2 ^ 53 <= 2 ^ (d - 1)) by (apply Z.pow_le_mono_r; lia). lia. }
  assert (Hdm : Zpos (digits2_pos m) = d - e).
  { rewrite (digits_shifted N m (- e)) by (try lia; exact Hm). subst d. lia. }
  assert (Hpow : 0 < 2 ^ (53 - d)) by (apply Z.pow_pos_nonneg; lia).
  set (M := Z.to_pos (Zpos N * 2 ^ (53 - d))).
  assert (HM : Zpos M = Zpos N * 2 ^ (53 - d)) by (subst M; rewrite Z2Pos.id; nia).
  assert (HdM : Zpos (digits2_pos M) = 53).
  { rewrite (digits_shifted N M (53 - d)) by (try lia; exact HM). fold d. lia. }
  unfold binary_round. rewrite Hdm.
  replace (fexp prec emax (d - e + e)) with (d - 53)
    by (unfold fexp, emin, prec, emax; lia).
  destruct (Z_le_gt_dec (d - 53) e) as [Hle|Hgt].
  - rewrite shl_align_le by exact Hle.
    assert (HmM : Z.to_pos (Zpos m * 2 ^ (e - (d - 53))) = M).
    { apply Pos2Z.inj. rewrite HM, Z2Pos.id.
      - rewrite Hm, <- Z.mul_assoc, <- Z.pow_add_r by lia. f_equal. f_equal. lia.
      - assert (0 < 2 ^ (e - (d - 53))) by (apply Z.pow_pos_nonneg; lia). nia. }
    rewrite HmM. apply binary_round_aux_full; [exact HdM|lia].
  - rewrite shl_align_gt by lia.
    assert (Hshift : exists p, d - 53 - e = Zpos p).
    { destruct (d - 53 - e) as [|p|p] eqn:E; try lia. exists p. reflexivity. }
    destruct Hshift as [p Hp].
    assert (Hsplit : Zpos m = 2 ^ Zpos p * Zpos M).
    { rewrite Hm, HM, <- Hp.
      replace (- e) with (d - 53 - e + (53 - d)) by lia.
      rewrite Z.pow_add_r by lia. ring. }
    assert (Hshr : shr_fexp prec emax (Zpos m) e loc_Exact
                   = ({| shr_m := Zpos M; shr_r := false; shr_s := false |}, d - 53)).
    { unfold shr_fexp. cbn [Zdigits2]. rewrite Hdm.
      replace (fexp prec emax (d - e + e) - e) with (Zpos p)
        by (unfold fexp, emin, prec, emax; lia).
      unfold shr. cbn [shr_record_of_loc]. rewrite Hsplit, shr_iter_exact by lia.
      f_equal. lia. }
    assert (Hfull : shr_fexp prec emax (Zpos M) (d - 53) loc_Exact
                 = ({| shr_m := Zpos M; shr_r := false; shr_s := false |}, d - 53)).
    { unfold shr_fexp, fexp, emin, prec, emax. cbn [Zdigits2]. rewrite HdM.
      replace (Z.max (53 + (d - 53) - 53) (3 - 1024 - 53) - (d - 53)) with 0 by lia.
      reflexivity. }
    unfold binary_round_aux. rewrite Hshr.
    cbn [shr_m loc_of_shr_record round_nearest_even]. rewrite Hfull. cbn [shr_m].
    unfold prec, emax. destruct (d - 53 <=? 1024 - 53) eqn:Hle; [reflexivity|].
    apply Z.leb_gt in Hle. lia.
Qed.

(** The number that stands for a count. *)
Lemma of_Z_form (N : positive) :
  Zpos N < 2 ^ 53 ->
  of_Z (Zpos N)
  = S754_finite false
      (Z.to_pos (Zpos N * 2 ^ (53 - Zpos (digits2_pos N))))
      (Zpos (digits2_pos N) - 53).
Proof.
  intros HN. unfold of_Z. cbn [binary_normalize].
  apply binary_round_integer; [lia| |exact HN].
  rewrite Z.mul_1_r. reflexivity.
Qed.

(** Counting up by one is exact below [2^53]. *)
Lemma add_one_exact (c : Z) :
  0 <= c -> c + 1 < 2 ^ 53 -> add (of_Z c) (of_Z 1) = of_Z (c + 1).
Proof.
  intros Hc Hlt. destruct c as [|N|N]; [reflexivity| |lia].
  assert (HN : Zpos N < 2 ^ 53) by lia.
  pose proof (digits2_pos_bounds N) as [Hlo Hhi].
  set (d := Zpos (digits2_pos N)) in *.
  assert (Hd1 : 1 <= d) by (subst d; lia).
  assert (Hd53 : d <= 53).
  { destruct (Z_le_gt_dec d 53) as [H|H]; [exact H|exfalso].
    assert (2 ^ 53 <= 2 ^ (d - 1)) by (apply Z.pow_le_mono_r; lia). lia. }
  assert (Hpow : 0 < 2 ^ (53 - d)) by (apply Z.pow_pos_nonneg; lia).
  rewrite (of_Z_form N HN). fold d.
  set (M := Z.to_pos (Zpos N * 2 ^ (53 - d))).
  assert (HM : Zpos M = Zpos N * 2 ^ (53 - d)) by (subst M; rewrite Z2Pos.id; nia).
  change (of_Z 1) with (S754_finite false 4503599627370496 (-52)).
  unfold add, SFadd. replace (Z.min (d - 53) (-52)) with (-52) by lia.
  cbn [cond_Zopp].
  assert (H1 : Zpos (fst (shl_align M (d - 53) (-52))) = Zpos N * 2 ^ 52).
  { rewrite shl_align_fst by lia. rewrite HM, <- Z.mul_assoc, <- Z.pow_add_r by lia.
    f_equal. f_equal. lia. }
  match goal with
  | |- context [Zpos (fst (shl_align ?one (-52) (-52)))] =>
      change (Zpos (fst (shl_align one (-52) (-52)))) with (Zpos one)
  end.
  destruct (Zpos (fst (shl_align M (d - 53) (-52))) + Zpos 4503599627370496)
    as [|S|S] eqn:HS; [lia| |lia].
  cbn [binary_normalize].
  assert (Hnext : exists N', Zpos N + 1 = Zpos N') by (exists (N + 1)%positive; lia).
  destruct Hnext as [N' HN']. rewrite HN'.
  rewrite (of_Z_form N') by lia.
  apply binary_round_integer; [lia| |lia].
  change (2 ^ (- -52)) with 4503599627370496.
  change (2 ^ 52) with 4503599627370496 in H1. lia.
Qed.

(* ------------------------------------------------------------------ *)
(** ** What the requests do to the database and to the cache *)
(* ------------------------------------------------------------------ *)

Section Requests.

Variable toISOString : Z -> string.
Variable Date_getTime : Json -> number.

(** The two aggregates of [getCommunicationStats] return or raise
    without any interaction. *)
Lemma avgResponseTime_pure (d : Json) :
  (exists v, avgResponseTime_of Date_getTime d = Return v)
  \/ (exists e, avgResponseTime_of Date_getTime d = Throw e).
Proof.
  unfold avgResponseTime_of.
  destruct d as [| | | | |[|first others]|]; try (left; eexists; reflexivity).
  destruct (reduce (add_response_hours Date_getTime) (first :: others) (of_Z 0));
    [left|right]; eexists; reflexivity.
Qed.

Lemma engagementRate_pure (d : Json) :
  (exists v, engagementRate_from d = Return v)
  \/ (exists e, engagementRate_from d = Throw e).
Proof.
  unfold engagementRate_from.
  destruct d as [| | | | |[|first others]|]; try (left; eexists; reflexivity).
  destruct (reduce (add_column "recipients") (first :: others) (of_Z 0));
    cbn [orThrow bind]; [|right; eexists; reflexivity].
  destruct (reduce (add_column "opened") (first :: others) (of_Z 0));
    cbn [orThrow bind]; [left|right]; eexists; reflexivity.
Qed.

(** Case analysis on what a request observes. *)
Ltac inspect :=
  match goal with
  | |- context [match current_user ?w with _ => _ end] =>
      destruct (current_user w) as [?|]
  | |- context [not_admin (current_user ?w)] =>
      destruct (not_admin (current_user w))
  | |- context [String.eqb (user_role ?u) "admin"] =>
      destruct (String.eqb (user_role u) "admin")
  | |- context [match error ?r with _ => _ end] =>
      destruct (error r) as [?|]
  | |- context [String.eqb (code ?e) "PGRST116"] =>
      destruct (String.eqb (code e) "PGRST116")
  | |- context [truthy (data ?r)] =>
      destruct (truthy (data r))
  | |- context [match data ?r with _ => _ end] =>
      destruct (data r) as [| | | | |?|?]
  | |- context [map_rows to_message ?rows] =>
      destruct (map_rows to_message rows)
  | |- context [to_message ?row] =>
      destruct (to_message row)
  | |- context [reduce count_role ?rows ?acc] =>
      destruct (reduce count_role rows acc)
  | |- context [avgResponseTime_of Date_getTime ?d] =>
      let v := fresh "v" in let e := fresh "e" in
      destruct (avgResponseTime_pure d) as [[v ->]|[e ->]]
  | |- context [engagementRate_from ?d] =>
      let v := fresh "v" in let e := fresh "e" in
      destruct (engagementRate_pure d) as [[v ->]|[e ->]]
  | |- context [scheduled_at ?i] =>
      destruct (scheduled_at i) as [?|]
  | |- context [String.eqb ?s ""] => destruct (String.eqb s "")
  | |- context [target ?i] => destruct (target i)
  end; cbn [run bind query getCurrentUser newDate revalidatePath orThrow negb
            opt_string Js.truthy].

(** X1. The seven reading actions never write and never revalidate,
    whoever calls them and whatever the database answers. *)
Theorem reads_never_write (c : Call) (w : World) :
  read_only c = true ->
  db_writes (snd (request (perform toISOString Date_getTime c) w)) = []
  /\ revalidations (snd (request (perform toISOString Date_getTime c) w)) = [].
Proof.
  intros Hc. destruct c; try discriminate Hc; unfold request, perform;
    unfold getAnnouncements, getAdminMessages, getAdminMessage, getCommunicationStats,
      getSystemSettings, getSystemHealth, getUserRoles;
    cbn [run bind query getCurrentUser newDate revalidatePath orThrow];
    repeat inspect; split; reflexivity.
Qed.

(** X2. A request revalidates at most one path, ['/admin/dashboard'], and
    does so only after it has sent a write and when it returns
    [error: null]. *)
Theorem revalidation_follows_a_write (c : Call) (w : World) :
  revalidations (snd (request (perform toISOString Date_getTime c) w)) = []
  \/ (revalidations (snd (request (perform toISOString Date_getTime c) w))
      = ["/admin/dashboard"]
      /\ db_writes (snd (request (perform toISOString Date_getTime c) w)) <> []
      /\ exists res,
           fst (request (perform toISOString Date_getTime c) w) = Returned res
           /\ prop res "error" = JNull).
Proof.
  destruct c; unfold request, perform;
    unfold getAnnouncements, createAnnouncement, updateAnnouncementStats,
      getAdminMessages, getAdminMessage, updateMessageStatus, replyToMessage,
      getCommunicationStats, sendMessageToAdmin,
      getSystemSettings, updateSystemSettings, getSystemHealth, getUserRoles;
    cbn [run bind query getCurrentUser newDate revalidatePath orThrow];
    repeat inspect;
    first [ left; reflexivity
          | right; split; [reflexivity|]; split; [discriminate|];
            eexists; split; reflexivity ].
Qed.


(** X3. [createAnnouncement] by an admin: the inserted row is signed with
    the caller's id and starts with no opening and no click.  For the
    target ['specific'] the insert is the only query and the row has 0
    recipients; for the other targets one counting query precedes the
    insert, which is made whatever the count answers, with its count or
    0 when the count is [null] (as for a failed count). *)
Theorem createAnnouncement_recipients (input : AnnouncementInput) (w : World) (u : User) :
  current_user w = Some u -> user_role u = "admin" ->
  let t := snd (request (createAnnouncement toISOString input) w) in
  exists row,
    inserted_rows "announcements" t = [row]
    /\ prop row "created_by" = JStr (user_id u)
    /\ prop row "opened" = JNum (of_Z 0)
    /\ prop row "clicked" = JNum (of_Z 0)
    /\ match target input with
       | target_specific =>
           List.length (queries t) = 1%nat /\ prop row "recipients" = JNum (of_Z 0)
       | _ =>
           exists counting insert,
             queries t = [counting; insert]
             /\ is_write counting = false
             /\ prop row "recipients" = JNum (count_or_0 (count (database w 0 counting)))
             /\ (count (database w 0 counting) = None ->
                 prop row "recipients" = JNum (of_Z 0))
       end.
Proof.
  intros Hu Hrole t. subst t.
  unfold request, createAnnouncement. cbn [run bind getCurrentUser].
  rewrite Hu, Hrole. cbn [String.eqb Ascii.eqb Bool.eqb negb].
  destruct (scheduled_at input) as [s|]; cbn [opt_string Js.truthy];
    [destruct (String.eqb s "")|];
    destruct (target input);
    cbn [run bind query getCurrentUser newDate revalidatePath negb];
    match goal with |- context [match error ?r with _ => _ end] => destruct (error r) end;
    cbn;
    (eexists; split; [reflexivity|]; do 3 (split; [reflexivity|]));
    try (split; reflexivity);
    (do 2 eexists; split; [reflexivity|]; split; [reflexivity|]; split; [reflexivity|];
     intros ->; reflexivity).
Qed.

(** X4. The schedule field of the compose form: left empty, the
    announcement is inserted as a draft with [scheduled_at = null] and
    [sent_at] the current time; filled, it is inserted as scheduled for
    that text with [sent_at = null].  An empty [scheduled_at] given to
    [createAnnouncement] directly is treated like a missing one. *)
Theorem empty_schedule_is_no_schedule (w : World) :
  is_admin w ->
  (forall composeData,
     exists row,
       inserted_rows "announcements"
         (snd (request (createAnnouncement toISOString (announcement_of composeData)) w)) = [row]
       /\ if String.eqb (scheduledAt composeData) ""
          then prop row "status" = JStr "draft"
               /\ prop row "scheduled_at" = JNull
               /\ prop row "sent_at" = JStr (toISOString (clock w 0))
          else prop row "status" = JStr "scheduled"
               /\ prop row "scheduled_at" = JStr (scheduledAt composeData)
               /\ prop row "sent_at" = JNull)
  /\ (forall input,
        scheduled_at input = Some "" ->
        exists row,
          inserted_rows "announcements"
            (snd (request (createAnnouncement toISOString input) w)) = [row]
          /\ prop row "status" = JStr "draft"
          /\ prop row "scheduled_at" = JNull
          /\ prop row "sent_at" = JStr (toISOString (clock w 0))).
Proof.
  intros Hadmin. destruct (admin_user w Hadmin) as (u & Hu & Hrole).
  split.
  - intros composeData.
    unfold request, createAnnouncement, announcement_of. cbn [run bind getCurrentUser].
    rewrite Hu, Hrole. cbn [negb scheduled_at target].
    destruct (String.eqb (scheduledAt composeData) "") eqn:Hempty;
      cbn [opt_string Js.truthy]; rewrite ?Hempty;
      destruct (compose_target composeData);
      cbn [run bind query getCurrentUser newDate revalidatePath negb];
      match goal with |- context [match error ?r with _ => _ end] => destruct (error r) end;
      cbn; rewrite ?Hempty;
      (eexists; split; [reflexivity|]; cbn; unfold or_else; cbn; rewrite ?Hempty; cbn;
       repeat split; reflexivity).
  - intros input Hs.
    unfold request, createAnnouncement. cbn [run bind getCurrentUser].
    rewrite Hu, Hrole, Hs. cbn [negb opt_string Js.truthy String.eqb].
    destruct (target input);
      cbn [run bind query getCurrentUser newDate revalidatePath negb];
      match goal with |- context [match error ?r with _ => _ end] => destruct (error r) end;
      cbn; (eexists; split; [reflexivity|]; cbn; repeat split; reflexivity).
Qed.

(** X5. [sendMessageToAdmin] is open to every signed-in user, whatever
    the role: it makes one insert into [admin_messages], filed under the
    caller's own id, with the given priority or ['medium'], and does not
    revalidate.  With nobody signed in it answers ['Unauthorized'] and
    makes no query. *)
Theorem sendMessageToAdmin_files_under_caller (input : MessageInput) (w : World) :
  let t := snd (request (sendMessageToAdmin input) w) in
  match current_user w with
  | Some u =>
      exists row insert,
        t = [Queried insert]
        /\ inserted_rows "admin_messages" t = [row]
        /\ prop row "user_id" = JStr (user_id u)
        /\ prop row "subject" = JStr (msg_subject input)
        /\ prop row "content" = JStr (msg_content input)
        /\ prop row "priority"
           = JStr (match msg_priority input with
                   | Some p => priority_name p
                   | None => "medium"
                   end)
  | None =>
      request (sendMessageToAdmin input) w = (Returned unauthorized, [])
  end.
Proof.
  unfold request, sendMessageToAdmin. cbn [run bind getCurrentUser].
  destruct (current_user w) as [u|]; [|reflexivity].
  cbn [run bind query].
  match goal with |- context [match error ?r with _ => _ end] => destruct (error r) end;
    cbn [run snd];
    (do 2 eexists; split; [reflexivity|]; split; [reflexivity|];
     destruct (msg_priority input) as [[| | |]|]; repeat split; reflexivity).
Qed.

Lemma to_message_shape (row msg : Json) :
  to_message row = Some msg ->
  prop msg "id" = prop row "id"
  /\ truthy (prop msg "player_name") = true
  /\ nullish (prop msg "player_email") = false
  /\ prop msg "subject" = prop row "subject"
  /\ prop msg "content" = prop row "content"
  /\ prop msg "status" = prop row "status"
  /\ prop msg "priority" = prop row "priority".
Proof.
  unfold to_message. destruct (member row "id") as [msg_id|] eqn:Hid; [|discriminate].
  intros H. injection H as <-.
  assert (Hmsg : msg_id = prop row "id").
  { unfold member in Hid. destruct row; try discriminate; injection Hid as <-; reflexivity. }
  subst msg_id. cbn.
  split; [reflexivity|].
  split.
  { unfold or_else. destruct (truthy (opt_member (prop row "profiles") "full_name")) eqn:E;
      [exact E|reflexivity]. }
  split.
  { unfold or_else. destruct (truthy (opt_member (prop row "profiles") "email")) eqn:E;
      [|reflexivity].
    destruct (opt_member (prop row "profiles") "email"); try discriminate E; reflexivity. }
  repeat split; reflexivity.
Qed.

Lemma map_rows_shape (rows msgs : list Json) :
  map_rows to_message rows = Some msgs ->
  Forall2 (fun row msg =>
             prop msg "id" = prop row "id"
             /\ truthy (prop msg "player_name") = true
             /\ nullish (prop msg "player_email") = false
             /\ prop msg "subject" = prop row "subject"
             /\ prop msg "content" = prop row "content"
             /\ prop msg "status" = prop row "status"
             /\ prop msg "priority" = prop row "priority")
          rows msgs.
Proof.
  revert msgs. induction rows as [|row rest IH]; intros msgs; cbn.
  - intros H. injection H as <-. constructor.
  - destruct (to_message row) as [msg|] eqn:Hrow; [|discriminate].
    destruct (map_rows to_message rest) as [others|]; [|discriminate].
    intros H. injection H as <-.
    constructor; [apply to_message_shape, Hrow|apply IH; reflexivity].
Qed.

Lemma map_rows_total (rows : list Json) :
  forallb (fun row => negb (nullish row)) rows = true ->
  exists msgs, map_rows to_message rows = Some msgs.
Proof.
  induction rows as [|row rest IH]; cbn; [eexists; reflexivity|].
  intros H. apply andb_prop in H. destruct H as [Hrow Hrest].
  destruct (IH Hrest) as [others ->].
  assert (exists msg, to_message row = Some msg) as [msg ->].
  { unfold to_message. destruct row; try discriminate Hrow; cbn; eexists; reflexivity. }
  eexists; reflexivity.
Qed.

(** X6. [getAdminMessages], for an admin whose query answers with rows:
    the messages returned are the rows in the same order and number, each
    with the row's id, subject, content, status and priority, a
    [player_name] that is never empty (the profile's full name, else
    ['Unknown']) and a [player_email] that is never [null] or
    [undefined]. *)
Theorem getAdminMessages_keeps_rows (w : World) (rows : list Json) :
  is_admin w ->
  let r := database w 0 {| from := "admin_messages";
                           steps := [Select message_columns; Order "created_at" false] |} in
  error r = None -> data r = JArr rows ->
  forallb (fun row => negb (nullish row)) rows = true ->
  exists msgs t,
    request getAdminMessages w
    = (Returned (object [ "data" ::: JArr msgs; "error" ::: JNull ]), t)
    /\ Forall2 (fun row msg =>
                  prop msg "id" = prop row "id"
                  /\ truthy (prop msg "player_name") = true
                  /\ nullish (prop msg "player_email") = false
                  /\ prop msg "subject" = prop row "subject"
                  /\ prop msg "content" = prop row "content"
                  /\ prop msg "status" = prop row "status"
                  /\ prop msg "priority" = prop row "priority")
               rows msgs.
Proof.
  intros Hadmin r Herr Hdata Hrows. subst r.
  destruct (map_rows_total rows Hrows) as [msgs Hmsgs].
  exists msgs. eexists. split.
  - unfold request, getAdminMessages. cbn [run bind getCurrentUser query].
    unfold is_admin in Hadmin. rewrite Hadmin. cbn [run bind query].
    rewrite Herr, Hdata. cbn [run bind orThrow]. rewrite Hmsgs. cbn. reflexivity.
  - apply map_rows_shape, Hmsgs.
Qed.

End Requests.

(* ------------------------------------------------------------------ *)
(** ** System settings and roles *)
(* ------------------------------------------------------------------ *)

Lemma prop_object_spreads (defaults : list (string * Json)) (stored : Json) (k : string) :
  NoDup (keys defaults) ->
  prop (object [ Spread (JObj defaults); Spread stored ]) k
  = match lookup k (rev (own_fields stored)) with
    | Some v => v
    | None => prop (JObj defaults) k
    end.
Proof.
  intros Hdistinct. unfold object. cbn [fold_left add_member own_fields prop].
  change (fold_left (fun a kv => set_field (fst kv) (snd kv) a) (own_fields stored)
            (fold_left (fun a kv => set_field (fst kv) (snd kv) a) defaults []))
    with (spread_over (own_fields stored) (spread_over defaults [])).
  rewrite !lookup_spread_over. cbn [lookup].
  rewrite (lookup_rev k defaults Hdistinct).
  destruct (lookup k (rev (own_fields stored))); [reflexivity|].
  destruct (lookup k defaults); reflexivity.
Qed.

Lemma default_section (section : string) :
  In section sections ->
  exists members, prop defaultSettings section = JObj (fold_left add_member members []).
Proof.
  intros [<-|[<-|[<-|[<-|[]]]]]; eexists; cbn; unfold default_platform, default_security,
    default_notifications, default_payments, object; reflexivity.
Qed.

Lemma prop_merged (section k : string) (stored : Json) :
  In section sections ->
  prop (merged section stored) k
  = match lookup k (rev (own_fields (or_else (prop stored section) (object [])))) with
    | Some v => v
    | None => prop (prop defaultSettings section) k
    end.
Proof.
  intros Hsection. destruct (default_section section Hsection) as [members Hmembers].
  unfold merged. rewrite Hmembers.
  apply prop_object_spreads, NoDup_object. constructor.
Qed.

Section System.

Variable toISOString : Z -> string.

(** X7. [getSystemSettings] for an admin, when the query succeeds or
    fails with code PGRST116 (no rows): without a stored row the answer
    is the default settings; with a stored row, every key of each of the
    four sections has the stored value when the stored section carries
    the key, and the default value (or [undefined] when there is none)
    otherwise. *)
Theorem getSystemSettings_merges_defaults (w : World) :
  is_admin w ->
  let r := database w 0 settings_query in
  (error r = None \/ exists e, error r = Some e /\ code e = "PGRST116") ->
  exists res,
    request getSystemSettings w = (Returned res, [Queried settings_query])
    /\ prop res "error" = JNull
    /\ if truthy (data r)
       then forall section k,
              In section sections ->
              let stored := own_fields (or_else (prop (data r) section) (object [])) in
              NoDup (keys stored) ->
              prop (prop (prop res "data") section) k
              = match lookup k stored with
                | Some v => v
                | None => prop (prop defaultSettings section) k
                end
       else prop res "data" = defaultSettings.
Proof.
  intros Hadmin r Herr. subst r.
  unfold request, getSystemSettings. cbn [run bind getCurrentUser query].
  unfold is_admin in Hadmin. rewrite Hadmin. cbn [run bind query].
  fold settings_query.
  assert (Hfailed : match error (database w 0 settings_query) with
                    | Some e => if negb (String.eqb (code e) "PGRST116") then Some e else None
                    | None => None
                    end = None).
  { destruct Herr as [->|(e & -> & ->)]; reflexivity. }
  rewrite Hfailed.
  destruct (truthy (data (database w 0 settings_query))) eqn:Hdata; cbn [run].
  - eexists. split; [reflexivity|]. split; [reflexivity|].
    intros section k Hsection Hdistinct.
    assert (Hget : prop (prop (object
               [ "data" ::: object
                   [ "platform" ::: merged "platform" (data (database w 0 settings_query));
                     "security" ::: merged "security" (data (database w 0 settings_query));
                     "notifications" ::: merged "notifications" (data (database w 0 settings_query));
                     "payments" ::: merged "payments" (data (database w 0 settings_query)) ];
                 "error" ::: JNull ]) "data") section
             = merged section (data (database w 0 settings_query))).
    { destruct Hsection as [<-|[<-|[<-|[<-|[]]]]]; reflexivity. }
    rewrite Hget, (prop_merged section k _ Hsection).
    rewrite (lookup_rev k _ Hdistinct). reflexivity.
  - eexists. split; [reflexivity|]. split; reflexivity.
Qed.

(** X8. The row that [updateSystemSettings] upserts for an admin: its
    [updated_at] is always the server's current time, whatever the
    settings carry; every other key has the value that the settings
    carry for it; [id] is 1 only when the settings carry no [id] of
    their own. *)
Theorem updateSystemSettings_row (settings : Json) (w : World) :
  is_admin w ->
  exists row,
    queries (snd (request (updateSystemSettings toISOString settings) w))
    = [ {| from := "system_settings"; steps := [Upsert row] |} ]
    /\ prop row "updated_at" = JStr (toISOString (clock w 0))
    /\ forall k,
         k <> "updated_at" ->
         NoDup (keys (own_fields settings)) ->
         prop row k = match lookup k (own_fields settings) with
                      | Some v => v
                      | None => own_default k
                      end.
Proof.
  intros Hadmin. unfold request, updateSystemSettings.
  cbn [run bind getCurrentUser query newDate].
  unfold is_admin in Hadmin. rewrite Hadmin. cbn [run bind query newDate].
  exists (object [ "id" ::: JNum (of_Z 1); Spread settings;
                   "updated_at" ::: JStr (toISOString (clock w 0)) ]).
  split.
  { match goal with |- context [match error ?r with _ => _ end] => destruct (error r) end;
      reflexivity. }
  unfold object. cbn [fold_left add_member prop].
  change (fold_left (fun a kv => set_field (fst kv) (snd kv) a) (own_fields settings)
            (set_field "id" (JNum (of_Z 1)) []))
    with (spread_over (own_fields settings) (set_field "id" (JNum (of_Z 1)) [])).
  split.
  - rewrite lookup_set_field. reflexivity.
  - intros k Hk Hdistinct. rewrite lookup_set_field.
    destruct (String.eqb k "updated_at") eqn:E; [apply String.eqb_eq in E; contradiction|].
    rewrite lookup_spread_over, (lookup_rev k _ Hdistinct).
    destruct (lookup k (own_fields settings)); [reflexivity|].
    unfold own_default. cbn [set_field lookup]. destruct (String.eqb k "id"); reflexivity.
Qed.

End System.

Lemma profiles_with_role_app (role : string) (seen rest : list Json) :
  profiles_with_role role (seen ++ rest)
  = (profiles_with_role role seen + profiles_with_role role rest)%nat.
Proof. unfold profiles_with_role. rewrite filter_app, length_app. reflexivity. Qed.

Lemma profiles_with_role_le (role : string) (profiles : list Json) :
  (profiles_with_role role profiles <= List.length profiles)%nat.
Proof. apply filter_length_le. Qed.

Lemma of_length_truthy (n : nat) :
  (0 < n)%nat -> Z.of_nat n < 2 ^ 53 -> JsNumber.truthy (of_length n) = true.
Proof.
  intros Hn Hlt. unfold of_length. destruct (Z.of_nat n) as [|N|N] eqn:E; try lia.
  rewrite (of_Z_form N) by lia. reflexivity.
Qed.

(** One step of the count keeps the counts exact. *)
Lemma count_role_step (acc : list (string * Json)) (seen : list Json) (profile : Json) :
  counts_profiles acc seen ->
  nullish profile = false ->
  Z.of_nat (List.length (seen ++ [profile])) < 2 ^ 53 ->
  exists acc', count_role acc profile = Some acc'
               /\ counts_profiles acc' (seen ++ [profile]).
Proof.
  intros [Hdistinct Hcounts] Hpresent Hlen.
  assert (Hmember : member profile "role" = Some (prop profile "role")).
  { destruct profile; try discriminate Hpresent; reflexivity. }
  unfold count_role. rewrite Hmember. fold (role_of profile).
  eexists. split; [reflexivity|]. split.
  - apply NoDup_set_field, Hdistinct.
  - intros role. rewrite lookup_set_field, profiles_with_role_app.
    assert (Hone : profiles_with_role role [profile]
                   = if String.eqb (role_of profile) role then 1%nat else 0%nat).
    { unfold profiles_with_role. cbn. destruct (String.eqb (role_of profile) role); reflexivity. }
    rewrite Hone. rewrite (String.eqb_sym role).
    destruct (String.eqb (role_of profile) role) eqn:E.
    + apply String.eqb_eq in E. subst role.
      pose proof (profiles_with_role_le (role_of profile) seen) as Hle.
      rewrite length_app in Hlen. cbn [List.length] in Hlen.
      set (n := profiles_with_role (role_of profile) seen) in *.
      replace (0 <? n + 1)%nat with true by (symmetry; apply Nat.ltb_lt; lia).
      do 2 f_equal. cbn [prop]. rewrite (Hcounts (role_of profile)). fold n.
      destruct (0 <? n)%nat eqn:Hn.
      * apply Nat.ltb_lt in Hn. unfold or_else. cbn [Js.truthy].
        rewrite of_length_truthy by lia. cbn [as_number].
        unfold of_length. rewrite add_one_exact by lia. f_equal. lia.
      * apply Nat.ltb_ge in Hn. assert (n = 0%nat) by lia. subst n. 
        replace (profiles_with_role (role_of profile) seen) with 0%nat by lia.
        reflexivity.
    + rewrite Nat.add_0_r. apply Hcounts.
Qed.

Lemma reduce_count_role (rest : list Json) :
  forall seen acc,
    counts_profiles acc seen ->
    forallb (fun row => negb (nullish row)) rest = true ->
    Z.of_nat (List.length (seen ++ rest)) < 2 ^ 53 ->
    exists counts, reduce count_role rest acc = Some counts
                   /\ counts_profiles counts (seen ++ rest).
Proof.
  induction rest as [|profile rest IH]; intros seen acc Hacc Hrows Hlen.
  - exists acc. rewrite app_nil_r. split; [reflexivity|exact Hacc].
  - cbn [forallb] in Hrows. apply andb_prop in Hrows. destruct Hrows as [Hrow Hrest].
    assert (Hpresent : nullish profile = false) by (destruct (nullish profile); [discriminate|reflexivity]).
    assert (Hlen1 : Z.of_nat (List.length (seen ++ [profile])) < 2 ^ 53).
    { rewrite !length_app in *. cbn [List.length] in *. lia. }
    destruct (count_role_step acc seen profile Hacc Hpresent Hlen1) as (acc' & Hstep & Hacc').
    cbn [reduce]. rewrite Hstep.
    replace (seen ++ profile :: rest)%list with ((seen ++ [profile]) ++ rest)%list
      by (rewrite <- app_assoc; reflexivity).
    apply IH; [exact Hacc'|exact Hrest|].
    rewrite <- app_assoc. exact Hlen.
Qed.

(** The role under which a typed profile is counted is a plain one. *)
Lemma typed_role_plain (profile : Json) :
  typed_role profile = true -> plain_role (role_of profile) = true.
Proof.
  unfold typed_role, role_of, or_else.
  destruct (prop profile "role") as [| | | |s| |]; try discriminate; try reflexivity.
  cbn [Js.truthy]. destruct (String.eqb s ""); cbn; [reflexivity|]. intros H. exact H.
Qed.

Lemma lookup_key (k : string) (fields : list (string * Json)) :
  In k (keys fields) -> lookup k fields <> None.
Proof.
  induction fields as [|[k0 v0] rest IH]; cbn; [intros []|].
  intros [Hk|Hin].
  - subst k0. rewrite String.eqb_refl. discriminate.
  - destruct (String.eqb k k0); [discriminate|exact (IH Hin)].
Qed.

(** A role that is counted is the role of a profile. *)
Lemma counted_role_occurs (role : string) (profiles : list Json) :
  (0 < profiles_with_role role profiles)%nat ->
  exists profile, In profile profiles /\ role_of profile = role.
Proof.
  unfold profiles_with_role. intros H.
  destruct (filter (fun p => String.eqb (role_of p) role) profiles) as [|p rest] eqn:E;
    [cbn in H; lia|].
  assert (Hin : In p (filter (fun p => String.eqb (role_of p) role) profiles))
    by (rewrite E; left; reflexivity).
  apply filter_In in Hin. destruct Hin as [Hin Hrole].
  exists p. split; [exact Hin|]. apply String.eqb_eq. exact Hrole.
Qed.

(** X9. [getUserRoles] for an admin whose query answers with profile
    rows whose [role] is [null] or a string, the string being a plain
    role name (it starts with an ASCII character other than a digit and
    names no member of [Object.prototype]): one entry per role that
    occurs (a profile without role counting as ['player']), whose
    [user_count] is exactly the number of profiles with that role; and
    every entry stands for a plain role name. *)
Theorem getUserRoles_counts_every_profile (w : World) (profiles : list Json) :
  is_admin w ->
  error (database w 0 roles_query) = None ->
  data (database w 0 roles_query) = JArr profiles ->
  forallb (fun row => negb (nullish row)) profiles = true ->
  forallb typed_role profiles = true ->
  Z.of_nat (List.length profiles) < 2 ^ 53 ->
  exists counts,
    request getUserRoles w
    = (Returned (object [ "data" ::: JArr (map role_entry counts); "error" ::: JNull ]),
       [Queried roles_query])
    /\ counts_profiles counts profiles
    /\ forallb plain_role (keys counts) = true.
Proof.
  intros Hadmin Herr Hdata Hrows Htyped Hlen.
  destruct (reduce_count_role profiles [] []) as (counts & Hreduce & Hcounts);
    [split; [constructor|intros role; reflexivity]|exact Hrows|exact Hlen|].
  exists counts. split; [|split; [exact Hcounts|]].
  - unfold request, getUserRoles. cbn [run bind getCurrentUser query].
    unfold is_admin in Hadmin. rewrite Hadmin. cbn [run bind query].
    fold roles_query. rewrite Herr, Hdata. cbn [run bind orThrow].
    rewrite Hreduce. reflexivity.
  - apply forallb_forall. intros role Hkey.
    destruct Hcounts as [_ Hcounts]. specialize (Hcounts role).
    cbn [app] in Hcounts. apply lookup_key in Hkey.
    destruct (0 <? profiles_with_role role profiles)%nat eqn:Hpos;
      [|contradiction (Hkey Hcounts)].
    apply Nat.ltb_lt in Hpos.
    destruct (counted_role_occurs role profiles Hpos) as (profile & Hin & <-).
    apply typed_role_plain.
    rewrite forallb_forall in Htyped. exact (Htyped profile Hin).
Qed.

(* ------------------------------------------------------------------ *)
(** ** Percentages of counts *)
(* ------------------------------------------------------------------ *)

(** A count below [2^53] is the number it is written as. *)
Lemma of_Z_value (n : Z) :
  0 < n < 2 ^ 53 -> pos_normal (of_Z n) /\ value (of_Z n) = IZR n.
Proof.
  intros [Hlo Hhi]. destruct n as [|N|N]; try lia.
  pose proof (digits2_pos_bounds N) as [Hdlo Hdhi].
  set (d := Zpos (digits2_pos N)) in *.
  assert (Hd1 : 1 <= d) by (subst d; lia).
  assert (Hd53 : d <= 53).
  { destruct (Z_le_gt_dec d 53) as [H|H]; [exact H|exfalso].
    assert (2 ^ 53 <= 2 ^ (d - 1)) by (apply Z.pow_le_mono_r; lia). lia. }
  assert (Hpow : 0 < 2 ^ (53 - d)) by (apply Z.pow_pos_nonneg; lia).
  rewrite (of_Z_form N Hhi). fold d.
  set (M := Z.to_pos (Zpos N * 2 ^ (53 - d))).
  assert (HM : Zpos M = Zpos N * 2 ^ (53 - d)) by (subst M; rewrite Z2Pos.id; nia).
  split.
  - exists M, (d - 53). split; [reflexivity|].
    rewrite (digits_shifted N M (53 - d)) by (try lia; exact HM). fold d. lia.
  - cbn [value cond_Zopp]. rewrite HM, mult_IZR, <- bpow_IZR by lia.
    rewrite Rmult_assoc, <- bpow_add. replace (53 - d + (d - 53)) with 0 by lia.
    change (bpow 0) with 1%R. ring.
Qed.

(** [(p / q) * 100] on two counts, before [Math.round]: within three
    roundings of the exact value. *)
Lemma percentage_value (p q : Z) :
  0 < p < 2 ^ 53 -> 0 < q < 2 ^ 53 ->
  pos_normal (mul (div (of_Z p) (of_Z q)) (of_Z 100))
  /\ ((1 - u) * ((1 - 2 * u) * (IZR p / IZR q) * 100)
      <= value (mul (div (of_Z p) (of_Z q)) (of_Z 100))
      <= (1 + u) * ((1 + u) * (IZR p / IZR q) * 100))%R.
Proof.
  intros Hp Hq.
  destruct (of_Z_value p Hp) as [Np Vp]. destruct (of_Z_value q Hq) as [Nq Vq].
  destruct range_facts as (R0 & R1 & R2 & R3 & R4 & R5).
  assert (Hp1 : (1 <= IZR p)%R) by (apply IZR_le; lia).
  assert (Hq1 : (1 <= IZR q)%R) by (apply IZR_le; lia).
  assert (Hp2 : (IZR p <= 9007199254740992)%R)
    by (apply IZR_le; change (2 ^ 53) with 9007199254740992 in Hp; lia).
  assert (Hq2 : (IZR q <= 9007199254740992)%R)
    by (apply IZR_le; change (2 ^ 53) with 9007199254740992 in Hq; lia).
  assert (Hratio : (/ 9007199254740992 <= IZR p / IZR q <= 9007199254740992)%R).
  { apply Rdiv_between; [lra|]. split; lra. }
  assert (B1 : (bpow (-999) <= / 9007199254740992)%R).
  { rewrite <- bpow_53, <- bpow_neg. apply bpow_le. lia. }
  assert (B2 : (9007199254740992 * 1024 <= bpow 1000)%R).
  { rewrite <- bpow_53, <- bpow_10, <- bpow_add. apply bpow_le. lia. }
  assert (B3 : (bpow (-1000) <= bpow (-999))%R) by (apply bpow_le; lia).
  destruct (div_accurate (of_Z p) (of_Z q) Np Nq) as [Nd Hd].
  { rewrite Vp, Vq. split; lra. }
  rewrite Vp, Vq in Hd.
  change (SFdiv prec emax (of_Z p) (of_Z q)) with (div (of_Z p) (of_Z q)) in Nd, Hd.
  set (x := div (of_Z p) (of_Z q)) in *. set (vx := value x) in *.
  set (r := (IZR p / IZR q)%R) in *.
  unfold u in *.
  destruct hundred as [N100 V100].
  destruct (mul_accurate x (of_Z 100) Nd N100) as [Nr Hr].
  { fold vx. rewrite V100. split; lra. }
  fold vx in Hr. rewrite V100 in Hr.
  change (SFmul prec emax x (of_Z 100)) with (mul x (of_Z 100)) in Nr, Hr.
  unfold u in *.
  split; [exact Nr|]. split; lra.
Qed.

(** [Math.round] of a positive number below [K + 1/2] is one of the
    integers from 0 to [K]. *)
Lemma Math_round_below (x : spec_float) (K : Z) :
  pos_normal x -> 0 <= K < 2 ^ 52 ->
  (value x < IZR K + / 2)%R ->
  exists k, 0 <= k <= K /\ Math_round x = of_Z k.
Proof.
  intros (m & e & -> & Hd) HK Hhi. cbn [value cond_Zopp] in Hhi.
  pose proof (pos_normal_mantissa m Hd) as [Hm _].
  pose proof (bpow_pos e) as He.
  assert (HkR : (IZR K + 1 <= IZR (2 ^ 52))%R) by (rewrite <- plus_IZR; apply IZR_le; lia).
  assert (HmR : (IZR (2 ^ 52) <= IZR (Zpos m))%R) by (apply IZR_le; exact Hm).
  unfold Math_round.
  destruct (0 <=? e) eqn:Hsign.
  - exfalso. apply Z.leb_le in Hsign.
    assert (1 <= bpow e)%R by (change 1%R with (bpow 0); apply bpow_le; exact Hsign).
    assert (0 < IZR (2 ^ 52))%R by (apply IZR_lt; reflexivity).
    nra.
  - apply Z.leb_gt in Hsign.
    set (den := 2 ^ (- e)).
    assert (Hden : 0 < den) by (apply pow2_pos; lia).
    assert (HdenR : (bpow e * IZR den = 1)%R).
    { unfold den. rewrite <- bpow_IZR by lia. rewrite <- bpow_add.
      replace (e + - e) with 0 by lia. reflexivity. }
    assert (HdR : (0 < IZR den)%R) by (apply IZR_lt; exact Hden).
    assert (H2 : 2 * Zpos m < (2 * K + 1) * den).
    { apply lt_IZR. rewrite !mult_IZR, plus_IZR, mult_IZR.
      replace (IZR (Zpos m)) with (IZR (Zpos m) * bpow e * IZR den)%R
        by (rewrite Rmult_assoc, HdenR; ring).
      nra. }
    set (r := (2 * Zpos m + den) / (2 * den)).
    assert (Hr0 : 0 <= r) by (apply Z.div_pos; lia).
    assert (HrK : r <= K).
    { assert (r < K + 1); [|lia]. apply Z.div_lt_upper_bound; lia. }
    exists r. split; [lia|].
    destruct (r =? 0) eqn:Hzero; [|reflexivity].
    apply Z.eqb_eq in Hzero. rewrite Hzero. reflexivity.
Qed.

(** A part of a whole, as a rounded percentage, is a whole number from 0
    to 100. *)
Lemma rate_of_a_part (part length : nat) :
  (part <= length)%nat -> Z.of_nat length < 2 ^ 53 ->
  exists k, 0 <= k <= 100 /\ rate part length = of_Z k.
Proof.
  intros Hpart Hlen. unfold rate.
  destruct (0 <? length)%nat eqn:Hpos; [|exists 0; split; [lia|reflexivity]].
  apply Nat.ltb_lt in Hpos. unfold of_length.
  destruct part as [|part'].
  - exists 0. split; [lia|].
    destruct (of_Z_value (Z.of_nat length)) as [(m & e & -> & _) _]; [lia|].
    reflexivity.
  - set (part := S part') in *.
    destruct (percentage_value (Z.of_nat part) (Z.of_nat length)) as [Nr Hr]; [lia|lia|].
    assert (Hp : (1 <= IZR (Z.of_nat part))%R) by (apply IZR_le; lia).
    assert (Hq : (IZR (Z.of_nat part) <= IZR (Z.of_nat length))%R) by (apply IZR_le; lia).
    assert (Hratio : (0 <= IZR (Z.of_nat part) / IZR (Z.of_nat length) <= 1)%R).
    { apply Rdiv_between; [lra|]. split; lra. }
    apply Math_round_below; [exact Nr|split; [lia|reflexivity]|].
    unfold u in Hr. set (r := (IZR (Z.of_nat part) / IZR (Z.of_nat length))%R) in *. lra.
Qed.

(* ------------------------------------------------------------------ *)
(** ** Analytics dashboard: rates and daily activity *)
(* ------------------------------------------------------------------ *)

Lemma filter_rows_total (p : Json -> option bool) (rows : list Json) :
  (forall row, nullish row = false -> exists b, p row = Some b) ->
  forallb (fun row => negb (nullish row)) rows = true ->
  exists kept, filter_rows p rows = Some kept
               /\ (List.length kept <= List.length rows)%nat.
Proof.
  intros Hp. induction rows as [|row rest IH]; cbn [forallb filter_rows]; intros Hrows.
  - exists []. split; [reflexivity|apply Nat.le_refl].
  - apply andb_prop in Hrows. destruct Hrows as [Hrow Hrest].
    destruct (IH Hrest) as (kept & -> & Hlen).
    destruct (Hp row) as [b ->]; [destruct (nullish row); [discriminate|reflexivity]|].
    destruct b; eexists; (split; [reflexivity|]); cbn [List.length]; lia.
Qed.

(** X10. The completion rate of the dashboard is a whole number from 0
    to 100, whatever the tournaments of the range are: the completed
    tournaments are counted among them. *)
Theorem completionRate_is_a_percentage (filteredTournaments : list Json) :
  forallb (fun row => negb (nullish row)) filteredTournaments = true ->
  Z.of_nat (List.length filteredTournaments) < 2 ^ 53 ->
  exists k, 0 <= k <= 100
            /\ Dashboard.completionRate_of filteredTournaments = Some (of_Z k).
Proof.
  intros Hrows Hlen. unfold Dashboard.completionRate_of, Dashboard.count_with_status.
  destruct (filter_rows_total
              (fun t => option_map (fun s => is_string s "completed") (member t "status"))
              filteredTournaments) as (kept & -> & Hkept); [|exact Hrows|].
  { intros row Hrow. destruct row; try discriminate Hrow; eexists; reflexivity. }
  cbn [option_map]. unfold completionRate.
  destruct (rate_of_a_part (List.length kept) (List.length filteredTournaments) Hkept Hlen)
    as (k & Hk & ->).
  exists k. split; [exact Hk|reflexivity].
Qed.

(** X11. The dispute rate is not bounded by 100: the disputes are all
    those of the database while the matches are those of the range, and
    with [j] times as many disputes as matches the rate is [100 * j]. *)
Theorem disputeRate_exceeds_100 (j filteredMatches_length : nat) :
  (0 < filteredMatches_length)%nat -> (0 < j <= 1000)%nat ->
  Z.of_nat (j * filteredMatches_length) < 2 ^ 53 ->
  disputeRate (j * filteredMatches_length) filteredMatches_length = of_Z (100 * Z.of_nat j).
Proof.
  intros Hpos Hj Hlen. unfold disputeRate, rate.
  replace (0 <? filteredMatches_length)%nat with true
    by (symmetry; apply Nat.ltb_lt; exact Hpos).
  unfold of_length.
  destruct (percentage_value (Z.of_nat (j * filteredMatches_length))
              (Z.of_nat filteredMatches_length)) as [Nr Hr]; [nia|nia|].
  assert (Hq : (1 <= IZR (Z.of_nat filteredMatches_length))%R) by (apply IZR_le; lia).
  assert (Hratio : (IZR (Z.of_nat (j * filteredMatches_length))
                    / IZR (Z.of_nat filteredMatches_length)
                    = IZR (Z.of_nat j))%R).
  { rewrite Nat2Z.inj_mul, mult_IZR. field. lra. }
  rewrite Hratio in Hr.
  assert (Hj1 : (1 <= IZR (Z.of_nat j))%R) by (apply IZR_le; lia).
  assert (Hj2 : (IZR (Z.of_nat j) <= 1000)%R) by (apply IZR_le; lia).
  apply Math_round_near; [exact Nr|split; [lia|]|].
  - apply Z.lt_trans with (2 ^ 17); [|reflexivity]. change (2 ^ 17) with 131072. lia.
  - rewrite mult_IZR. unfold u in Hr. split; lra.
Qed.

Lemma set_add_length (id : string) (ids : list string) :
  (List.length ids <= List.length (Dashboard.set_add id ids) <= S (List.length ids))%nat.
Proof.
  induction ids as [|x rest IH]; cbn; [lia|].
  destruct (String.eqb x id); cbn [List.length]; lia.
Qed.

Lemma set_add_In (id x : string) (ids : list string) :
  In x (Dashboard.set_add id ids) <-> x = id \/ In x ids.
Proof.
  induction ids as [|y rest IH]; cbn.
  - split; [intros [H|[]]; left; symmetry; exact H|intros [H|[]]; left; symmetry; exact H].
  - destruct (String.eqb y id) eqn:E; cbn.
    + apply String.eqb_eq in E. subst y. split; [intros H; right; exact H|].
      intros [->|H]; [left; reflexivity|exact H].
    + rewrite IH. tauto.
Qed.

Lemma set_add_NoDup (id : string) (ids : list string) :
  NoDup ids -> NoDup (Dashboard.set_add id ids).
Proof.
  induction ids as [|y rest IH]; cbn; intros H.
  - constructor; [intros []|constructor].
  - destruct (String.eqb y id) eqn:E; [exact H|].
    inversion H as [|? ? Hy Hrest]; subst. constructor; [|apply IH, Hrest].
    rewrite set_add_In. intros [->|Hin]; [|exact (Hy Hin)].
    rewrite String.eqb_refl in E. discriminate.
Qed.

Lemma add_players_step (ids : list string) (m : Json) :
  nullish m = false -> NoDup ids ->
  exists ids', Dashboard.add_players ids m = Some ids'
               /\ NoDup ids'
               /\ (List.length ids' <= List.length ids + 2)%nat.
Proof.
  intros Hm Hids. unfold Dashboard.add_players.
  assert (Hmember : member m "player1_id" = Some (prop m "player1_id"))
    by (destruct m; try discriminate Hm; reflexivity).
  rewrite Hmember. eexists. split; [reflexivity|].
  set (id1 := as_string (prop m "player1_id")). set (id2 := as_string (prop m "player2_id")).
  pose proof (set_add_length id1 ids) as L1.
  pose proof (set_add_NoDup id1 ids Hids) as N1.
  pose proof (set_add_length id2 ids) as L2.
  pose proof (set_add_NoDup id2 ids Hids) as N2.
  pose proof (set_add_length id2 (Dashboard.set_add id1 ids)) as L3.
  pose proof (set_add_NoDup id2 _ N1) as N3.
  destruct (truthy (prop m "player1_id")); destruct (truthy (prop m "player2_id"));
    (split; [assumption|lia]).
Qed.

Lemma reduce_add_players (dayMatches : list Json) :
  forall ids,
    forallb (fun row => negb (nullish row)) dayMatches = true ->
    NoDup ids ->
    exists ids', reduce Dashboard.add_players dayMatches ids = Some ids'
                 /\ NoDup ids'
                 /\ (List.length ids' <= List.length ids + 2 * List.length dayMatches)%nat.
Proof.
  induction dayMatches as [|m rest IH]; intros ids Hrows Hids.
  - exists ids. split; [reflexivity|]. split; [exact Hids|lia].
  - cbn [forallb] in Hrows. apply andb_prop in Hrows. destruct Hrows as [Hm Hrest].
    destruct (add_players_step ids m) as (ids1 & Hstep & Hnodup & Hlen);
      [destruct (nullish m); [discriminate|reflexivity]|exact Hids|].
    destruct (IH ids1 Hrest Hnodup) as (ids' & Hred & Hnodup' & Hlen').
    exists ids'. cbn [reduce]. rewrite Hstep. split; [exact Hred|].
    split; [exact Hnodup'|]. cbn [List.length]. lia.
Qed.

(** X12. The activity of a day: the number of active players is at most
    twice the number of matches of the day (each match brings its two
    players at most, and a player is counted once). *)
Theorem active_players_at_most_twice_matches (dayMatches : list Json) :
  forallb (fun row => negb (nullish row)) dayMatches = true ->
  exists active,
    Dashboard.activity dayMatches = Some (active, List.length dayMatches)
    /\ (active <= 2 * List.length dayMatches)%nat.
Proof.
  intros Hrows. unfold Dashboard.activity.
  destruct (reduce_add_players dayMatches [] Hrows) as (ids & -> & _ & Hlen); [constructor|].
  exists (List.length ids). split; [reflexivity|]. cbn [List.length] in Hlen. lia.
Qed.

Lemma includes_underscore (c : ascii) (rest : string) :
  includes "_" (String c rest) = false ->
  Ascii.eqb c "_" = false /\ includes "_" rest = false.
Proof.
  cbn [includes prefix]. destruct (ascii_dec "_" c) as [<-|Hne].
  - destruct rest; discriminate.
  - intros H. split; [|exact H].
    apply Ascii.eqb_neq. intros ->. apply Hne. reflexivity.
Qed.

Lemma replace_underscore_clean (s : string) :
  includes "_" s = false -> replace_underscore s = s.
Proof.
  induction s as [|c rest IH]; [reflexivity|].
  intros H. apply includes_underscore in H. destruct H as [Hc Hrest].
  cbn [replace_underscore]. rewrite Hc, (IH Hrest). reflexivity.
Qed.

Lemma replace_underscore_first (a b : string) :
  includes "_" a = false ->
  replace_underscore (a ++ String "_" b) = a ++ String " " b.
Proof.
  induction a as [|c rest IH]; [reflexivity|].
  intros H. apply includes_underscore in H. destruct H as [Hc Hrest].
  cbn [replace_underscore append]. rewrite Hc, (IH Hrest). reflexivity.
Qed.

(** X13. The text of a status or format badge: a value without
    underscore is shown as it is, and of the underscores of a value the
    first one only becomes a space. *)
Theorem badge_text_replaces_first_underscore (a b : string) :
  includes "_" a = false ->
  TournamentHeaderText.badge_text a = a
  /\ TournamentHeaderText.badge_text (a ++ String "_" b) = a ++ String " " b
  /\ Dashboard.format_label (a ++ String "_" b) = upper (a ++ String " " b).
Proof.
  intros H. unfold TournamentHeaderText.badge_text, Dashboard.format_label.
  rewrite replace_underscore_first by exact H.
  split; [apply replace_underscore_clean, H|]. split; reflexivity.
Qed.

(* ------------------------------------------------------------------ *)
(** ** Share button *)
(* ------------------------------------------------------------------ *)

Lemma prefix_empty (s : string) : prefix "" s = true.
Proof. destruct s; reflexivity. Qed.

Lemma prefix_append (a b : string) : prefix a (a ++ b) = true.
Proof.
  induction a as [|c rest IH]; cbn [append prefix]; [apply prefix_empty|].
  destruct (ascii_dec c c) as [_|Hne]; [exact IH|exfalso; apply Hne; reflexivity].
Qed.

Lemma prefix_extended (a s b : string) : prefix a s = true -> prefix a (s ++ b) = true.
Proof.
  revert s. induction a as [|c rest IH]; intros s.
  - intros _. apply prefix_empty.
  - destruct s as [|c' s']; cbn [append prefix]; [discriminate|].
    destruct (ascii_dec c c'); [apply IH|discriminate].
Qed.

Lemma includes_at_start (needle rest : string) : includes needle (needle ++ rest) = true.
Proof.
  destruct (needle ++ rest) eqn:E; cbn [includes]; rewrite <- E, prefix_append; reflexivity.
Qed.

Lemma includes_char (x c : ascii) (rest : string) :
  includes (String x "") (String c rest) = false ->
  c <> x /\ includes (String x "") rest = false.
Proof.
  cbn [includes prefix]. destruct (ascii_dec x c) as [<-|Hne].
  - rewrite prefix_empty. discriminate.
  - intros H. split; [|exact H]. intros ->. apply Hne. reflexivity.
Qed.

(** A text without slash does not start with, nor include, a needle that
    holds one. *)
Lemma no_slash_no_prefix (before after : string) :
  forall s, includes "/" s = false -> prefix (before ++ String "/" after) s = false.
Proof.
  induction before as [|x before' IH]; intros s Hs.
  - destruct s as [|c rest]; [reflexivity|]. apply includes_char in Hs.
    destruct Hs as [Hc _]. cbn [append prefix].
    destruct (ascii_dec "/" c) as [<-|_]; [contradiction|reflexivity].
  - destruct s as [|c rest]; [reflexivity|]. apply includes_char in Hs.
    destruct Hs as [_ Hrest]. cbn [append prefix].
    destruct (ascii_dec x c); [apply IH, Hrest|reflexivity].
Qed.

Lemma no_slash_no_path (before after : string) :
  forall s, includes "/" s = false -> includes (before ++ String "/" after) s = false.
Proof.
  induction s as [|c rest IH]; intros Hs.
  - destruct before; reflexivity.
  - cbn [includes]. rewrite (no_slash_no_prefix before after _ Hs).
    apply includes_char in Hs. apply IH, Hs.
Qed.

(** X14. The link that the share button offers leads to the page it is
    on: on an admin tournament page it is the admin address of the
    tournament, on a player page (whose last segment holds no slash) the
    player address. *)
Theorem share_url_stays_in_its_area (tournamentId : string) (b : ShareButton.Browser)
  (segment : string) :
  (ShareButton.pathname b = "/admin/tournaments/" ++ segment ->
   ShareButton.share_url tournamentId b
   = ShareButton.origin b ++ "/admin/tournaments/" ++ tournamentId)
  /\ (ShareButton.pathname b = "/dashboard/tournaments/" ++ segment ->
      includes "/" segment = false ->
      ShareButton.share_url tournamentId b
      = ShareButton.origin b ++ "/dashboard/tournaments/" ++ tournamentId).
Proof.
  unfold ShareButton.share_url. split.
  - intros ->. rewrite includes_at_start. reflexivity.
  - intros -> Hsegment.
    assert (Hno : includes "/admin/tournaments/" ("/dashboard/tournaments/" ++ segment) = false).
    { pose proof (no_slash_no_prefix "admin" "tournaments/" segment Hsegment) as H1.
      pose proof (no_slash_no_path "" "admin/tournaments/" segment Hsegment) as H2.
      cbn [append] in H1, H2. cbn. rewrite H1. exact H2. }
    rewrite Hno. reflexivity.
Qed.

(** X15. What a click on the share button can do.  When the user
    dismisses the share sheet (the promise rejects with [AbortError])
    nothing else happens.  The message that the link was copied is shown
    only right after a clipboard write that succeeded, between the
    [copied] mark and the timer that clears it, and these end the click;
    the error message only right after a clipboard write that failed,
    and it ends the click; and every clipboard write carries the link of
    the button.  The write meant is the one just made: the write number
    [clipboard_writes before] of the click, [before] being what the
    handler did until then. *)
Theorem handleShare_feedback (tournamentId : string) (tournamentName : option string)
  (b : ShareButton.Browser) :
  let effects := ShareButton.handleShare tournamentId tournamentName b in
  let url := ShareButton.share_url tournamentId b in
  (ShareButton.can_share b = true ->
   ShareButton.share_result b = Some "AbortError" ->
   exists title text, effects = [ShareButton.NavigatorShare title text url])
  /\ (In (ShareButton.ToastSuccess "Tournament link copied to clipboard!") effects ->
      exists before,
        effects = (before ++ ShareButton.ClipboardWriteText url
                             :: [ ShareButton.SetCopied true;
                                  ShareButton.ToastSuccess "Tournament link copied to clipboard!";
                                  ShareButton.SetTimeout (ShareButton.SetCopied false) 2000 ])%list
        /\ ShareButton.writeText_result b (ShareButton.clipboard_writes before) = None)
  /\ (forall text,
        In (ShareButton.ToastError text) effects ->
        exists before,
          effects = (before ++ [ ShareButton.ClipboardWriteText url;
                                 ShareButton.ToastError text ])%list
          /\ ShareButton.writeText_result b (ShareButton.clipboard_writes before) <> None)
  /\ (forall link,
        In (ShareButton.ClipboardWriteText link) effects -> link = url).
Proof.
  intros effects url. subst effects url.
  unfold ShareButton.handleShare, ShareButton.on_error, ShareButton.copied_feedback.
  split.
  { intros -> ->. cbn. do 2 eexists. reflexivity. }
  set (url := ShareButton.share_url tournamentId b).
  destruct (ShareButton.can_share b);
    [destruct (ShareButton.share_result b) as [name|];
       [destruct (String.eqb name "AbortError"); cbn [negb];
          [|destruct (ShareButton.writeText_result b 0) as [e|] eqn:H0]|]
    |destruct (ShareButton.writeText_result b 0) as [name|] eqn:H0;
       [destruct (String.eqb name "AbortError"); cbn [negb];
          [|destruct (ShareButton.writeText_result b 1) as [e|] eqn:H1]|]];
    (split; [intros H|split; [intros text H|intros link H]]);
    cbn [In] in H;
    repeat (destruct H as [H|H]); try discriminate H; try contradiction;
    try (injection H as <-; reflexivity);
    try (injection H as <-);
    first [ exists []; split; [reflexivity|]; cbn; rewrite H0; discriminate
          | exists []; split; [reflexivity|]; cbn; exact H0
          | eexists [_]; split; [reflexivity|]; cbn; rewrite ?H0, ?H1; discriminate
          | eexists [_]; split; [reflexivity|]; cbn; first [exact H0|exact H1]
          | eexists [_; _]; split; [reflexivity|]; cbn; rewrite ?H0, ?H1; discriminate
          | eexists [_; _]; split; [reflexivity|]; cbn; first [exact H0|exact H1] ].
Qed.

(* ------------------------------------------------------------------ *)
(** ** Tournament pages *)
(* ------------------------------------------------------------------ *)

Lemma is_string_true (v : Json) (s : string) : is_string v s = true -> v = JStr s.
Proof.
  destruct v; try discriminate. cbn. intros H. apply String.eqb_eq in H. congruence.
Qed.

Lemma filter_rows_kept (p : Json -> option bool) (rows kept : list Json) :
  filter_rows p rows = Some kept ->
  forall m, In m kept -> In m rows /\ p m = Some true.
Proof.
  revert kept. induction rows as [|row rest IH]; intros kept; cbn [filter_rows].
  - intros H. injection H as <-. intros m [].
  - destruct (p row) as [keep|] eqn:Hrow; [|discriminate].
    destruct (filter_rows p rest) as [others|]; [|discriminate].
    intros H. injection H as <-. intros m Hm.
    destruct keep.
    + destruct Hm as [<-|Hm].
      * split; [left; reflexivity|exact Hrow].
      * destruct (IH others eq_refl m Hm) as [Hin Hp]. split; [right; exact Hin|exact Hp].
    + destruct (IH others eq_refl m Hm) as [Hin Hp]. split; [right; exact Hin|exact Hp].
Qed.

Lemma find_row_found (p : Json -> option bool) (rows : list Json) (x : Json) :
  find_row p rows = Some x ->
  x = JUndefined \/ (In x rows /\ p x = Some true).
Proof.
  induction rows as [|row rest IH]; cbn [find_row].
  - intros H. injection H as <-. left. reflexivity.
  - destruct (p row) as [[|]|] eqn:Hrow; [| |discriminate].
    + intros H. injection H as <-. right. split; [left; reflexivity|exact Hrow].
    + intros H. destruct (IH H) as [->|[Hin Hp]]; [left; reflexivity|].
      right. split; [right; exact Hin|exact Hp].
Qed.

(** X16. The two tournament pages leave before they show anything:
    the player page sends a visitor who is not signed in to ['/sign-in']
    without any query, and to ['/dashboard'] when the tournament query
    fails or finds nothing; the admin page sends everybody but an admin
    to ['/'] without any query, and to ['/admin/dashboard'] when the
    tournament is not found.  Neither page ever writes. *)
Theorem tournament_pages_redirect (id : string) (w : World) :
  let r := database w 0 (tournament_by_id id) in
  (current_user w = None ->
   request (Pages.TournamentDetailPage id) w
   = (Returned (Pages.Redirected "/sign-in"), []))
  /\ (current_user w <> None ->
      error r <> None \/ truthy (data r) = false ->
      request (Pages.TournamentDetailPage id) w
      = (Returned (Pages.Redirected "/dashboard"), [Queried (tournament_by_id id)]))
  /\ (not_admin (current_user w) = true ->
      request (Pages.AdminTournamentDetailPage id) w
      = (Returned (Pages.Redirected "/"), []))
  /\ (not_admin (current_user w) = false ->
      error r <> None \/ truthy (data r) = false ->
      request (Pages.AdminTournamentDetailPage id) w
      = (Returned (Pages.Redirected "/admin/dashboard"), [Queried (tournament_by_id id)]))
  /\ db_writes (snd (request (Pages.TournamentDetailPage id) w)) = []
  /\ db_writes (snd (request (Pages.AdminTournamentDetailPage id) w)) = [].
Proof.
  intros r. subst r.
  unfold request, Pages.TournamentDetailPage, Pages.AdminTournamentDetailPage.
  cbn [run bind getCurrentUser query].
  split; [intros ->; reflexivity|].
  split.
  { destruct (current_user w) as [u|]; [|congruence]. intros _ H. cbn [run bind query].
    destruct (error (database w 0 (tournament_by_id id))) as [e|]; [reflexivity|].
    destruct H as [H|H]; [congruence|]. rewrite H. reflexivity. }
  split; [intros ->; reflexivity|].
  split.
  { intros -> H. cbn [run bind query].
    destruct (error (database w 0 (tournament_by_id id))) as [e|]; [reflexivity|].
    destruct H as [H|H]; [congruence|]. rewrite H. reflexivity. }
  split.
  - destruct (current_user w) as [u|]; [|reflexivity]. cbn [run bind query].
    destruct (error (database w 0 (tournament_by_id id))) as [e|]; [reflexivity|].
    destruct (truthy (data (database w 0 (tournament_by_id id)))); [|reflexivity].
    cbn [negb run bind query].
    match goal with
    | |- context [orThrow ?a] => destruct a as [userMatch|]; [|reflexivity]
    end.
    cbn [orThrow run bind].
    match goal with
    | |- context [orThrow ?a] => destruct a as [upcoming|]; reflexivity
    end.
  - destruct (not_admin (current_user w)); [reflexivity|]. cbn [run bind query].
    destruct (error (database w 0 (tournament_by_id id))) as [e|]; [reflexivity|].
    destruct (truthy (data (database w 0 (tournament_by_id id)))); reflexivity.
Qed.

(** X17. What the player page hands on when it renders: the upcoming
    matches are matches of the tournament in which the signed-in user
    plays, that are pending and know both their players; the active
    match, when there is one, is a match of the tournament in which the
    user plays and that is going on, and it is not among the upcoming
    ones. *)
Theorem upcoming_matches_are_the_users (id : string) (w : World)
  (view : Pages.TournamentDetailView) (t : list Event) (rows : list Json) :
  request (Pages.TournamentDetailPage id) w = (Returned (Pages.Rendered view), t) ->
  data (database w 3 (matches_of id)) = JArr rows ->
  exists upcoming user,
    Pages.upcomingMatches view = JArr upcoming
    /\ current_user w = Some user
    /\ Pages.userId view = user_id user
    /\ (forall m, In m upcoming ->
          In m rows
          /\ Pages.plays (Pages.userId view) m = Some true
          /\ prop m "status" = JStr "pending"
          /\ truthy (prop m "player1_id") = true
          /\ truthy (prop m "player2_id") = true)
    /\ (Pages.userMatch view = JUndefined
        \/ (In (Pages.userMatch view) rows
            /\ Pages.plays (Pages.userId view) (Pages.userMatch view) = Some true
            /\ prop (Pages.userMatch view) "status" = JStr "ongoing"))
    /\ ~ In (Pages.userMatch view) upcoming.
Proof.
  unfold request, Pages.TournamentDetailPage. cbn [run bind getCurrentUser query].
  destruct (current_user w) as [[uid role]|]; [|discriminate]. cbn [run bind query user_id].
  destruct (error (database w 0 (tournament_by_id id))) as [e|]; [discriminate|].
  destruct (truthy (data (database w 0 (tournament_by_id id)))); [|discriminate].
  cbn [negb run bind query]. fold (matches_of id).
  intros Hrun Hrows. rewrite Hrows in Hrun. cbn [Pages.optional_call] in Hrun.
  destruct (find_row (Pages.is_active_match uid) rows) as [userMatch|] eqn:Hfind;
    [|discriminate].
  cbn [orThrow run bind] in Hrun.
  destruct (filter_rows (Pages.is_upcoming_match uid) rows) as [upcoming|] eqn:Hfilter;
    [|discriminate].
  cbn [option_map orThrow run bind] in Hrun.
  injection Hrun as <- _. cbn [Pages.upcomingMatches Pages.userMatch Pages.userId].
  exists upcoming, {| user_id := uid; user_role := role |}.
  split; [reflexivity|]. split; [reflexivity|]. split; [reflexivity|].
  assert (Hup : forall m, In m upcoming ->
            In m rows
            /\ Pages.plays uid m = Some true
            /\ prop m "status" = JStr "pending"
            /\ truthy (prop m "player1_id") = true
            /\ truthy (prop m "player2_id") = true).
  { intros m Hm. destruct (filter_rows_kept _ _ _ Hfilter m Hm) as [Hin Hp].
    split; [exact Hin|]. unfold Pages.is_upcoming_match in Hp.
    destruct (Pages.plays uid m) as [mine|]; [|discriminate]. cbn [option_map] in Hp.
    injection Hp as Hp.
    apply andb_prop in Hp. destruct Hp as [Hp H2].
    apply andb_prop in Hp. destruct Hp as [Hp H1].
    apply andb_prop in Hp. destruct Hp as [-> Hstatus].
    split; [reflexivity|]. split; [apply is_string_true, Hstatus|]. split; assumption. }
  assert (Hactive : userMatch = JUndefined
            \/ (In userMatch rows
                /\ Pages.plays uid userMatch = Some true
                /\ prop userMatch "status" = JStr "ongoing")).
  { destruct (find_row_found _ _ _ Hfind) as [->|[Hin Hp]]; [left; reflexivity|right].
    split; [exact Hin|]. unfold Pages.is_active_match in Hp.
    destruct (Pages.plays uid userMatch) as [mine|]; [|discriminate]. cbn [option_map] in Hp.
    injection Hp as Hp. apply andb_prop in Hp. destruct Hp as [-> Hstatus].
    split; [reflexivity|apply is_string_true, Hstatus]. }
  split; [exact Hup|]. split; [exact Hactive|].
  intros Hin. destruct (Hup _ Hin) as (_ & Hplays & Hstatus & _).
  destruct Hactive as [->|(_ & _ & Hongoing)]; [discriminate Hplays|].
  rewrite Hongoing in Hstatus. discriminate.
Qed.

Section MetadataProperties.

Variable ToString : Json -> string.
Variable NEXT_PUBLIC_SITE_URL : option string.

(** X18. The metadata of a tournament page.  Without a tournament row the
    fixed "not found" metadata are returned.  With one, the address of
    the Open Graph data is the player address of the tournament under
    the site address, which is the link that the share button offers on
    that site; and when the site address starts with [http] (as the
    default one does), the image of the Open Graph data and that of the
    Twitter card are one absolute address. *)
Theorem generateMetadata_links (id : string) (w : World) :
  let r := database w 0 (tournament_by_id id) in
  let site := site_url NEXT_PUBLIC_SITE_URL in
  exists meta,
    request (generateMetadata ToString NEXT_PUBLIC_SITE_URL id) w
    = (Returned meta, [Queried (tournament_by_id id)])
    /\ if truthy (data r)
       then prop (prop meta "openGraph") "url"
            = JStr (site ++ "/dashboard/tournaments/" ++ id)
            /\ (forall b,
                  ShareButton.origin b = site ->
                  includes "/admin/tournaments/" (ShareButton.pathname b) = false ->
                  prop (prop meta "openGraph") "url" = JStr (ShareButton.share_url id b))
            /\ (exists image,
                  prop (prop meta "twitter") "images" = JArr [JStr image]
                  /\ (exists card, prop (prop meta "openGraph") "images" = JArr [card]
                                   /\ prop card "url" = JStr image)
                  /\ (prefix "http" site = true -> prefix "http" image = true))
       else meta = not_found_metadata.
Proof.
  intros r site. subst r site.
  unfold request, generateMetadata. cbn [run bind query].
  destruct (truthy (data (database w 0 (tournament_by_id id)))); cbn [negb run].
  - eexists. split; [reflexivity|]. cbn.
    split; [reflexivity|]. split.
    + intros b Horigin Hpath. unfold ShareButton.share_url. rewrite Hpath, Horigin. reflexivity.
    + eexists. split; [reflexivity|]. split; [eexists; split; reflexivity|].
      intros Hsite. unfold fullPosterUrl.
      match goal with
      | |- context [if prefix "http" ?p then _ else _] => destruct (prefix "http" p) eqn:Hposter
      end; [exact Hposter|apply prefix_extended, Hsite].
  - eexists. split; reflexivity.
Qed.

End MetadataProperties.

(* ------------------------------------------------------------------ *)
(** ** Client components *)
(* ------------------------------------------------------------------ *)

Lemma with_status_spec (id : Json) (status : string) (messages : list Json) :
  Forall2 (fun m m' =>
             if strict_equal (prop m "id") id
             then prop m' "status" = JStr status
                  /\ forall k, k <> "status" -> NoDup (keys (own_fields m)) ->
                       prop m' k = match lookup k (own_fields m) with
                                   | Some v => v
                                   | None => JUndefined
                                   end
             else m' = m)
          messages (with_status id status messages).
Proof.
  induction messages as [|m rest IH]; cbn [with_status map]; constructor; [|exact IH].
  destruct (strict_equal (prop m "id") id); [|reflexivity].
  unfold object. cbn [fold_left add_member prop].
  change (fold_left (fun a kv => set_field (fst kv) (snd kv) a) (own_fields m) [])
    with (spread_over (own_fields m) []).
  split.
  - rewrite lookup_set_field. reflexivity.
  - intros k Hk Hdistinct. rewrite lookup_set_field.
    destruct (String.eqb k "status") eqn:E; [apply String.eqb_eq in E; contradiction|].
    rewrite lookup_spread_over, (lookup_rev k _ Hdistinct).
    destruct (lookup k (own_fields m)); reflexivity.
Qed.

Section Handlers.

Variable toISOString : Z -> string.
Variable Date_getTime : Json -> number.

(** X19. A click on an unread message of the list: one request,
    [updateMessageStatus(id, 'read')], whose answer is not looked at;
    whatever it was, the list then shows every message with that id as
    read and the others as before, and the message selected is the one
    clicked, as it was; a caller who is no admin has written nothing by
    then.  A click on a message that is not unread makes no request. *)
Theorem open_message_marks_read (messages : list Json) (message : Json)
  (server : nat -> World) :
  (is_string (prop message "status") "unread" = true ->
   exists t,
     run_handler toISOString Date_getTime (open_message messages message) server 0
     = (Returned tt,
        [ Requested (call_updateMessageStatus (as_string (prop message "id")) read) t;
          Shown (SetState "messages"
                   (JArr (with_status (prop message "id") "read" messages)));
          Shown (SetState "selectedMessage" message) ])
     /\ (not_admin (current_user (server 0%nat)) = true -> db_writes t = [])
     /\ Forall2 (fun m m' =>
                   if strict_equal (prop m "id") (prop message "id")
                   then prop m' "status" = JStr "read"
                   else m' = m)
                messages (with_status (prop message "id") "read" messages))
  /\ (is_string (prop message "status") "unread" = false ->
      run_handler toISOString Date_getTime (open_message messages message) server 0
      = (Returned tt, [Shown (SetState "selectedMessage" message)])).
Proof.
  unfold open_message. split; intros ->; [|reflexivity].
  cbn [run_handler then_ await show].
  unfold request, perform, updateMessageStatus. cbn [run bind getCurrentUser].
  destruct (not_admin (current_user (server 0%nat))) eqn:Hcaller; cbn [run bind query].
  - eexists. split; [reflexivity|]. split; [reflexivity|].
    eapply Forall2_impl; [|apply with_status_spec].
    intros m m'. cbn beta. destruct (strict_equal (prop m "id") (prop message "id")); tauto.
  - match goal with |- context [match error ?r with _ => _ end] => destruct (error r) end;
      cbn [run bind revalidatePath];
      (eexists; split; [reflexivity|]; split; [discriminate|]);
      (eapply Forall2_impl; [|apply with_status_spec]);
      intros m m'; cbn beta;
      destruct (strict_equal (prop m "id") (prop message "id")); tauto.
Qed.


(** X20. The reply button.  A reply of white space only is refused on the
    spot, without any request.  Otherwise one request is made,
    [replyToMessage]; when it reports an error (the caller is no admin,
    or the message is not found) the error is shown and nothing changes
    on the screen; when the message is found by an admin, the screen
    shows the message as replied and announces "Reply sent
    successfully!", whatever the database answered to the update. *)
Theorem send_reply_feedback (messages : list Json) (selectedMessage : Json)
  (replyText : string) (server : nat -> World) :
  let id := as_string (prop selectedMessage "id") in
  let w := server 0%nat in
  (blank replyText = true ->
   run_handler toISOString Date_getTime
     (send_reply messages selectedMessage replyText) server 0
   = (Returned tt, [Shown (Alert "Please enter a reply message")]))
  /\ (blank replyText = false ->
        requested (snd (run_handler toISOString Date_getTime
                          (send_reply messages selectedMessage replyText) server 0))
        = [call_replyToMessage id replyText]
        /\ shown (snd (run_handler toISOString Date_getTime
                         (send_reply messages selectedMessage replyText) server 0))
           = if not_admin (current_user w)
             then [Alert "Failed to send reply: Unauthorized"]
             else
               match error (database w 0 (find_message id)) with
               | Some _ => [Alert "Failed to send reply: Message not found"]
               | None =>
                   if truthy (data (database w 0 (find_message id)))
                   then [ SetState "messages"
                            (JArr (with_status (prop selectedMessage "id") "replied" messages));
                          SetState "selectedMessage"
                            (object [ Spread selectedMessage; "status" ::: JStr "replied" ]);
                          SetState "replyText" (JStr "");
                          Alert "Reply sent successfully!" ]
                   else [Alert "Failed to send reply: Message not found"]
               end).
Proof.
  intros id w. subst id w. unfold send_reply. split; intros ->; [reflexivity|].
  cbn [run_handler then_ catch await show].
  unfold request, perform, replyToMessage. cbn [run bind getCurrentUser].
  fold (find_message (as_string (prop selectedMessage "id"))).
  destruct (not_admin (current_user (server 0%nat))); cbn [run bind query].
  { split; reflexivity. }
  destruct (error (database (server 0%nat) 0 (find_message (as_string (prop selectedMessage "id")))));
    cbn [run bind query].
  { split; reflexivity. }
  destruct (truthy (data (database (server 0%nat) 0
                            (find_message (as_string (prop selectedMessage "id"))))));
    cbn [negb run bind query revalidatePath]; split; reflexivity.
Qed.

(** X21. The maintenance switch saves at once and optimistically: the
    screen first shows the toggled settings, then one request,
    [updateSystemSettings], is made with them; when its result carries an
    error the screen goes back to the settings as they were and shows
    the error, otherwise the toggled settings stay.  For a caller who is
    no admin nothing is written and the settings are restored. *)
Theorem maintenance_toggle_reverts_on_error (settings updated : Json)
  (server : nat -> World) :
  truthy settings = true ->
  toggled settings = Some updated ->
  exists res t l,
    request (updateSystemSettings toISOString updated) (server 0%nat) = (Returned res, t)
    /\ run_handler toISOString Date_getTime (handleMaintenanceToggle settings) server 0
       = (Returned tt, Shown (SetState "settings" updated)
                       :: Requested (call_updateSystemSettings updated) t :: l)
    /\ requested l = []
    /\ state_after "settings" (SetState "settings" updated :: shown l)
       = Some (if truthy (prop res "error") then settings else updated)
    /\ (truthy (prop res "error") = true ->
        In (Shown (Alert ("Failed to update maintenance mode: "
                          ++ as_string (prop res "error")))) l)
    /\ (not_admin (current_user (server 0%nat)) = true ->
        t = [] /\ truthy (prop res "error") = true).
Proof.
  intros Hsettings Hupdated. unfold handleMaintenanceToggle.
  rewrite Hsettings, Hupdated. cbn [run_handler then_ catch await show].
  unfold request, perform, updateSystemSettings. cbn [run bind getCurrentUser].
  destruct (not_admin (current_user (server 0%nat))); cbn [run bind query newDate].
  { do 3 eexists. split; [reflexivity|]. cbn. split; [reflexivity|].
    split. { reflexivity. }
    split. { reflexivity. }
    split. { intros _. cbn. auto. }
    intros _. split; reflexivity. }
  match goal with
  | |- context [match error ?r with _ => _ end] => destruct (error r) as [e|]
  end; cbn [run bind revalidatePath].
  - assert (Herr : forall x, prop (object [ "error" ::: x ]) "error" = x) by reflexivity.
    destruct (String.eqb (message e) "") eqn:Hempty;
      do 3 eexists; (split; [reflexivity|]);
      cbn [run_handler then_ catch show]; rewrite !Herr; cbn [Js.truthy as_string];
      rewrite !Hempty; cbn [negb run_handler then_ catch show].
    + split. { reflexivity. }
      split. { reflexivity. }
      split. { reflexivity. }
      split; discriminate.
    + split. { reflexivity. }
      split. { reflexivity. }
      split. { reflexivity. }
      split; [intros _; cbn; auto|discriminate].
  - do 3 eexists. split; [reflexivity|]. cbn.
    split. { reflexivity. }
    split. { reflexivity. }
    split. { reflexivity. }
    split; discriminate.
Qed.


Lemma createAnnouncement_returns (input : AnnouncementInput) (w : World) :
  exists res t, request (createAnnouncement toISOString input) w = (Returned res, t).
Proof.
  unfold request, createAnnouncement. cbn [run bind getCurrentUser].
  destruct (current_user w) as [u|]; [|do 2 eexists; reflexivity].
  destruct (String.eqb (user_role u) "admin"); cbn [negb]; [|do 2 eexists; reflexivity].
  destruct (scheduled_at input) as [s|]; cbn [opt_string Js.truthy];
    [destruct (String.eqb s ""); cbn [negb]|];
    destruct (target input);
    cbn [run bind query getCurrentUser newDate revalidatePath];
    match goal with |- context [match error ?r with _ => _ end] => destruct (error r) end;
    cbn [run bind revalidatePath]; do 2 eexists; reflexivity.
Qed.

Lemma getAnnouncements_returns (w : World) :
  exists res t, request getAnnouncements w = (Returned res, t).
Proof.
  unfold request, getAnnouncements. cbn [run bind getCurrentUser].
  destruct (not_admin (current_user w)); cbn [run bind query]; [do 2 eexists; reflexivity|].
  match goal with |- context [match error ?r with _ => _ end] => destruct (error r) end;
    do 2 eexists; reflexivity.
Qed.

(** X22. The send button of the compose form.  When [createAnnouncement]
    reports an error, the error is shown, nothing is reloaded and the
    form stays as it is.  When it reports none, the announcements and the
    statistics are reloaded; if both reloads return, the form is closed
    and emptied; if the reload of the statistics raises, the user is told
    "Failed to send announcement" and the form keeps its content, the
    announcement having been created all the same. *)
Theorem handleSendAnnouncement_feedback (composeData : ComposeData)
  (server : nat -> World) :
  exists res t l,
    request (createAnnouncement toISOString (announcement_of composeData)) (server 0%nat)
    = (Returned res, t)
    /\ run_handler toISOString Date_getTime (handleSendAnnouncement composeData) server 0
       = (Returned tt,
          Requested (call_createAnnouncement (announcement_of composeData)) t :: l)
    /\ if truthy (prop res "error")
       then l = [ Shown (ConsoleError "Error creating announcement:");
                  Shown (Alert ("Failed to create announcement: "
                                ++ as_string (prop res "error"))) ]
       else hd_error (requested l) = Some call_getAnnouncements
            /\ match fst (request (getCommunicationStats Date_getTime) (server 2%nat)) with
               | Returned _ =>
                   state_after "showCompose" (shown l) = Some (JBool false)
                   /\ state_after "composeData" (shown l) = Some empty_composeData
                   /\ forall text, ~ In (Alert text) (shown l)
               | Thrown _ =>
                   state_after "showCompose" (shown l) = None
                   /\ state_after "composeData" (shown l) = None
                   /\ In (Alert "Failed to send announcement") (shown l)
               end.
Proof.
  destruct (createAnnouncement_returns (announcement_of composeData) (server 0%nat))
    as (res & t & Hcreate).
  exists res, t. unfold handleSendAnnouncement.
  cbn [run_handler then_ catch await show perform]. rewrite Hcreate.
  cbn [run_handler then_ catch await show perform].
  destruct (truthy (prop res "error")).
  { cbn [run_handler then_ catch await show]. eexists. split; [reflexivity|].
    split; reflexivity. }
  cbn [run_handler then_ catch await show perform].
  destruct (getAnnouncements_returns (server 1%nat)) as (res1 & t1 & Hlist).
  rewrite Hlist. unfold set_if_data.
  cbn [run_handler then_ catch await show perform].
  destruct (truthy (prop res1 "data"));
    cbn [run_handler then_ catch await show perform];
    destruct (request (getCommunicationStats Date_getTime) (server 2%nat)) as [[res2|err] t2];
    cbn [run_handler then_ catch await show perform fst];
    try destruct (truthy (prop res2 "data"));
    cbn [run_handler then_ catch await show perform];
    (eexists; split; [reflexivity|]; split; [reflexivity|]; split; [reflexivity|]);
    cbn; (split; [reflexivity|]); (split; [reflexivity|]);
    try (intros text H; repeat (destruct H as [H|H]); try discriminate H; contradiction);
    auto 10.
Qed.

Ltac settle :=
  repeat (cbn [run_handler then_ catch await show set_if_data perform fst snd];
          match goal with
          | |- context [request ?a ?b] => destruct (request a b) as [[?|?] ?]
          | |- context [if truthy (prop ?r "data") then _ else _] =>
              destruct (truthy (prop r "data"))
          end).

(** X23. The two loaders always come to an end: whatever the three
    requests answer or raise, the handler returns, its requests are
    reading actions only, and the last thing it does is to clear the
    [loading] mark. *)
Theorem loaders_clear_loading (server : nat -> World) :
  (fst (run_handler toISOString Date_getTime loadCommunicationData server 0) = Returned tt
   /\ Forall (fun c => read_only c = true)
         (requested (snd (run_handler toISOString Date_getTime loadCommunicationData server 0)))
   /\ last (shown (snd (run_handler toISOString Date_getTime loadCommunicationData server 0)))
            (Alert "") = SetState "loading" (JBool false))
  /\ (fst (run_handler toISOString Date_getTime loadSystemData server 0) = Returned tt
      /\ Forall (fun c => read_only c = true)
            (requested (snd (run_handler toISOString Date_getTime loadSystemData server 0)))
      /\ last (shown (snd (run_handler toISOString Date_getTime loadSystemData server 0)))
               (Alert "") = SetState "loading" (JBool false)).
Proof.
  unfold loadCommunicationData, loadSystemData, set_if_data.
  split; settle; cbn [run_handler then_ catch await show set_if_data perform fst snd];
    (split; [reflexivity|]); (split; [|reflexivity]); cbn;
    repeat constructor.
Qed.

(** X27. The save button of the settings: without settings on the screen
    nothing happens; otherwise one request, [updateSystemSettings], is
    made with them, and the screen shows the error of its result when
    there is one, and closes the form with "Settings saved
    successfully!" when there is none. *)
Theorem handleSaveSettings_feedback (settings : Json) (server : nat -> World) :
  (truthy settings = false ->
   run_handler toISOString Date_getTime (handleSaveSettings settings) server 0
   = (Returned tt, []))
  /\ (truthy settings = true ->
      exists res t,
        request (updateSystemSettings toISOString settings) (server 0%nat) = (Returned res, t)
        /\ run_handler toISOString Date_getTime (handleSaveSettings settings) server 0
           = (Returned tt,
              Requested (call_updateSystemSettings settings) t
              :: map Shown
                   (if truthy (prop res "error")
                    then [ ConsoleError "Error saving settings:";
                           Alert ("Failed to save settings: " ++ as_string (prop res "error")) ]
                    else [ SetState "showSettings" (JBool false);
                           Alert "Settings saved successfully!" ]))).
Proof.
  unfold handleSaveSettings. split; intros ->; [reflexivity|].
  cbn [negb run_handler then_ catch await show].
  unfold request, perform, updateSystemSettings. cbn [run bind getCurrentUser].
  destruct (not_admin (current_user (server 0%nat))); cbn [run bind query newDate].
  { do 2 eexists. split; reflexivity. }
  assert (Herr : forall x, prop (object [ "error" ::: x ]) "error" = x) by reflexivity.
  match goal with
  | |- context [match error ?r with _ => _ end] => destruct (error r) as [e|]
  end; cbn [run bind revalidatePath].
  - destruct (String.eqb (message e) "") eqn:Hempty;
      do 2 eexists; (split; [reflexivity|]);
      cbn [run_handler then_ catch show]; rewrite !Herr; cbn [Js.truthy as_string];
      rewrite !Hempty; reflexivity.
  - do 2 eexists. split; reflexivity.
Qed.

End Handlers.

(* ------------------------------------------------------------------ *)
(** ** What the screens show of fresh data *)
(* ------------------------------------------------------------------ *)

Section Screens.

Variable toISOString : Z -> string.

(** X24. The card of an announcement that [createAnnouncement] has just
    inserted: its icon is the clock (the status is never ['sent']), and
    when it has no recipient, as always for the target ['specific'] and
    whenever the count came back [null], its open rate and its click
    rate are not numbers: 0 is divided by 0. *)
Theorem fresh_announcement_card (input : AnnouncementInput) (w : World) :
  is_admin w ->
  exists row,
    inserted_rows "announcements" (snd (request (createAnnouncement toISOString input) w))
    = [row]
    /\ getStatusIcon (as_string (prop row "status")) = Clock
    /\ (target input = target_specific \/ (forall q, count (database w 0 q) = None) ->
        openRate row = NaN /\ clickRate row = NaN).
Proof.
  intros Hadmin. destruct (admin_user w Hadmin) as (u & Hu & Hrole).
  unfold request, createAnnouncement. cbn [run bind getCurrentUser].
  rewrite Hu, Hrole. cbn [negb].
  destruct (scheduled_at input) as [s|]; cbn [opt_string Js.truthy];
    [destruct (String.eqb s ""); cbn [negb]|];
    destruct (target input);
    cbn [run bind query getCurrentUser newDate revalidatePath];
    match goal with |- context [match error ?r with _ => _ end] => destruct (error r) end;
    cbn [run bind revalidatePath snd];
    (eexists; split; [reflexivity|]; split; [reflexivity|]);
    (intros [Htarget|Hcount]; [try discriminate Htarget; split; reflexivity|]);
    unfold openRate, clickRate; rewrite ?Hcount; split; reflexivity.
Qed.

(** X25. The badge of the system health: the status that
    [getSystemHealth] reports to an admin is shown in green or in red;
    the yellow of ['warning'] and the grey of an unknown status are never
    used for it. *)
Theorem health_badge_is_green_or_red (w : World) :
  is_admin w ->
  exists res status,
    fst (request (getSystemHealth toISOString) w) = Returned res
    /\ prop (prop res "data") "status" = JStr status
    /\ (getHealthColor status = "text-green-600 bg-green-100"
        \/ getHealthColor status = "text-red-600 bg-red-100").
Proof.
  intros Hadmin. unfold request, getSystemHealth. cbn [run bind getCurrentUser].
  unfold is_admin in Hadmin. rewrite Hadmin. cbn [run bind query newDate fst].
  match goal with
  | |- context [classify_database ?e ?d] => destruct (classify_database e d)
  end; do 2 eexists; (split; [reflexivity|]); (split; [reflexivity|]);
    [left|right|right]; reflexivity.
Qed.

End Screens.

(** X28. The badges of the communication screen tell the values apart:
    the four announcement types get four different colours, and so do the
    four message priorities. *)
Theorem badge_colours_tell_values_apart :
  (forall t1 t2, getTypeColor (type_name t1) = getTypeColor (type_name t2) -> t1 = t2)
  /\ (forall p1 p2,
        getPriorityColor (priority_name p1) = getPriorityColor (priority_name p2) -> p1 = p2).
Proof.
  split.
  - intros [] []; cbn; intros H; try reflexivity; discriminate H.
  - intros [] []; cbn; intros H; try reflexivity; discriminate H.
Qed.

(** X26. The maintenance switch toggles one flag: in the settings that it
    saves, [platform.maintenance_mode] is the negation of the flag, every
    other key of [platform] and every other section are as before; and
    toggling again gives the flag back. *)
Theorem toggled_flips_only_the_flag (sections platform : list (string * Json)) :
  lookup "platform" sections = Some (JObj platform) ->
  NoDup (keys sections) -> NoDup (keys platform) ->
  exists updated,
    toggled (JObj sections) = Some updated
    /\ prop (prop updated "platform") "maintenance_mode"
       = JBool (negb (truthy (prop (JObj platform) "maintenance_mode")))
    /\ (forall k, k <> "maintenance_mode" ->
          prop (prop updated "platform") k = prop (JObj platform) k)
    /\ (forall k, k <> "platform" -> prop updated k = prop (JObj sections) k)
    /\ exists again,
         toggled updated = Some again
         /\ prop (prop again "platform") "maintenance_mode"
            = JBool (truthy (prop (JObj platform) "maintenance_mode")).
Proof.
  intros Hplatform Hsections Hkeys.
  assert (Hspread : forall (fields : list (string * Json)) k v k',
             NoDup (keys fields) ->
             prop (object [ Spread (JObj fields); k ::: v ]) k'
             = if String.eqb k' k then v else prop (JObj fields) k').
  { intros fields k v k' Hdistinct. unfold object. cbn [fold_left add_member own_fields prop].
    change (fold_left (fun a kv => set_field (fst kv) (snd kv) a) fields [])
      with (spread_over fields []).
    rewrite lookup_set_field. destruct (String.eqb k' k); [reflexivity|].
    rewrite lookup_spread_over, (lookup_rev k' fields Hdistinct).
    destruct (lookup k' fields); reflexivity. }
  unfold toggled. cbn [prop]. rewrite Hplatform. cbn [member option_map].
  eexists. split; [reflexivity|].
  set (flag := truthy (prop (JObj platform) "maintenance_mode")).
  set (platform' := object [ Spread (JObj platform); "maintenance_mode" ::: JBool (negb flag) ]).
  assert (Hnew : prop (object [ Spread (JObj sections); "platform" ::: platform' ]) "platform"
                 = platform').
  { rewrite Hspread by exact Hsections. reflexivity. }
  rewrite Hnew.
  split.
  { subst platform'. rewrite Hspread by exact Hkeys. reflexivity. }
  split.
  { intros k Hk. subst platform'. rewrite Hspread by exact Hkeys.
    destruct (String.eqb k "maintenance_mode") eqn:E; [|reflexivity].
    apply String.eqb_eq in E. contradiction. }
  split.
  { intros k Hk. rewrite Hspread by exact Hsections.
    destruct (String.eqb k "platform") eqn:E; [|reflexivity].
    apply String.eqb_eq in E. contradiction. }
  assert (Hflag : prop platform' "maintenance_mode" = JBool (negb flag)).
  { subst platform'. rewrite Hspread by exact Hkeys. reflexivity. }
  assert (Hmember : member platform' "maintenance_mode" = Some (JBool (negb flag))).
  { unfold member. rewrite Hflag. reflexivity. }
  rewrite Hmember. cbn [option_map]. eexists. split; [reflexivity|].
  assert (Hdistinct' : exists fields, platform' = JObj fields /\ NoDup (keys fields)).
  { eexists. split; [reflexivity|]. apply NoDup_object. constructor. }
  destruct Hdistinct' as (fields' & Hp' & Hkeys').
  assert (Hsections' : exists fields,
             object [ Spread (JObj sections); "platform" ::: platform' ] = JObj fields
             /\ NoDup (keys fields)).
  { eexists. split; [reflexivity|]. apply NoDup_object. constructor. }
  destruct Hsections' as (fields2 & Hs2 & Hkeys2).
  rewrite Hs2. rewrite (Hspread fields2) by exact Hkeys2. cbn [String.eqb Ascii.eqb Bool.eqb].
  rewrite Hp'. rewrite (Hspread fields') by exact Hkeys'.
  cbn [String.eqb Ascii.eqb Bool.eqb Js.truthy]. rewrite Bool.negb_involutive. reflexivity.
Qed.

(* ================================================================== *)
(** * The further properties on sample requests *)
(* ================================================================== *)

Import MoreSamples.

(** X1 on a sample request: an admin asks for the roles. *)
Lemma reads_never_write_witness :
  read_only call_getUserRoles = true
  /\ db_writes (snd (request (perform iso getTime call_getUserRoles) profiles_world)) = []
  /\ revalidations (snd (request (perform iso getTime call_getUserRoles) profiles_world)) = [].
Proof.
  split; [reflexivity|].
  apply (reads_never_write iso getTime call_getUserRoles profiles_world).
  reflexivity.
Defined.

(** X3 on a sample request: an admin schedules a notice for all players. *)
Lemma createAnnouncement_recipients_witness :
  current_user admin_world = Some an_admin
  /\ user_role an_admin = "admin"
  /\ let t := snd (request (createAnnouncement iso a_scheduled_announcement) admin_world) in
     exists row,
       inserted_rows "announcements" t = [row]
       /\ prop row "created_by" = JStr (user_id an_admin)
       /\ prop row "opened" = JNum (of_Z 0)
       /\ prop row "clicked" = JNum (of_Z 0)
       /\ exists counting insert,
            queries t = [counting; insert]
            /\ is_write counting = false
            /\ prop row "recipients"
               = JNum (count_or_0 (count (database admin_world 0 counting)))
            /\ (count (database admin_world 0 counting) = None ->
                prop row "recipients" = JNum (of_Z 0)).
Proof.
  split; [reflexivity|]. split; [reflexivity|].
  apply (createAnnouncement_recipients iso a_scheduled_announcement admin_world an_admin);
    reflexivity.
Defined.

(** X4 on a sample request: the compose form with an empty schedule. *)
Lemma empty_schedule_is_no_schedule_witness :
  is_admin admin_world
  /\ exists row,
       inserted_rows "announcements"
         (snd (request (createAnnouncement iso
                          (announcement_of
                             {| compose_title := "Welcome"; compose_content := "Season opens";
                                compose_type := type_general; compose_target := target_all;
                                scheduledAt := "" |}))
                       admin_world)) = [row]
       /\ prop row "status" = JStr "draft"
       /\ prop row "scheduled_at" = JNull
       /\ prop row "sent_at" = JStr (iso (clock admin_world 0)).
Proof.
  split; [reflexivity|].
  destruct (empty_schedule_is_no_schedule iso admin_world) as [Hform _]; [reflexivity|].
  exact (Hform {| compose_title := "Welcome"; compose_content := "Season opens";
                  compose_type := type_general; compose_target := target_all;
                  scheduledAt := "" |}).
Defined.

(** X6 on a sample request: two rows, one of them without profile. *)
Lemma getAdminMessages_keeps_rows_witness :
  is_admin messages_world
  /\ error (database messages_world 0
              {| from := "admin_messages";
                 steps := [Select message_columns; Order "created_at" false] |}) = None
  /\ data (database messages_world 0
             {| from := "admin_messages";
                steps := [Select message_columns; Order "created_at" false] |})
     = JArr message_rows
  /\ forallb (fun row => negb (nullish row)) message_rows = true
  /\ exists msgs t,
       request getAdminMessages messages_world
       = (Returned (object [ "data" ::: JArr msgs; "error" ::: JNull ]), t)
       /\ Forall2 (fun row msg =>
                     prop msg "id" = prop row "id"
                     /\ truthy (prop msg "player_name") = true
                     /\ nullish (prop msg "player_email") = false
                     /\ prop msg "subject" = prop row "subject"
                     /\ prop msg "content" = prop row "content"
                     /\ prop msg "status" = prop row "status"
                     /\ prop msg "priority" = prop row "priority")
                  message_rows msgs.
Proof.
  split; [reflexivity|]. split; [reflexivity|]. split; [reflexivity|]. split; [reflexivity|].
  apply (getAdminMessages_keeps_rows messages_world message_rows); reflexivity.
Defined.

(** X7 on a sample request: the stored row holds the maintenance flag. *)
Lemma getSystemSettings_merges_defaults_witness :
  is_admin settings_world
  /\ error (database settings_world 0 settings_query) = None
  /\ exists res,
       request getSystemSettings settings_world = (Returned res, [Queried settings_query])
       /\ prop res "error" = JNull
       /\ if truthy (data (database settings_world 0 settings_query))
          then forall section k,
                 In section sections ->
                 let stored := own_fields (or_else (prop (data (database settings_world 0
                                                                  settings_query)) section)
                                                   (object [])) in
                 NoDup (keys stored) ->
                 prop (prop (prop res "data") section) k
                 = match lookup k stored with
                   | Some v => v
                   | None => prop (prop defaultSettings section) k
                   end
          else prop res "data" = defaultSettings.
Proof.
  split; [reflexivity|]. split; [reflexivity|].
  apply (getSystemSettings_merges_defaults settings_world); [reflexivity|].
  left. reflexivity.
Defined.

(** X8 on a sample request: an admin saves the settings with the
    maintenance mode on. *)
Lemma updateSystemSettings_row_witness :
  is_admin admin_world
  /\ exists row,
       queries (snd (request (updateSystemSettings iso maintenance_on) admin_world))
       = [ {| from := "system_settings"; steps := [Upsert row] |} ]
       /\ prop row "updated_at" = JStr (iso (clock admin_world 0))
       /\ forall k,
            k <> "updated_at" ->
            NoDup (keys (own_fields maintenance_on)) ->
            prop row k = match lookup k (own_fields maintenance_on) with
                         | Some v => v
                         | None => own_default k
                         end.
Proof.
  split; [reflexivity|].
  apply (updateSystemSettings_row iso maintenance_on admin_world). reflexivity.
Defined.

(** X9 on a sample request: four profiles under two roles. *)
Lemma getUserRoles_counts_every_profile_witness :
  is_admin profiles_world
  /\ error (database profiles_world 0 roles_query) = None
  /\ data (database profiles_world 0 roles_query) = JArr profile_rows
  /\ forallb (fun row => negb (nullish row)) profile_rows = true
  /\ forallb typed_role profile_rows = true
  /\ Z.of_nat (List.length profile_rows) < 2 ^ 53
  /\ exists counts,
       request getUserRoles profiles_world
       = (Returned (object [ "data" ::: JArr (map role_entry counts); "error" ::: JNull ]),
          [Queried roles_query])
       /\ counts_profiles counts profile_rows
       /\ forallb plain_role (keys counts) = true.
Proof.
  split; [reflexivity|]. split; [reflexivity|]. split; [reflexivity|]. split; [reflexivity|].
  split; [reflexivity|]. split; [reflexivity|].
  apply (getUserRoles_counts_every_profile profiles_world profile_rows); reflexivity.
Defined.

(** X10 on sample data: one tournament of three is completed. *)
Lemma completionRate_is_a_percentage_witness :
  forallb (fun row => negb (nullish row)) tournament_rows = true
  /\ Z.of_nat (List.length tournament_rows) < 2 ^ 53
  /\ exists k, 0 <= k <= 100
               /\ Dashboard.completionRate_of tournament_rows = Some (of_Z k).
Proof.
  split; [reflexivity|]. split; [reflexivity|].
  apply (completionRate_is_a_percentage tournament_rows); reflexivity.
Defined.

(** X11 on sample data: six disputes on three matches. *)
Lemma disputeRate_exceeds_100_witness :
  (0 < 3)%nat /\ (0 < 2 <= 1000)%nat /\ Z.of_nat (2 * 3) < 2 ^ 53
  /\ Analytics.disputeRate (2 * 3) 3 = of_Z (100 * Z.of_nat 2).
Proof.
  split; [lia|]. split; [lia|]. split; [reflexivity|].
  apply (disputeRate_exceeds_100 2 3); [lia|lia|reflexivity].
Defined.

(** X12 on sample data: three matches among three players. *)
Lemma active_players_at_most_twice_matches_witness :
  forallb (fun row => negb (nullish row)) match_rows = true
  /\ exists active,
       Dashboard.activity match_rows = Some (active, List.length match_rows)
       /\ (active <= 2 * List.length match_rows)%nat.
Proof.
  split; [reflexivity|].
  apply (active_players_at_most_twice_matches match_rows). reflexivity.
Defined.

(** X13 on sample data: a format with two underscores. *)
Lemma badge_text_replaces_first_underscore_witness :
  includes "_" "round" = false
  /\ TournamentHeaderText.badge_text "round" = "round"
  /\ TournamentHeaderText.badge_text ("round" ++ String "_" "robin_double")
     = "round" ++ String " " "robin_double"
  /\ Dashboard.format_label ("round" ++ String "_" "robin_double")
     = upper ("round" ++ String " " "robin_double").
Proof.
  split; [reflexivity|].
  apply (badge_text_replaces_first_underscore "round" "robin_double"). reflexivity.
Defined.

(** X17 on a sample request: a player opens a tournament with three
    matches. *)
Lemma upcoming_matches_are_the_users_witness :
  request (Pages.TournamentDetailPage "t3") tournament_world
  = (Returned (Pages.Rendered a_view),
     snd (request (Pages.TournamentDetailPage "t3") tournament_world))
  /\ data (database tournament_world 3 (matches_of "t3")) = JArr match_rows
  /\ exists upcoming user,
       Pages.upcomingMatches a_view = JArr upcoming
       /\ current_user tournament_world = Some user
       /\ Pages.userId a_view = user_id user
       /\ (forall m, In m upcoming ->
             In m match_rows
             /\ Pages.plays (Pages.userId a_view) m = Some true
             /\ prop m "status" = JStr "pending"
             /\ truthy (prop m "player1_id") = true
             /\ truthy (prop m "player2_id") = true)
       /\ (Pages.userMatch a_view = JUndefined
           \/ (In (Pages.userMatch a_view) match_rows
               /\ Pages.plays (Pages.userId a_view) (Pages.userMatch a_view) = Some true
               /\ prop (Pages.userMatch a_view) "status" = JStr "ongoing"))
       /\ ~ In (Pages.userMatch a_view) upcoming.
Proof.
  split; [reflexivity|]. split; [reflexivity|].
  apply (upcoming_matches_are_the_users "t3" tournament_world a_view
           (snd (request (Pages.TournamentDetailPage "t3") tournament_world)) match_rows);
    reflexivity.
Defined.

(** X21 on a sample request: a player uses the maintenance switch. *)
Lemma maintenance_toggle_reverts_on_error_witness :
  truthy defaultSettings = true
  /\ toggled defaultSettings = Some maintenance_on
  /\ exists res t l,
       request (updateSystemSettings iso maintenance_on) (always player_world 0%nat)
       = (Returned res, t)
       /\ run_handler iso getTime (handleMaintenanceToggle defaultSettings)
            (always player_world) 0
          = (Returned tt, Shown (SetState "settings" maintenance_on)
                          :: Requested (call_updateSystemSettings maintenance_on) t :: l)
       /\ requested l = []
       /\ state_after "settings" (SetState "settings" maintenance_on :: shown l)
          = Some (if truthy (prop res "error") then defaultSettings else maintenance_on)
       /\ (truthy (prop res "error") = true ->
           In (Shown (Alert ("Failed to update maintenance mode: "
                             ++ as_string (prop res "error")))) l)
       /\ (not_admin (current_user (always player_world 0%nat)) = true ->
           t = [] /\ truthy (prop res "error") = true).
Proof.
  split; [reflexivity|]. split; [reflexivity|].
  apply (maintenance_toggle_reverts_on_error iso getTime defaultSettings maintenance_on
           (always player_world)); reflexivity.
Defined.

(** X24 on a sample request: an announcement for specific players. *)
Lemma fresh_announcement_card_witness :
  is_admin admin_world
  /\ exists row,
       inserted_rows "announcements"
         (snd (request (createAnnouncement iso an_immediate_announcement) admin_world))
       = [row]
       /\ getStatusIcon (as_string (prop row "status")) = Clock
       /\ (target an_immediate_announcement = target_specific
           \/ (forall q, count (database admin_world 0 q) = None) ->
           openRate row = NaN /\ clickRate row = NaN).
Proof.
  split; [reflexivity|].
  apply (fresh_announcement_card iso an_immediate_announcement admin_world). reflexivity.
Defined.

(** X25 on a sample request: an admin looks at the system health. *)
Lemma health_badge_is_green_or_red_witness :
  is_admin admin_world
  /\ exists res status,
       fst (request (getSystemHealth iso) admin_world) = Returned res
       /\ prop (prop res "data") "status" = JStr status
       /\ (getHealthColor status = "text-green-600 bg-green-100"
           \/ getHealthColor status = "text-red-600 bg-red-100").
Proof.
  split; [reflexivity|].
  apply (health_badge_is_green_or_red iso admin_world). reflexivity.
Defined.

(** X26 on sample data: the switch on the default settings. *)
Lemma toggled_flips_only_the_flag_witness :
  lookup "platform" (own_fields defaultSettings) = Some (JObj (own_fields default_platform))
  /\ NoDup (keys (own_fields defaultSettings))
  /\ NoDup (keys (own_fields default_platform))
  /\ exists updated,
       toggled (JObj (own_fields defaultSettings)) = Some updated
       /\ prop (prop updated "platform") "maintenance_mode"
          = JBool (negb (truthy (prop (JObj (own_fields default_platform)) "maintenance_mode")))
       /\ (forall k, k <> "maintenance_mode" ->
             prop (prop updated "platform") k = prop (JObj (own_fields default_platform)) k)
       /\ (forall k, k <> "platform" ->
             prop updated k = prop (JObj (own_fields defaultSettings)) k)
       /\ exists again,
            toggled updated = Some again
            /\ prop (prop again "platform") "maintenance_mode"
               = JBool (truthy (prop (JObj (own_fields default_platform)) "maintenance_mode")).
Proof.
  assert (Hsections : NoDup (keys (own_fields defaultSettings))).
  { apply (NoDup_object [ "platform" ::: default_platform; "security" ::: default_security;
                          "notifications" ::: default_notifications;
                          "payments" ::: default_payments ] []).
    constructor. }
  assert (Hplatform : NoDup (keys (own_fields default_platform))).
  { apply (NoDup_object [ "name" ::: JStr "GOALDEN"; "version" ::: JStr "1.2.0";
                          "maintenance_mode" ::: JBool false;
                          "registration_enabled" ::: JBool true;
                          "tournaments_enabled" ::: JBool true ] []).
    constructor. }
  split; [reflexivity|]. split; [exact Hsections|]. split; [exact Hplatform|].
  apply (toggled_flips_only_the_flag (own_fields defaultSettings) (own_fields default_platform));
    [reflexivity|exact Hsections|exact Hplatform].
Defined.
